(** * Gradient synchronisation in chainermn: the NCCL communicators

    A shallow embedding of
    [chainermn/communicators/pure_nccl_communicator.py] and
    [chainermn/communicators/single_node_communicator.py].

    Python objects become records, attribute mutation becomes explicit
    state passing in a state-and-exception monad (the state survives a
    raised exception, as a Python object does), device memory is a list of
    bytes, and the parameters of a model live in a store addressed by
    location, because the communicators mutate them in place. *)

From Stdlib Require Import List String Ascii Bool Arith PeanoNat NArith Lia.
From Stdlib Require Import Strings.Byte.
From Stdlib Require Import Sorting.Sorted Sorting.Permutation.
Import ListNotations.

Set Implicit Arguments.
Open Scope string_scope.
Open Scope list_scope.
Open Scope nat_scope.

Local Abbreviation length := List.length.

(** ** numpy dtypes *)

(** The scalar types numpy offers on a 64-bit Linux host, where the
    extended-precision [longdouble] is stored on 16 bytes. *)
Inductive dtype : Set :=
| bool_ | int8 | int16 | int32 | int64
| uint8 | uint16 | uint32 | uint64
| float16 | float32 | float64 | longdouble
| complex64 | complex128.

Definition dtype_eq_dec (a b : dtype) : {a = b} + {a <> b}.
Proof. decide equality. Defined.

Definition dtype_eqb (a b : dtype) : bool :=
  if dtype_eq_dec a b then true else false.

(** [dtype.kind] *)
Definition kind (d : dtype) : ascii :=
  match d with
  | bool_ => "b"
  | int8 | int16 | int32 | int64 => "i"
  | uint8 | uint16 | uint32 | uint64 => "u"
  | float16 | float32 | float64 | longdouble => "f"
  | complex64 | complex128 => "c"
  end%char.

(** [dtype.itemsize] *)
Definition itemsize (d : dtype) : nat :=
  match d with
  | bool_ | int8 | uint8 => 1
  | int16 | uint16 | float16 => 2
  | int32 | uint32 | float32 => 4
  | int64 | uint64 | float64 | complex64 => 8
  | longdouble | complex128 => 16
  end.

(** ** Python exceptions *)

Inductive exn : Set :=
| RuntimeError (msg : string)
| ValueError (msg : string)
| IndexError
| AttributeError
| AssertionError
| ZeroDivisionError.

(** ** The state-and-exception monad *)

Definition M (S A : Type) : Type := S -> (exn + A) * S.

Definition ret {S A} (a : A) : M S A := fun s => (inr a, s).

Definition raise {S A} (e : exn) : M S A := fun s => (inl e, s).

Definition bind {S A B} (m : M S A) (k : A -> M S B) : M S B :=
  fun s =>
    match m s with
    | (inr a, s') => k a s'
    | (inl e, s') => (inl e, s')
    end.

Definition get {S} : M S S := fun s => (inr s, s).

Definition modify {S} (f : S -> S) : M S unit := fun s => (inr tt, f s).

Definition when {S} (b : bool) (m : M S unit) : M S unit :=
  if b then m else ret tt.

Declare Scope monad_scope.
Delimit Scope monad_scope with monad.
Notation "x <- m ;; k" := (bind m (fun x => k))
  (at level 61, m at next level, right associativity) : monad_scope.
Notation "m ;; k" := (bind m (fun _ => k))
  (at level 61, right associativity) : monad_scope.
Open Scope monad_scope.

(** What a call did: its outcome and the state it left. *)
Definition outcome {S A} (r : (exn + A) * S) : exn + A := fst r.
Definition final {S A} (r : (exn + A) * S) : S := snd r.

Definition returns {S A} (r : (exn + A) * S) : Prop :=
  exists a, outcome r = inr a.

Definition raises {S A} (r : (exn + A) * S) (e : exn) : Prop :=
  outcome r = inl e.

(** A computation keeps an observation [f] of the state when the state it
    leaves, whether it returns or raises, shows what the state it started
    from showed. *)
Definition keeps {S A X} (f : S -> X) (m : M S A) : Prop :=
  forall s, f (final (m s)) = f s.

(** A computation never lowers a measure [f] of the state, whether it
    returns or raises. *)
Definition grows {S A} (f : S -> nat) (m : M S A) : Prop :=
  forall s, f s <= f (final (m s)).

(** ** Raw device bytes *)

(** Overwrite [mem] with [bs] from byte [off] on; the block keeps its
    length, so bytes that would land past its end are dropped. A copy that
    fits its destination is written in full; the statements about the
    bytes a copy leaves assume views and buffers wide enough for it. *)
Definition write (off : nat) (bs mem : list byte) : list byte :=
  firstn (length mem) (firstn off mem ++ bs ++ skipn (off + length bs) mem).

(** The [n] bytes of [mem] from byte [off] on. *)
Definition read (off n : nat) (mem : list byte) : list byte :=
  firstn n (skipn off mem).

(** ** Arrays, parameters and models *)

(** A device array: its [dtype], its element count [size] and the bytes it
    occupies. *)
Record ndarray : Set := {
  arr_dtype : dtype;
  arr_size : nat;
  arr_raw : list byte
}.

(** A trainable parameter: an optional data view and an optional gradient
    view ([None] in Python). *)
Record Param : Set := {
  data : option ndarray;
  grad : option ndarray
}.

(** Parameters are objects shared between the model and the communicator:
    the store maps a location to the parameter that lives there. *)
Definition loc : Set := nat.
Definition Store : Set := loc -> Param.

Definition store_set (h : Store) (l : loc) (p : Param) : Store :=
  fun l' => if Nat.eqb l' l then p else h l'.

(** [model.namedparams()]: the named parameters, in the order the model
    yields them. *)
Definition Model : Set := list (string * loc).

(** The attribute name handed to [pack_params] and [unpack_params]:
    ['data'] or ['grad']. *)
Inductive Attr : Set := attr_data | attr_grad.

Definition getattr (p : Param) (a : Attr) : option ndarray :=
  match a with attr_data => data p | attr_grad => grad p end.

Definition setattr (p : Param) (a : Attr) (v : ndarray) : Param :=
  match a with
  | attr_data => {| data := Some v; grad := grad p |}
  | attr_grad => {| data := data p; grad := Some v |}
  end.

(** ** The collective library and the numeric kernels *)

Inductive NcclType : Set := NCCL_FLOAT16 | NCCL_FLOAT32 | NCCL_FLOAT64.

(** Modelled from the spec: the constants of the [nccl] module, which is
    not part of the sources at hand. [NCCL_FLOAT] is the fixed 4-byte wire
    type of the single-node variant. *)
Definition NCCL_FLOAT : NcclType := NCCL_FLOAT32.

Definition nccl_type_size (t : NcclType) : nat :=
  match t with NCCL_FLOAT16 => 2 | NCCL_FLOAT32 => 4 | NCCL_FLOAT64 => 8 end.

Inductive NcclOp : Set := NCCL_SUM.

Inductive Stream : Set :=
| Stream_null
| Stream_user (id : nat).

Definition Stream_eqb (a b : Stream) : bool :=
  match a, b with
  | Stream_null, Stream_null => true
  | Stream_user i, Stream_user j => Nat.eqb i j
  | _, _ => false
  end.

(** The arithmetic done by the device libraries, opaque to the
    communicators: element-wise conversion of an array ([ndarray.astype]),
    the product of an array of a given dtype with the Python float
    [1.0 / n], the sum NCCL forms of two contributions, and the naive
    broadcast of a model's data over MPI. *)
Class Externals : Type := {
  astype_raw : dtype -> dtype -> list byte -> list byte;
  mul_recip_raw : dtype -> nat -> list byte -> list byte;
  sum_raw : NcclType -> list byte -> list byte -> list byte;
  mpi_broadcast_naive : Model -> Store -> Store
}.

(** ** Device buffers *)

(** Modelled from the spec: [_memory_utility.DeviceMemory], the Device
    Buffer of the spec, which is not part of the sources at hand. It owns
    one allocation, whose length is its capacity in bytes; [assign] grows
    the allocation and never shrinks it; a zero-sized buffer is valid.
    Device memory is taken to be plentiful: the [AllocationError] of an
    exhausted device is not represented, so what is stated of [assign] is
    stated of the calls that return. *)
Record DeviceMemory : Set := { memory : list byte }.

Definition capacity_bytes (m : DeviceMemory) : nat := length (memory m).

Definition DeviceMemory_new : DeviceMemory := {| memory := [] |}.

Definition dm_assign (n_bytes : nat) (m : DeviceMemory) : DeviceMemory :=
  if capacity_bytes m <? n_bytes
  then {| memory := repeat x00 n_bytes |}
  else m.

(** [array(count, dtype)]: a typed view from the base of the buffer. *)
Definition dm_array (count : nat) (dt : dtype) (m : DeviceMemory) : ndarray :=
  {| arr_dtype := dt; arr_size := count;
     arr_raw := read 0 (count * itemsize dt) (memory m) |}.

(** Overwrite the bytes of the buffer from [offset] on. *)
Definition dm_write (offset : nat) (bs : list byte) (m : DeviceMemory)
    : DeviceMemory :=
  {| memory := write offset bs (memory m) |}.

(** [from_device(src, size, offset)]: copy [size] bytes of [src] into the
    buffer at [offset]. *)
Definition dm_from_device (src : ndarray) (size offset : nat)
    (m : DeviceMemory) : DeviceMemory :=
  dm_write offset (firstn size (arr_raw src)) m.

(** [to_device(dst, size, offset)]: copy [size] bytes of the buffer from
    [offset] into the array [dst]. *)
Definition dm_to_device (dst : ndarray) (size offset : nat)
    (m : DeviceMemory) : ndarray :=
  {| arr_dtype := arr_dtype dst; arr_size := arr_size dst;
     arr_raw := write 0 (read offset size (memory m)) (arr_raw dst) |}.

(** ** The world around a communicator *)

(** What the communicator asked of its collaborators, in program order. *)
Inductive Event : Set :=
| EvDeviceMemory (name : string)
| EvInitIntraMpiComm
| EvInitNcclComm (handle : nat)
| EvBroadcastNaive
| EvAssign (buf : string) (n_bytes : nat)
| EvPack (params : list loc) (item_size : nat) (attr : Attr) (buf : string)
| EvUnpack (params : list loc) (item_size : nat) (attr : Attr) (buf : string)
| EvAstype (src dst : dtype)
| EvMulRecip (dt : dtype) (n : nat)
| EvFromDevice (buf : string) (n_bytes : nat)
| EvSynchronize (s : Stream)
| EvAllReduce (comm : nat) (src dst : string) (count : nat) (ty : NcclType)
    (op : NcclOp) (s : Stream) (sent : list byte)
| EvBcast (comm : nat) (buf : string) (count : nat) (ty : NcclType)
    (root : nat) (s : Stream).

(** The events that scale an array by [1.0 / n]. *)
Definition is_scaling (e : Event) : bool :=
  match e with EvMulRecip _ _ => true | _ => false end.

Record World : Set := {
  nccl_available : bool;          (* nccl._available *)
  nccl_version : nat;             (* nccl.get_version() *)
  comms_created : nat;            (* NCCL communicators constructed so far *)
  heap : Store;                   (* the parameters of the model *)
  peers : list (list byte);       (* send buffers of the other ranks *)
  root_memory : option (list byte); (* the root's buffer in a broadcast;
                                       None on the root itself *)
  log : list Event
}.

Definition with_heap (h : Store) (w : World) : World :=
  {| nccl_available := nccl_available w; nccl_version := nccl_version w;
     comms_created := comms_created w; heap := h; peers := peers w;
     root_memory := root_memory w; log := log w |}.

Definition with_log (l : list Event) (w : World) : World :=
  {| nccl_available := nccl_available w; nccl_version := nccl_version w;
     comms_created := comms_created w; heap := heap w; peers := peers w;
     root_memory := root_memory w; log := l |}.

Definition with_comms_created (n : nat) (w : World) : World :=
  {| nccl_available := nccl_available w; nccl_version := nccl_version w;
     comms_created := n; heap := heap w; peers := peers w;
     root_memory := root_memory w; log := log w |}.

(** A communicator state gives access to the world it runs in. *)
Class HasWorld (S : Type) : Type := {
  world : S -> World;
  set_world : World -> S -> S
}.

(** A device buffer held in an attribute of the communicator. *)
Record BufRef (S : Type) : Type := {
  buf_name : string;
  buf_get : S -> DeviceMemory;
  buf_set : DeviceMemory -> S -> S
}.

(** The capacity in bytes of a buffer of the communicator. *)
Definition capacity {S : Type} (b : BufRef S) (s : S) : nat :=
  capacity_bytes (buf_get b s).

(** Modelled from the spec: the process-group substrate, which is not part
    of the sources at hand: the rank and size of the MPI communicator and
    the 5-tuple the topology query [init_ranks] answers
    (global rank, intra rank, intra size, inter rank, inter size). *)
Record MpiComm : Set := {
  mpi_rank : nat;
  mpi_size : nat;
  mpi_my_ranks : nat * nat * nat * nat * nat
}.

(** Modelled from the spec: the attributes the constructor of
    [_base.CommunicatorBase], which is not part of the sources at hand,
    leaves on the instance. *)
Record CommunicatorBase : Set := {
  mpi_comm : MpiComm;
  intra_rank : nat;
  intra_size : nat;
  inter_rank : nat;
  inter_size : nat;
  inter_mpi_comm : option MpiComm
}.

(** [self.size], the size of the whole process group. *)
Definition size (b : CommunicatorBase) : nat := mpi_size (mpi_comm b).

(** ** Operations of the collaborators *)

Section Operations.

Context {E : Externals} {St : Type} {HW : HasWorld St}.

Definition emit (e : Event) : M St unit :=
  modify (fun s => set_world (with_log (log (world s) ++ [e]) (world s)) s).

Definition update_buf (b : BufRef St) (f : DeviceMemory -> DeviceMemory)
    : M St unit :=
  modify (fun s => buf_set b (f (buf_get b s)) s).

(** [getattr(param, attr_name)] followed by an attribute access on the
    view: a view that is [None] has no attribute to read. *)
Definition view (p : loc) (a : Attr) : M St ndarray :=
  s <- get ;;
  match getattr (heap (world s) p) a with
  | Some v => ret v
  | None => raise AttributeError
  end.

Definition set_view (p : loc) (a : Attr) (v : ndarray) : M St unit :=
  modify (fun s =>
    let w := world s in
    set_world (with_heap (store_set (heap w) p (setattr (heap w p) a v)) w) s).

(** *** Device buffers *)

Definition assign (b : BufRef St) (n_bytes : nat) : M St unit :=
  emit (EvAssign (buf_name b) n_bytes) ;;
  update_buf b (dm_assign n_bytes).

Definition array (b : BufRef St) (count : nat) (dt : dtype) : M St ndarray :=
  s <- get ;; ret (dm_array count dt (buf_get b s)).

Definition from_device (b : BufRef St) (src : ndarray) (n_bytes : nat)
    : M St unit :=
  emit (EvFromDevice (buf_name b) n_bytes) ;;
  update_buf b (dm_from_device src n_bytes 0).

(** *** Array arithmetic *)

(** [a.astype(dt)] *)
Definition astype (a : ndarray) (dt : dtype) : M St ndarray :=
  emit (EvAstype (arr_dtype a) dt) ;;
  ret {| arr_dtype := dt; arr_size := arr_size a;
         arr_raw := astype_raw (arr_dtype a) dt (arr_raw a) |}.

(** [a * (1.0 / n)]: a new array; the division raises when [n] is zero. *)
Definition mul_recip (a : ndarray) (n : nat) : M St ndarray :=
  if n =? 0 then raise ZeroDivisionError
  else
    emit (EvMulRecip (arr_dtype a) n) ;;
    ret {| arr_dtype := arr_dtype a; arr_size := arr_size a;
           arr_raw := mul_recip_raw (arr_dtype a) n (arr_raw a) |}.

(** [arr *= (1.0 / n)] for [arr] a view of [count] elements at the base of
    buffer [b]: the product is written through the view. *)
Definition imul_recip (b : BufRef St) (count : nat) (dt : dtype) (n : nat)
    : M St unit :=
  if n =? 0 then raise ZeroDivisionError
  else
    emit (EvMulRecip dt n) ;;
    update_buf b (fun m =>
      dm_write 0 (mul_recip_raw dt n (read 0 (count * itemsize dt) (memory m)))
        m).

(** *** Parameter extraction *)

(** [sorted(model.namedparams())]: by name, keeping the model's order
    between equal names. *)
Fixpoint insert_by_name (x : string * loc) (l : Model) : Model :=
  match l with
  | [] => [x]
  | y :: l' =>
      if String.leb (fst x) (fst y) then x :: l
      else y :: insert_by_name x l'
  end.

Definition sorted (m : Model) : Model := fold_right insert_by_name [] m.

Definition has_grad (p : Param) : bool :=
  match grad p with Some _ => true | None => false end.

(** Modelled from the spec: [_memory_utility.extract_params], which is not
    part of the sources at hand: the parameters whose gradient view is
    present, sorted on parameter name; the others are skipped silently. *)
Definition extract_params (model : Model) : M St (list loc) :=
  s <- get ;;
  ret (map snd (filter (fun np => has_grad (heap (world s) (snd np)))
                       (sorted model))).

(** [sum(param.grad.size for param in params)] *)
Fixpoint sum_grad_size (params : list loc) (acc : nat) : M St nat :=
  match params with
  | [] => ret acc
  | p :: rest =>
      g <- view p attr_grad ;;
      sum_grad_size rest (acc + arr_size g)
  end.

(** *** Pack and unpack *)

Fixpoint pack_walk (params : list loc) (item_size : nat) (attr : Attr)
    (b : BufRef St) (offset : nat) : M St unit :=
  match params with
  | [] => ret tt
  | p :: rest =>
      v <- view p attr ;;
      let n_bytes := arr_size v * item_size in
      update_buf b (dm_from_device v n_bytes offset) ;;
      pack_walk rest item_size attr b (offset + n_bytes)
  end.

(** Modelled from the spec: [_memory_utility.pack_params], which is not
    part of the sources at hand: walk the parameters in order and copy
    [count * item_size] bytes of the selected view of each into the buffer
    at the running offset, advancing the offset by that size. *)
Definition pack_params (params : list loc) (item_size : nat) (attr : Attr)
    (b : BufRef St) : M St unit :=
  emit (EvPack params item_size attr (buf_name b)) ;;
  pack_walk params item_size attr b 0.

Fixpoint unpack_walk (params : list loc) (item_size : nat) (attr : Attr)
    (b : BufRef St) (offset : nat) : M St unit :=
  match params with
  | [] => ret tt
  | p :: rest =>
      v <- view p attr ;;
      let n_bytes := arr_size v * item_size in
      s <- get ;;
      set_view p attr (dm_to_device v n_bytes offset (buf_get b s)) ;;
      unpack_walk rest item_size attr b (offset + n_bytes)
  end.

(** Modelled from the spec: [_memory_utility.unpack_params], which is not
    part of the sources at hand: the inverse walk, copying from the running
    offset of the buffer back into the selected view of each parameter. *)
Definition unpack_params (params : list loc) (item_size : nat) (attr : Attr)
    (b : BufRef St) : M St unit :=
  emit (EvUnpack params item_size attr (buf_name b)) ;;
  unpack_walk params item_size attr b 0.

(** *** The collective library *)

(** Modelled from the spec: the construction of an NCCL communicator by
    [_communication_utility], which is not part of the sources at hand.
    The handle is numbered by the count of constructions before it. *)
Definition init_nccl_comm : M St nat :=
  s <- get ;;
  let h := comms_created (world s) in
  modify (fun s => set_world (with_comms_created (S h) (world s)) s) ;;
  emit (EvInitNcclComm h) ;;
  ret h.

(** [comm.allReduce(src.ptr(), dst.ptr(), count, ty, op, stream.ptr)]:
    the first [count] elements of [dst] become the sum, over the ranks of
    the group, of the first [count] elements of their [src]. *)
Definition allReduce (comm : nat) (src dst : BufRef St) (count : nat)
    (ty : NcclType) (op : NcclOp) (stream : Stream) : M St unit :=
  s <- get ;;
  let n_bytes := count * nccl_type_size ty in
  let sent := read 0 n_bytes (memory (buf_get src s)) in
  emit (EvAllReduce comm (buf_name src) (buf_name dst) count ty op stream
          sent) ;;
  update_buf dst
    (dm_write 0 (firstn n_bytes
                   (fold_left (sum_raw ty) (peers (world s)) sent))).

(** [comm.bcast(buf.ptr(), count, ty, root, stream.ptr)]: on every rank
    but the root the first [count] elements of [buf] become the root's. *)
Definition bcast (comm : nat) (buf : BufRef St) (count : nat)
    (ty : NcclType) (root : nat) (stream : Stream) : M St unit :=
  s <- get ;;
  emit (EvBcast comm (buf_name buf) count ty root stream) ;;
  match root_memory (world s) with
  | None => ret tt
  | Some bs =>
      update_buf buf (dm_write 0 (firstn (count * nccl_type_size ty) bs))
  end.

Definition synchronize (stream : Stream) : M St unit :=
  emit (EvSynchronize stream).

(** Modelled from the spec: [_communication_utility.broadcast_naive],
    which is not part of the sources at hand: the naive broadcast of the
    process-group substrate, which needs no NCCL communicator. *)
Definition broadcast_naive (model : Model) : M St unit :=
  emit EvBroadcastNaive ;;
  modify (fun s =>
    set_world (with_heap (mpi_broadcast_naive model (heap (world s)))
                 (world s)) s).

End Operations.

(** ** What the walks compute *)

(** The element count of the selected views of [params], as
    [sum_grad_size] adds them up. *)
Fixpoint total_size (h : Store) (attr : Attr) (params : list loc) : nat :=
  match params with
  | [] => 0
  | p :: rest =>
      match getattr (h p) attr with
      | Some v => arr_size v + total_size h attr rest
      | None => 0
      end
  end.

(** The bytes of a buffer after [pack_walk] has run over [params] from
    [offset]. *)
Fixpoint pack_mem (h : Store) (params : list loc) (item_size : nat)
    (attr : Attr) (offset : nat) (mem : list byte) : list byte :=
  match params with
  | [] => mem
  | p :: rest =>
      match getattr (h p) attr with
      | Some v =>
          let n_bytes := arr_size v * item_size in
          pack_mem h rest item_size attr (offset + n_bytes)
            (write offset (firstn n_bytes (arr_raw v)) mem)
      | None => mem
      end
  end.

(** The store after [unpack_walk] has run over [params] from [offset] of a
    buffer holding [mem]. *)
Fixpoint unpack_store (params : list loc) (item_size : nat) (attr : Attr)
    (offset : nat) (mem : list byte) (h : Store) : Store :=
  match params with
  | [] => h
  | p :: rest =>
      match getattr (h p) attr with
      | Some v =>
          let n_bytes := arr_size v * item_size in
          unpack_store rest item_size attr (offset + n_bytes) mem
            (store_set h p
               (setattr (h p) attr
                  (dm_to_device v n_bytes offset {| memory := mem |})))
      | None => h
      end
  end.

(** The regions of [mem] that [unpack_walk] reads for [params] from
    [offset] hold what the views already hold. *)
Fixpoint restores (h : Store) (params : list loc) (item_size : nat)
    (attr : Attr) (offset : nat) (mem : list byte) : Prop :=
  match params with
  | [] => True
  | p :: rest =>
      match getattr (h p) attr with
      | Some v =>
          let n_bytes := arr_size v * item_size in
          write 0 (read offset n_bytes mem) (arr_raw v) = arr_raw v
          /\ restores h rest item_size attr (offset + n_bytes) mem
      | None => True
      end
  end.

(** Every parameter of the list has the selected view. *)
Definition all_views (h : Store) (attr : Attr) (params : list loc) : Prop :=
  Forall (fun p => getattr (h p) attr <> None) params.

(** The bytes [pack_walk] copies from the selected views of [params], one
    parameter after the other. *)
Fixpoint packed (h : Store) (params : list loc) (item_size : nat)
    (attr : Attr) : list byte :=
  match params with
  | [] => []
  | p :: rest =>
      match getattr (h p) attr with
      | Some v =>
          firstn (arr_size v * item_size) (arr_raw v)
          ++ packed h rest item_size attr
      | None => []
      end
  end.

(** Every parameter of the list has the selected view, and the view holds
    at least [item_size] bytes for each of its elements. *)
Definition full_views (h : Store) (item_size : nat) (attr : Attr)
    (params : list loc) : Prop :=
  Forall (fun p => exists v, getattr (h p) attr = Some v
                             /\ arr_size v * item_size <= length (arr_raw v))
    params.

(** Two optional views with the same dtype, element count and byte
    length: both present or both [None]. *)
Definition same_shape (o o' : option ndarray) : Prop :=
  match o, o' with
  | Some v, Some v' =>
      arr_dtype v' = arr_dtype v
      /\ arr_size v' = arr_size v
      /\ length (arr_raw v') = length (arr_raw v)
  | None, None => True
  | _, _ => False
  end.

(** Two optional views with the same bytes past the block a copy of
    [item_size] bytes an element covers: past the first
    [arr_size * item_size] bytes of the array. *)
Definition same_tail (item_size : nat) (o o' : option ndarray) : Prop :=
  match o, o' with
  | Some v, Some v' =>
      skipn (arr_size v * item_size) (arr_raw v')
      = skipn (arr_size v * item_size) (arr_raw v)
  | _, _ => True
  end.

(** The order [sorted] puts the named parameters in. *)
Definition name_le (x y : string * loc) : Prop :=
  String.leb (fst x) (fst y) = true.

(** The parameters [extract_params] answers for a model in a store. *)
Definition extracted (h : Store) (model : Model) : list loc :=
  map snd (filter (fun np => has_grad (h (snd np))) (sorted model)).

(** The accessors of a state behave as the fields of a record. *)
Class WorldLaws (St : Type) {HW : HasWorld St} : Prop := {
  world_set_world : forall w s, world (set_world w s) = w;
  set_world_world : forall s, set_world (world s) s = s;
  set_world_twice : forall w w' s, set_world w (set_world w' s) = set_world w s
}.

Arguments WorldLaws St {HW}.

Class BufLaws {St : Type} {HW : HasWorld St} (b : BufRef St) : Prop := {
  buf_get_set : forall m s, buf_get b (buf_set b m s) = m;
  buf_set_get : forall s, buf_set b (buf_get b s) s = s;
  buf_set_set : forall m m' s, buf_set b m (buf_set b m' s) = buf_set b m s;
  world_buf_set : forall m s, world (buf_set b m s) = world s;
  buf_get_set_world : forall w s, buf_get b (set_world w s) = buf_get b s
}.

#[export] Instance World_HasWorld : HasWorld World :=
  {| world := fun w => w; set_world := fun w _ => w |}.

(** [lift] lets a Python-level result (a value or a raised exception) take
    part in a computation. *)
Definition lift {St A} (r : exn + A) : M St A :=
  match r with inl e => raise e | inr a => ret a end.

(** [params[i]] *)
Definition index {St A} (l : list A) (i : nat) : M St A :=
  match nth_error l i with Some a => ret a | None => raise IndexError end.

(** ** pure_nccl_communicator.py *)

Module PureNccl.

Record PureNcclCommunicator : Set := {
  base : CommunicatorBase;
  nccl_comm : option nat;
  gpu_tmp_buffer : DeviceMemory;
  gpu_allreduce_buffer_a : DeviceMemory;
  gpu_allreduce_buffer_b : DeviceMemory;
  allreduce_grad_dtype : option dtype
}.

(** The communicator object together with the world it runs in. *)
Record State : Set := { self : PureNcclCommunicator; env : World }.

#[global] Instance State_HasWorld : HasWorld State :=
  {| world := env;
     set_world := fun w s => {| self := self s; env := w |} |}.

Definition set_self (f : PureNcclCommunicator -> PureNcclCommunicator)
    : M State unit :=
  modify (fun s => {| self := f (self s); env := env s |}).

Definition tmp_buffer : BufRef State :=
  {| buf_name := "gpu_tmp_buffer";
     buf_get := fun s => gpu_tmp_buffer (self s);
     buf_set := fun m s =>
       {| self := {| base := base (self s); nccl_comm := nccl_comm (self s);
                     gpu_tmp_buffer := m;
                     gpu_allreduce_buffer_a := gpu_allreduce_buffer_a (self s);
                     gpu_allreduce_buffer_b := gpu_allreduce_buffer_b (self s);
                     allreduce_grad_dtype := allreduce_grad_dtype (self s) |};
          env := env s |} |}.

Definition buffer_a : BufRef State :=
  {| buf_name := "gpu_allreduce_buffer_a";
     buf_get := fun s => gpu_allreduce_buffer_a (self s);
     buf_set := fun m s =>
       {| self := {| base := base (self s); nccl_comm := nccl_comm (self s);
                     gpu_tmp_buffer := gpu_tmp_buffer (self s);
                     gpu_allreduce_buffer_a := m;
                     gpu_allreduce_buffer_b := gpu_allreduce_buffer_b (self s);
                     allreduce_grad_dtype := allreduce_grad_dtype (self s) |};
          env := env s |} |}.

Definition buffer_b : BufRef State :=
  {| buf_name := "gpu_allreduce_buffer_b";
     buf_get := fun s => gpu_allreduce_buffer_b (self s);
     buf_set := fun m s =>
       {| self := {| base := base (self s); nccl_comm := nccl_comm (self s);
                     gpu_tmp_buffer := gpu_tmp_buffer (self s);
                     gpu_allreduce_buffer_a := gpu_allreduce_buffer_a (self s);
                     gpu_allreduce_buffer_b := m;
                     allreduce_grad_dtype := allreduce_grad_dtype (self s) |};
          env := env s |} |}.

Definition with_nccl_comm (h : option nat) (c : PureNcclCommunicator)
    : PureNcclCommunicator :=
  {| base := base c; nccl_comm := h;
     gpu_tmp_buffer := gpu_tmp_buffer c;
     gpu_allreduce_buffer_a := gpu_allreduce_buffer_a c;
     gpu_allreduce_buffer_b := gpu_allreduce_buffer_b c;
     allreduce_grad_dtype := allreduce_grad_dtype c |}.

Section Methods.

Context {E : Externals}.

(** [_init_ranks]: the topology query answers a 5-tuple whose first
    component must be the rank of the MPI communicator. *)
Definition _init_ranks (b : CommunicatorBase) : M World CommunicatorBase :=
  let '(r0, r1, r2, r3, r4) := mpi_my_ranks (mpi_comm b) in
  if negb (r0 =? mpi_rank (mpi_comm b)) then raise AssertionError
  else
    ret {| mpi_comm := mpi_comm b;
           intra_rank := r1; intra_size := r2;
           inter_rank := r3; inter_size := r4;
           inter_mpi_comm := inter_mpi_comm b |}.

(** [__init__(self, mpi_comm, allreduce_grad_dtype=None)]; [b] is the
    instance as [super().__init__(mpi_comm, True)] left it, and
    [np.dtype(...)] has already turned the argument into a dtype. *)
Definition __init__ (b : CommunicatorBase) (allreduce_grad_dtype : option dtype)
    : M World PureNcclCommunicator :=
  w <- get ;;
  if nccl_version w <? 2000
  then raise (RuntimeError
                "PureNcclCommunicator is only supported on NCCL 2.0+")
  else
    b' <- _init_ranks b ;;
    emit (EvDeviceMemory "gpu_tmp_buffer") ;;
    emit (EvDeviceMemory "gpu_allreduce_buffer_a") ;;
    emit (EvDeviceMemory "gpu_allreduce_buffer_b") ;;
    let mk dt :=
      {| base := b'; nccl_comm := None;
         gpu_tmp_buffer := DeviceMemory_new;
         gpu_allreduce_buffer_a := DeviceMemory_new;
         gpu_allreduce_buffer_b := DeviceMemory_new;
         allreduce_grad_dtype := dt |} in
    match allreduce_grad_dtype with
    | Some d =>
        if negb (Ascii.eqb (kind d) "f")
        then raise (ValueError
          "allreduce_grad_dtype must benumpy.float16, numpy.float32,numpy.float64, or None.")
        else ret (mk (Some d))
    | None => ret (mk None)
    end.

Definition _init_comms : M State unit :=
  s <- get ;;
  match nccl_comm (self s) with
  | Some _ => ret tt
  | None =>
      if negb (nccl_available (world s))
      then raise (RuntimeError
        "NCCL is not available. Please confirm that NCCL is enabled in CuPy.")
      else
        h <- init_nccl_comm ;;
        set_self (with_nccl_comm (Some h))
  end.

Definition broadcast_data (model : Model) : M State unit :=
  broadcast_naive model.

Definition _get_param_grad_dtype (param : loc) : M State dtype :=
  g <- view param attr_grad ;; ret (arr_dtype g).

Definition _get_nccl_type_id (d : dtype) : exn + NcclType :=
  if dtype_eqb d float16 then inr NCCL_FLOAT16
  else if dtype_eqb d float32 then inr NCCL_FLOAT32
  else if dtype_eqb d float64 then inr NCCL_FLOAT64
  else inl (ValueError "dtype must be float16, float32, or float64.").

Definition _assign (grad_dtype allreduce_grad_dtype : dtype) (n_elems : nat)
    : M State unit :=
  let allreduce_grad_n_bytes := itemsize allreduce_grad_dtype * n_elems in
  assign buffer_a allreduce_grad_n_bytes ;;
  assign buffer_b allreduce_grad_n_bytes ;;
  when (negb (dtype_eqb grad_dtype allreduce_grad_dtype))
    (let grad_n_bytes := itemsize grad_dtype * n_elems in
     assign tmp_buffer grad_n_bytes).

Definition _pack_params_to_buffer (params : list loc)
    (grad_dtype allreduce_grad_dtype : dtype) (n_elems : nat) : M State unit :=
  if dtype_eqb grad_dtype allreduce_grad_dtype
  then
    pack_params params (itemsize allreduce_grad_dtype) attr_grad buffer_a
  else
    pack_params params (itemsize grad_dtype) attr_grad tmp_buffer ;;
    v <- array tmp_buffer n_elems grad_dtype ;;
    ret_ <- astype v allreduce_grad_dtype ;;
    let allreduce_grad_n_bytes := itemsize allreduce_grad_dtype * n_elems in
    from_device buffer_a ret_ allreduce_grad_n_bytes.

Definition _unpack_params_from_buffer (params : list loc)
    (grad_dtype allreduce_grad_dtype : dtype) (n_elems : nat) : M State unit :=
  if dtype_eqb grad_dtype allreduce_grad_dtype
  then
    unpack_params params (itemsize allreduce_grad_dtype) attr_grad buffer_b
  else
    v <- array buffer_b n_elems allreduce_grad_dtype ;;
    ret_ <- astype v grad_dtype ;;
    let grad_n_bytes := itemsize grad_dtype * n_elems in
    from_device tmp_buffer ret_ grad_n_bytes ;;
    unpack_params params (itemsize grad_dtype) attr_grad tmp_buffer.

Definition allreduce_grad (model : Model) (stream : option Stream)
    : M State unit :=
  _init_comms ;;
  let stream := match stream with None => Stream_null | Some s => s end in
  params <- extract_params model ;;
  param0 <- index params 0 ;;
  grad_dtype <- _get_param_grad_dtype param0 ;;
  s <- get ;;
  let allreduce_grad_dtype :=
    match allreduce_grad_dtype (self s) with
    | None => grad_dtype
    | Some d => d
    end in
  n_elems <- sum_grad_size params 0 ;;
  _assign grad_dtype allreduce_grad_dtype n_elems ;;
  _pack_params_to_buffer params grad_dtype allreduce_grad_dtype n_elems ;;
  when (negb (Stream_eqb stream Stream_null)) (synchronize Stream_null) ;;
  comm <- (match nccl_comm (self s) with
           | Some c => ret c
           | None => raise AttributeError
           end) ;;
  ty <- lift (_get_nccl_type_id allreduce_grad_dtype) ;;
  allReduce comm buffer_a buffer_b n_elems ty NCCL_SUM stream ;;
  when (negb (Stream_eqb stream Stream_null)) (synchronize stream) ;;
  v <- array buffer_b n_elems allreduce_grad_dtype ;;
  ret_ <- mul_recip v (size (base (self s))) ;;
  let allreduce_grad_n_bytes := itemsize allreduce_grad_dtype * n_elems in
  from_device buffer_b ret_ allreduce_grad_n_bytes ;;
  _unpack_params_from_buffer params grad_dtype allreduce_grad_dtype n_elems.

(** What lazy initialisation is about: the handle the communicator holds
    and the number of NCCL communicators constructed so far. *)
Definition handle (s : State) : option nat * nat :=
  (nccl_comm (self s), comms_created (env s)).

(** What the constructor settled: the process group with its ranks, and
    the wire dtype. *)
Definition settings (s : State) : CommunicatorBase * option dtype :=
  (base (self s), allreduce_grad_dtype (self s)).

(** The calls a user can make on the communicator, and a sequence of them
    on one instance: an exception ends a call, not the life of the
    object. *)
Inductive Call : Set :=
| Call_init_comms
| Call_broadcast_data (model : Model)
| Call_allreduce_grad (model : Model) (stream : option Stream).

Definition call (c : Call) : M State unit :=
  match c with
  | Call_init_comms => _init_comms
  | Call_broadcast_data model => broadcast_data model
  | Call_allreduce_grad model stream => allreduce_grad model stream
  end.

Fixpoint calls (cs : list Call) (s : State) : State :=
  match cs with
  | [] => s
  | c :: cs' => calls cs' (final (call c s))
  end.

End Methods.

End PureNccl.

(** ** single_node_communicator.py *)

Module SingleNode.

Record SingleNodeCommunicator : Set := {
  base : CommunicatorBase;
  gpu_buffer_a : DeviceMemory;
  gpu_buffer_b : DeviceMemory;
  intra_nccl_comm : option nat
}.

Record State : Set := { self : SingleNodeCommunicator; env : World }.

#[global] Instance State_HasWorld : HasWorld State :=
  {| world := env;
     set_world := fun w s => {| self := self s; env := w |} |}.

Definition set_self (f : SingleNodeCommunicator -> SingleNodeCommunicator)
    : M State unit :=
  modify (fun s => {| self := f (self s); env := env s |}).

Definition buffer_a : BufRef State :=
  {| buf_name := "gpu_buffer_a";
     buf_get := fun s => gpu_buffer_a (self s);
     buf_set := fun m s =>
       {| self := {| base := base (self s); gpu_buffer_a := m;
                     gpu_buffer_b := gpu_buffer_b (self s);
                     intra_nccl_comm := intra_nccl_comm (self s) |};
          env := env s |} |}.

Definition buffer_b : BufRef State :=
  {| buf_name := "gpu_buffer_b";
     buf_get := fun s => gpu_buffer_b (self s);
     buf_set := fun m s =>
       {| self := {| base := base (self s);
                     gpu_buffer_a := gpu_buffer_a (self s);
                     gpu_buffer_b := m;
                     intra_nccl_comm := intra_nccl_comm (self s) |};
          env := env s |} |}.

Definition with_intra_nccl_comm (h : option nat) (c : SingleNodeCommunicator)
    : SingleNodeCommunicator :=
  {| base := base c; gpu_buffer_a := gpu_buffer_a c;
     gpu_buffer_b := gpu_buffer_b c; intra_nccl_comm := h |}.

Section Methods.

Context {E : Externals}.

(** [__init__(self, mpi_comm)]; [b] is the instance as
    [super().__init__(mpi_comm, use_nccl=True)] left it. *)
Definition __init__ (b : CommunicatorBase) : M World SingleNodeCommunicator :=
  if negb (inter_size b =? 1)
  then raise (ValueError
    "SingleNodeCommunicator cannot be used under multi-node settings")
  else
    emit (EvDeviceMemory "gpu_buffer_a") ;;
    emit (EvDeviceMemory "gpu_buffer_b") ;;
    ret {| base := b;
           gpu_buffer_a := DeviceMemory_new;
           gpu_buffer_b := DeviceMemory_new;
           intra_nccl_comm := None |}.

Definition _init_comms : M State unit :=
  s <- get ;;
  match inter_mpi_comm (base (self s)) with
  | Some _ =>
      match intra_nccl_comm (self s) with
      | Some _ => ret tt
      | None => raise AssertionError
      end
  | None =>
      if negb (nccl_available (world s))
      then raise (RuntimeError
        "NCCL is not available. Please confirm that NCCL is enabled in CuPy.")
      else
        emit EvInitIntraMpiComm ;;
        h <- init_nccl_comm ;;
        set_self (with_intra_nccl_comm (Some h))
  end.

(** [self.intra_nccl_comm.<method>]: no method on [None]. *)
Definition the_intra_nccl_comm : M State nat :=
  s <- get ;;
  match intra_nccl_comm (self s) with
  | Some c => ret c
  | None => raise AttributeError
  end.

Definition broadcast_data (model : Model) : M State unit :=
  _init_comms ;;
  let stream := Stream_null in
  let params := map snd (sorted model) in
  let itemsize := 4 in
  n_elems_total <- sum_grad_size params 0 ;;
  let n_bytes_total := n_elems_total * itemsize in
  assign buffer_a n_bytes_total ;;
  pack_params params itemsize attr_data buffer_a ;;
  comm <- the_intra_nccl_comm ;;
  bcast comm buffer_a n_elems_total NCCL_FLOAT 0 stream ;;
  unpack_params params itemsize attr_data buffer_a.

Definition allreduce_grad (model : Model) : M State unit :=
  _init_comms ;;
  let stream := Stream_null in
  params <- extract_params model ;;
  let itemsize := 4 in
  n_elems_total <- sum_grad_size params 0 ;;
  let n_bytes_total := n_elems_total * itemsize in
  assign buffer_a n_bytes_total ;;
  assign buffer_b n_bytes_total ;;
  pack_params params itemsize attr_grad buffer_a ;;
  comm <- the_intra_nccl_comm ;;
  allReduce comm buffer_a buffer_b n_elems_total NCCL_FLOAT NCCL_SUM stream ;;
  s <- get ;;
  imul_recip buffer_b n_elems_total float32 (size (base (self s))) ;;
  unpack_params params itemsize attr_grad buffer_b.

(** What initialisation is about: the handle the communicator holds and
    the number of NCCL communicators constructed so far; and what the guard
    of [_init_comms] looks at. *)
Definition handle (s : State) : option nat * nat :=
  (intra_nccl_comm (self s), comms_created (env s)).

Definition guard (s : State) : option MpiComm * bool :=
  (inter_mpi_comm (base (self s)), nccl_available (env s)).

(** What the constructor settled: the process group with its ranks. *)
Definition settings (s : State) : CommunicatorBase := base (self s).

(** The calls a user can make on the communicator, and a sequence of them
    on one instance: an exception ends a call, not the life of the
    object. *)
Inductive Call : Set :=
| Call_init_comms
| Call_broadcast_data (model : Model)
| Call_allreduce_grad (model : Model).

Definition call (c : Call) : M State unit :=
  match c with
  | Call_init_comms => _init_comms
  | Call_broadcast_data model => broadcast_data model
  | Call_allreduce_grad model => allreduce_grad model
  end.

Fixpoint calls (cs : list Call) (s : State) : State :=
  match cs with
  | [] => s
  | c :: cs' => calls cs' (final (call c s))
  end.

End Methods.

End SingleNode.

(** ** A concrete device library *)

(** A device library over unsigned bytes, to run the communicators on
    concrete inputs: conversion keeps the low bytes of each element and
    pads with zeros, the product with [1.0 / n] divides each byte by [n],
    the sum adds byte by byte modulo 256, and the naive broadcast leaves the
    store as it is (this rank is the root). *)
Definition byte_div (n : nat) (b : byte) : byte :=
  match Byte.of_N (N.div (Byte.to_N b) (N.of_nat n)) with
  | Some x => x
  | None => x00
  end.

Definition byte_add (a b : byte) : byte :=
  match Byte.of_N (N.modulo (Byte.to_N a + Byte.to_N b) 256) with
  | Some x => x
  | None => x00
  end.

Fixpoint zip_bytes (f : byte -> byte -> byte) (a b : list byte) : list byte :=
  match a, b with
  | x :: a', y :: b' => f x y :: zip_bytes f a' b'
  | _, _ => a
  end.

Fixpoint resize_elems (fuel src dst : nat) (bs : list byte) : list byte :=
  match fuel with
  | 0 => []
  | S fuel' =>
      match bs with
      | [] => []
      | _ => firstn dst (firstn src bs ++ repeat x00 dst)
             ++ resize_elems fuel' src dst (skipn src bs)
      end
  end.

Definition byte_externals : Externals :=
  {| astype_raw := fun a b bs =>
       resize_elems (length bs) (itemsize a) (itemsize b) bs;
     mul_recip_raw := fun _ n bs =>
       match n with 1 => bs | _ => map (byte_div n) bs end;
     sum_raw := fun _ a b => zip_bytes byte_add a b;
     mpi_broadcast_naive := fun _ h => h |}.

(** ** Concrete inputs *)

(** Two float32 gradients, a frozen parameter and an empty slot. *)
Definition grad_a : ndarray :=
  {| arr_dtype := float32; arr_size := 2;
     arr_raw := [x01; x02; x03; x04; x05; x06; x07; x08] |}.

Definition grad_b : ndarray :=
  {| arr_dtype := float32; arr_size := 1;
     arr_raw := [x0a; x0b; x0c; x0d] |}.

Definition demo_store : Store :=
  fun l =>
    match l with
    | 0 => {| data := Some grad_a; grad := Some grad_a |}
    | 1 => {| data := Some grad_b; grad := Some grad_b |}
    | 2 => {| data := Some grad_b; grad := None |}
    | _ => {| data := None; grad := None |}
    end.

(** A model whose parameters all have a gradient, one with a frozen
    parameter besides, and one with nothing to reduce. *)
Definition demo_model : Model := [("b", 1); ("a", 0)].
Definition frozen_model : Model := [("b", 1); ("c", 2); ("a", 0)].
Definition no_grad_model : Model := [("c", 2)].

Definition demo_world : World :=
  {| nccl_available := true; nccl_version := 2100; comms_created := 0;
     heap := demo_store; peers := []; root_memory := None; log := [] |}.

(** One process on one node, and the first of two processes on two
    nodes. *)
Definition one_process : CommunicatorBase :=
  {| mpi_comm := {| mpi_rank := 0; mpi_size := 1;
                    mpi_my_ranks := (0, 0, 1, 0, 1) |};
     intra_rank := 0; intra_size := 1; inter_rank := 0; inter_size := 1;
     inter_mpi_comm := None |}.

Definition two_nodes : CommunicatorBase :=
  {| mpi_comm := {| mpi_rank := 0; mpi_size := 2;
                    mpi_my_ranks := (0, 0, 1, 0, 2) |};
     intra_rank := 0; intra_size := 1; inter_rank := 0; inter_size := 2;
     inter_mpi_comm := None |}.

(** Communicators as their constructors leave them. *)
Definition pure_new (dt : option dtype) : PureNccl.State :=
  {| PureNccl.self :=
       {| PureNccl.base := one_process; PureNccl.nccl_comm := None;
          PureNccl.gpu_tmp_buffer := DeviceMemory_new;
          PureNccl.gpu_allreduce_buffer_a := DeviceMemory_new;
          PureNccl.gpu_allreduce_buffer_b := DeviceMemory_new;
          PureNccl.allreduce_grad_dtype := dt |};
     PureNccl.env := demo_world |}.

(** A pure NCCL communicator that already holds handle 0. *)
Definition pure_ready (dt : option dtype) : PureNccl.State :=
  {| PureNccl.self :=
       {| PureNccl.base := one_process; PureNccl.nccl_comm := Some 0;
          PureNccl.gpu_tmp_buffer := DeviceMemory_new;
          PureNccl.gpu_allreduce_buffer_a := DeviceMemory_new;
          PureNccl.gpu_allreduce_buffer_b := DeviceMemory_new;
          PureNccl.allreduce_grad_dtype := dt |};
     PureNccl.env := with_comms_created 1 demo_world |}.

Definition single_new : SingleNode.State :=
  {| SingleNode.self :=
       {| SingleNode.base := one_process;
          SingleNode.gpu_buffer_a := DeviceMemory_new;
          SingleNode.gpu_buffer_b := DeviceMemory_new;
          SingleNode.intra_nccl_comm := None |};
     SingleNode.env := demo_world |}.

(** A world in which CuPy was built without NCCL, and communicators
    constructed there. *)
Definition offline_world : World :=
  {| nccl_available := false; nccl_version := 2100; comms_created := 0;
     heap := demo_store; peers := []; root_memory := None; log := [] |}.

Definition pure_offline : PureNccl.State :=
  {| PureNccl.self := PureNccl.self (pure_new None);
     PureNccl.env := offline_world |}.

Definition single_offline : SingleNode.State :=
  {| SingleNode.self := SingleNode.self single_new;
     SingleNode.env := offline_world |}.

(** One process whose base class has already set [inter_mpi_comm]. *)
Definition bound_process : CommunicatorBase :=
  {| mpi_comm := mpi_comm one_process;
     intra_rank := 0; intra_size := 1; inter_rank := 0; inter_size := 1;
     inter_mpi_comm := Some (mpi_comm one_process) |}.

(** A world with NCCL 1.3, and a process whose topology query disagrees
    with the rank of its MPI communicator. *)
Definition old_nccl_world : World :=
  {| nccl_available := true; nccl_version := 1304; comms_created := 0;
     heap := demo_store; peers := []; root_memory := None; log := [] |}.

Definition misranked_process : CommunicatorBase :=
  {| mpi_comm := {| mpi_rank := 0; mpi_size := 2;
                    mpi_my_ranks := (1, 1, 2, 0, 1) |};
     intra_rank := 0; intra_size := 1; inter_rank := 0; inter_size := 1;
     inter_mpi_comm := None |}.

(** A process group that reports no node at all. *)
Definition no_node : CommunicatorBase :=
  {| mpi_comm := mpi_comm one_process;
     intra_rank := 0; intra_size := 1; inter_rank := 0; inter_size := 0;
     inter_mpi_comm := None |}.

(** A rank that is not the root of the broadcast, and what the root
    sends. *)
Definition root_payload : list byte :=
  [x11; x12; x13; x14; x15; x16; x17; x18; x19; x1a; x1b; x1c].

Definition single_follower : SingleNode.State :=
  {| SingleNode.self := SingleNode.self single_new;
     SingleNode.env :=
       {| nccl_available := true; nccl_version := 2100; comms_created := 0;
          heap := demo_store; peers := []; root_memory := Some root_payload;
          log := [] |} |}.

(** * Properties *)

(** ** Device bytes *)

Section Bytes.

Implicit Types mem bs raw : list byte.

Lemma write_length off bs mem : length (write off bs mem) = length mem.
Proof.
  unfold write. rewrite length_firstn, !length_app, length_firstn, length_skipn.
  lia.
Qed.

Lemma write_prefix k off bs mem :
  k <= off -> firstn k (write off bs mem) = firstn k mem.
Proof.
  intros Hk. unfold write. rewrite firstn_firstn, firstn_app, length_firstn.
  replace (Nat.min k (length mem) - Nat.min off (length mem)) with 0 by lia.
  rewrite firstn_O, app_nil_r, firstn_firstn.
  replace (Nat.min (Nat.min k (length mem)) off) with (Nat.min k (length mem))
    by lia.
  destruct (Nat.le_ge_cases k (length mem)).
  - now rewrite Nat.min_l.
  - rewrite Nat.min_r by assumption. now rewrite !firstn_all2 by lia.
Qed.

Lemma read_prefix off n mem mem' :
  firstn (off + n) mem = firstn (off + n) mem' ->
  read off n mem = read off n mem'.
Proof.
  intros H. unfold read. now rewrite !firstn_skipn_comm, H.
Qed.

Lemma firstn_shorter (k n : nat) mem mem' :
  k <= n -> firstn n mem = firstn n mem' -> firstn k mem = firstn k mem'.
Proof.
  intros Hk H.
  replace k with (Nat.min k n) by lia.
  now rewrite <- !firstn_firstn, H.
Qed.

Lemma read_write_same off n bs mem :
  off + n <= length mem -> length bs <= n ->
  read off n (write off bs mem)
  = bs ++ read (off + length bs) (n - length bs) mem.
Proof.
  intros Hin Hbs. unfold read, write.
  rewrite (firstn_all2 (n:=length mem))
    by (rewrite !length_app, length_firstn, length_skipn; lia).
  rewrite skipn_app, length_firstn.
  replace (Nat.min off (length mem)) with off by lia.
  rewrite (skipn_all2 (n:=off) (firstn off mem))
    by (rewrite length_firstn; lia).
  rewrite Nat.sub_diag. cbn [skipn app].
  rewrite firstn_app. f_equal.
  apply firstn_all2. lia.
Qed.

Lemma write_back n raw gap :
  length gap = n - length (firstn n raw) ->
  write 0 (firstn n raw ++ gap) raw = raw.
Proof.
  intros Hgap. unfold write. cbn [firstn app Nat.add].
  rewrite length_firstn in Hgap.
  destruct (Nat.le_ge_cases n (length raw)) as [Hn | Hn].
  - assert (gap = []) by (apply length_zero_iff_nil; lia). subst gap.
    rewrite app_nil_r, length_firstn, Nat.min_l by assumption.
    rewrite firstn_skipn. apply firstn_all.
  - rewrite !(firstn_all2 (n:=n) raw) by assumption.
    rewrite <- app_assoc, firstn_app, firstn_all, Nat.sub_diag.
    now rewrite firstn_O, app_nil_r.
Qed.

(** Reading back the region a view was copied to gives the view its own
    bytes again. *)
Lemma region_restored off n raw mem :
  off + n <= length mem ->
  write 0 (read off n (write off (firstn n raw) mem)) raw = raw.
Proof.
  intros Hin. rewrite read_write_same.
  - apply write_back. unfold read.
    rewrite length_firstn, length_skipn, length_firstn. lia.
  - assumption.
  - rewrite length_firstn. lia.
Qed.

End Bytes.

(** ** Pack and unpack as functions of the store *)

Section Walks.

Variables (h : Store) (item_size : nat) (attr : Attr).

Lemma pack_mem_length params off mem :
  length (pack_mem h params item_size attr off mem) = length mem.
Proof.
  revert off mem. induction params as [|p rest IH]; intros off mem; cbn.
  - reflexivity.
  - destruct (getattr (h p) attr); [|reflexivity].
    now rewrite IH, write_length.
Qed.

(** Packing from [off] on leaves the bytes below [off] alone. *)
Lemma pack_mem_prefix params k off mem :
  k <= off ->
  firstn k (pack_mem h params item_size attr off mem) = firstn k mem.
Proof.
  revert off mem. induction params as [|p rest IH]; intros off mem Hk; cbn.
  - reflexivity.
  - destruct (getattr (h p) attr); [|reflexivity].
    rewrite IH by lia. now apply write_prefix.
Qed.

(** [restores] looks only at the bytes the walk covers. *)
Lemma restores_prefix params off mem mem' :
  firstn (off + total_size h attr params * item_size) mem
  = firstn (off + total_size h attr params * item_size) mem' ->
  restores h params item_size attr off mem ->
  restores h params item_size attr off mem'.
Proof.
  revert off. induction params as [|p rest IH]; intros off Heq Hres; cbn in *.
  - exact I.
  - destruct (getattr (h p) attr) as [v|]; [|exact I].
    destruct Hres as [Hv Hrest]. rewrite Nat.mul_add_distr_r in Heq. split.
    + rewrite <- Hv at 2. f_equal. symmetry. apply read_prefix.
      eapply firstn_shorter; [|exact Heq]. lia.
    + apply IH; [|assumption].
      eapply firstn_shorter; [|exact Heq]. lia.
Qed.

(** What [pack_mem] wrote is what [unpack_store] needs to find. *)
Lemma pack_restores params off mem :
  off + total_size h attr params * item_size <= length mem ->
  restores h params item_size attr off
    (pack_mem h params item_size attr off mem).
Proof.
  revert off mem. induction params as [|p rest IH]; intros off mem Hlen; cbn in *.
  - exact I.
  - destruct (getattr (h p) attr) as [v|]; [|exact I].
    rewrite Nat.mul_add_distr_r in Hlen. split.
    + rewrite (read_prefix off (arr_size v * item_size) _
                 (write off (firstn (arr_size v * item_size) (arr_raw v)) mem)).
      * apply region_restored. lia.
      * apply pack_mem_prefix. lia.
    + apply IH. rewrite write_length. lia.
Qed.

Lemma setattr_same (p : Param) v : getattr p attr = Some v -> setattr p attr v = p.
Proof.
  destruct p, attr; cbn; intros ->; reflexivity.
Qed.

(** Unpacking from a buffer that holds what the views hold changes no
    parameter. *)
Lemma unpack_store_restores params off mem :
  restores h params item_size attr off mem ->
  forall h', (forall l, h' l = h l) ->
  forall l, unpack_store params item_size attr off mem h' l = h l.
Proof.
  revert off. induction params as [|p rest IH]; intros off Hres h' Hh l; cbn in *.
  - apply Hh.
  - rewrite Hh. destruct (getattr (h p) attr) as [v|] eqn:Hv; [|apply Hh].
    destruct Hres as [Hraw Hrest].
    apply IH; [assumption|]. intros l'. unfold store_set.
    destruct (Nat.eqb_spec l' p) as [->|]; [|apply Hh].
    unfold dm_to_device. cbn [memory]. rewrite Hraw.
    destruct v; cbn. now apply setattr_same.
Qed.

End Walks.

(** ** Running the walks *)

Lemma with_heap_same (w : World) : with_heap (heap w) w = w.
Proof. now destruct w. Qed.

Lemma with_log_same (w : World) : with_log (log w) w = w.
Proof. now destruct w. Qed.

Lemma memory_eta (m : DeviceMemory) : {| memory := memory m |} = m.
Proof. now destruct m. Qed.

Lemma all_views_set (h : Store) attr params p v :
  all_views h attr params ->
  all_views (store_set h p (setattr (h p) attr v)) attr params.
Proof.
  unfold all_views. rewrite !Forall_forall. intros H q Hq.
  unfold store_set. destruct (Nat.eqb_spec q p) as [->|].
  - destruct attr; cbn; discriminate.
  - now apply H.
Qed.

Section Runs.

Context {E : Externals} {St : Type} {HW : HasWorld St} {WL : WorldLaws St}.

Lemma sum_grad_size_ok params acc (s : St) :
  all_views (heap (world s)) attr_grad params ->
  sum_grad_size params acc s
  = (inr (acc + total_size (heap (world s)) attr_grad params), s).
Proof.
  revert acc. induction params as [|p rest IH]; intros acc Hall; cbn.
  - unfold ret. now rewrite Nat.add_0_r.
  - inversion Hall as [|? ? Hp Hrest]; subst.
    unfold bind, view, get at 1. cbn in Hp |- *.
    destruct (grad (heap (world s) p)) as [g|]; [|contradiction].
    unfold bind, get, ret. rewrite IH by assumption.
    now rewrite Nat.add_assoc.
Qed.

(** A parameter without a gradient view stops the sum with the error of
    reading an attribute of [None]; nothing has been touched by then. *)
Lemma sum_grad_size_missing params acc (s : St) :
  Exists (fun p => grad (heap (world s) p) = None) params ->
  sum_grad_size params acc s = (inl AttributeError, s).
Proof.
  revert acc. induction params as [|p rest IH]; intros acc Hex; cbn.
  - inversion Hex.
  - unfold bind, view, get at 1. cbn.
    destruct (grad (heap (world s) p)) as [g|] eqn:Hg.
    + unfold bind, get, ret. apply IH.
      inversion Hex; subst; [congruence|assumption].
    + reflexivity.
Qed.

Lemma pack_walk_ok (b : BufRef St) {BL : BufLaws b} params item_size attr off
    (s : St) :
  all_views (heap (world s)) attr params ->
  pack_walk params item_size attr b off s
  = (inr tt,
     buf_set b
       {| memory := pack_mem (heap (world s)) params item_size attr off
                      (memory (buf_get b s)) |} s).
Proof.
  revert off s. induction params as [|p rest IH]; intros off s Hall; cbn.
  - unfold ret. now rewrite memory_eta, buf_set_get.
  - inversion Hall as [|? ? Hp Hrest]; subst.
    unfold bind at 1, view, bind at 1, get. 
    destruct (getattr (heap (world s) p) attr) as [v|]; [|contradiction].
    unfold ret, bind at 1, update_buf, modify.
    rewrite IH by (now rewrite world_buf_set).
    now rewrite world_buf_set, buf_get_set, buf_set_set.
Qed.

Lemma unpack_walk_ok (b : BufRef St) {BL : BufLaws b} params item_size attr
    off (s : St) :
  all_views (heap (world s)) attr params ->
  unpack_walk params item_size attr b off s
  = (inr tt,
     set_world
       (with_heap
          (unpack_store params item_size attr off (memory (buf_get b s))
             (heap (world s)))
          (world s)) s).
Proof.
  revert off s. induction params as [|p rest IH]; intros off s Hall; cbn.
  - unfold ret. now rewrite with_heap_same, set_world_world.
  - inversion Hall as [|? ? Hp Hrest]; subst.
    unfold bind at 1, view, bind at 1, get.
    destruct (getattr (heap (world s) p) attr) as [v|]; [|contradiction].
    unfold ret, bind at 1, bind at 1, set_view, modify.
    rewrite IH.
    + rewrite world_set_world, buf_get_set_world, set_world_twice.
      cbn [heap with_heap]. now rewrite memory_eta.
    + rewrite world_set_world. cbn [heap with_heap].
      now apply all_views_set.
Qed.

End Runs.

(** ** The states of the two communicators are records *)

#[export] Instance World_WorldLaws : WorldLaws World.
Proof. split; reflexivity. Qed.

#[export] Instance PureNccl_WorldLaws : WorldLaws PureNccl.State.
Proof. split; intros; try destruct s; reflexivity. Qed.

#[export] Instance PureNccl_tmp_buffer_laws : BufLaws PureNccl.tmp_buffer.
Proof. split; intros; try destruct s as [[] ?]; reflexivity. Qed.

#[export] Instance PureNccl_buffer_a_laws : BufLaws PureNccl.buffer_a.
Proof. split; intros; try destruct s as [[] ?]; reflexivity. Qed.

#[export] Instance PureNccl_buffer_b_laws : BufLaws PureNccl.buffer_b.
Proof. split; intros; try destruct s as [[] ?]; reflexivity. Qed.

#[export] Instance SingleNode_WorldLaws : WorldLaws SingleNode.State.
Proof. split; intros; try destruct s; reflexivity. Qed.

#[export] Instance SingleNode_buffer_a_laws : BufLaws SingleNode.buffer_a.
Proof. split; intros; try destruct s as [[] ?]; reflexivity. Qed.

#[export] Instance SingleNode_buffer_b_laws : BufLaws SingleNode.buffer_b.
Proof. split; intros; try destruct s as [[] ?]; reflexivity. Qed.

Lemma extracted_all_views (h : Store) (model : Model) :
  all_views h attr_grad (extracted h model).
Proof.
  unfold all_views, extracted. rewrite Forall_forall. intros p Hp.
  apply in_map_iff in Hp as [[name q] [<- Hin]].
  apply filter_In in Hin as [_ Hg]. cbn in *. unfold has_grad in Hg.
  destruct (grad (h q)); [discriminate|discriminate].
Qed.

Lemma with_log_twice l l' (w : World) : with_log l (with_log l' w) = with_log l w.
Proof. reflexivity. Qed.

Lemma with_heap_with_log h l (w : World) :
  with_heap h (with_log l w) = with_log l (with_heap h w).
Proof. reflexivity. Qed.

(** ** Runs of the single-node communicator *)

Section SingleRuns.

Context {E : Externals}.
Import SingleNode.

Ltac simpl_state :=
  cbn [self env base gpu_buffer_a gpu_buffer_b intra_nccl_comm
       buf_set buf_get buf_name buffer_a buffer_b
       world set_world State_HasWorld
       heap log peers root_memory with_log with_heap memory].

(** What [_init_comms] does, by the guard it tests. *)
Lemma single_init_comms_cases (s : State) :
  _init_comms s
  = match inter_mpi_comm (base (self s)) with
    | Some _ =>
        match intra_nccl_comm (self s) with
        | Some _ => (inr tt, s)
        | None => (inl AssertionError, s)
        end
    | None =>
        if nccl_available (env s)
        then (inr tt,
              {| self := with_intra_nccl_comm (Some (comms_created (env s)))
                           (self s);
                 env := with_log
                          (log (env s)
                           ++ [EvInitIntraMpiComm;
                               EvInitNcclComm (comms_created (env s))])
                          (with_comms_created (S (comms_created (env s)))
                             (env s)) |})
        else (inl (RuntimeError
          "NCCL is not available. Please confirm that NCCL is enabled in CuPy."),
              s)
    end.
Proof.
  unfold _init_comms, bind at 1, get.
  destruct (inter_mpi_comm (base (self s))).
  - destruct (intra_nccl_comm (self s)); reflexivity.
  - simpl_state. destruct (nccl_available (env s)); cbn [negb]; [|reflexivity].
    unfold bind, emit, init_nccl_comm, bind, get, modify, ret, set_self, modify.
    simpl_state. unfold with_log, with_comms_created. cbn.
    now rewrite <- app_assoc.
Qed.

(** A successful [_init_comms] leaves a handle and the parameters, the
    buffers and the peers as they were. *)
Lemma single_init_comms_ok (s s1 : State) :
  _init_comms s = (inr tt, s1) ->
  (exists c, intra_nccl_comm (self s1) = Some c)
  /\ heap (env s1) = heap (env s)
  /\ peers (env s1) = peers (env s)
  /\ base (self s1) = base (self s)
  /\ gpu_buffer_a (self s1) = gpu_buffer_a (self s)
  /\ gpu_buffer_b (self s1) = gpu_buffer_b (self s).
Proof.
  rewrite single_init_comms_cases.
  destruct (inter_mpi_comm (base (self s))).
  - destruct (intra_nccl_comm (self s)) eqn:Hc; [|discriminate].
    intros [= <-]. rewrite Hc. eauto 10.
  - destruct (nccl_available (env s)); [|discriminate].
    intros [= <-]. cbn. eauto 10.
Qed.

Lemma single_allreduce_grad_run (model : Model) (s s1 : State) c :
  _init_comms s = (inr tt, s1) ->
  intra_nccl_comm (self s1) = Some c ->
  size (base (self s1)) <> 0 ->
  let h := heap (env s1) in
  let params := extracted h model in
  let n := total_size h attr_grad params in
  let A1 := memory (dm_assign (n * 4) (gpu_buffer_a (self s1))) in
  let A2 := pack_mem h params 4 attr_grad 0 A1 in
  let sent := read 0 (n * 4) A2 in
  let B1 := memory (dm_assign (n * 4) (gpu_buffer_b (self s1))) in
  let B2 := write 0 (firstn (n * 4)
                       (fold_left (sum_raw NCCL_FLOAT) (peers (env s1)) sent))
              B1 in
  let B3 := write 0 (mul_recip_raw float32 (size (base (self s1)))
                       (read 0 (n * 4) B2)) B2 in
  allreduce_grad model s
  = (inr tt,
     {| self := {| base := base (self s1);
                   gpu_buffer_a := {| memory := A2 |};
                   gpu_buffer_b := {| memory := B3 |};
                   intra_nccl_comm := Some c |};
        env := with_log
                 (log (env s1) ++
                  [EvAssign "gpu_buffer_a" (n * 4);
                   EvAssign "gpu_buffer_b" (n * 4);
                   EvPack params 4 attr_grad "gpu_buffer_a";
                   EvAllReduce c "gpu_buffer_a" "gpu_buffer_b" n NCCL_FLOAT
                     NCCL_SUM Stream_null sent;
                   EvMulRecip float32 (size (base (self s1)));
                   EvUnpack params 4 attr_grad "gpu_buffer_b"])
                 (with_heap (unpack_store params 4 attr_grad 0 B3 h)
                    (env s1)) |}).
Proof.
  intros Hinit Hc Hsize h params n A1 A2 sent B1 B2 B3.
  unfold allreduce_grad. unfold bind at 1. rewrite Hinit.
  unfold bind at 1. unfold extract_params, bind at 1, get, ret.
  fold (extracted (heap (world s1)) model). cbn [world State_HasWorld].
  fold h. fold params.
  unfold bind at 1. rewrite sum_grad_size_ok by apply extracted_all_views.
  cbn [world State_HasWorld Nat.add]. fold h params n.
  unfold bind at 1, assign, bind at 1, emit, update_buf, modify.
  unfold bind at 1, bind at 1.
  unfold bind at 1, pack_params, bind at 1, emit, modify.
  rewrite (pack_walk_ok (BL := SingleNode_buffer_a_laws))
    by (cbn; apply extracted_all_views).
  unfold bind at 1, the_intra_nccl_comm, bind at 1, get.
  simpl_state. rewrite Hc. unfold ret.
  unfold bind at 1, allReduce, bind at 1, get.
  unfold bind at 1, emit, update_buf, modify.
  unfold bind at 1. unfold bind at 1, imul_recip.
  simpl_state.
  destruct (Nat.eqb_spec (size (base (self s1))) 0) as [|_]; [contradiction|].
  unfold bind at 1, emit, update_buf, modify.
  unfold unpack_params, bind at 1, emit, modify.
  rewrite (unpack_walk_ok (BL := SingleNode_buffer_b_laws))
    by (cbn; apply extracted_all_views).
  simpl_state. rewrite !with_log_twice, with_heap_with_log.
  unfold dm_write. cbn [memory itemsize nccl_type_size NCCL_FLOAT].
  rewrite <- !app_assoc. reflexivity.
Qed.

End SingleRuns.

(** ** Runs of the pure NCCL communicator *)

Section PureRuns.

Context {E : Externals}.
Import PureNccl.

Ltac simpl_state :=
  cbn [self env base nccl_comm gpu_tmp_buffer gpu_allreduce_buffer_a
       gpu_allreduce_buffer_b allreduce_grad_dtype
       buf_set buf_get buf_name tmp_buffer buffer_a buffer_b
       world set_world State_HasWorld
       heap log peers with_log with_heap memory].

(** What [_init_comms] does, by the guard it tests. *)
Lemma pure_init_comms_cases (s : State) :
  _init_comms s
  = match nccl_comm (self s) with
    | Some _ => (inr tt, s)
    | None =>
        if nccl_available (env s)
        then (inr tt,
              {| self := with_nccl_comm (Some (comms_created (env s))) (self s);
                 env := with_log
                          (log (env s)
                           ++ [EvInitNcclComm (comms_created (env s))])
                          (with_comms_created (S (comms_created (env s)))
                             (env s)) |})
        else (inl (RuntimeError
          "NCCL is not available. Please confirm that NCCL is enabled in CuPy."),
              s)
    end.
Proof.
  unfold _init_comms, bind at 1, get.
  destruct (nccl_comm (self s)); [reflexivity|].
  simpl_state. destruct (nccl_available (env s)); cbn [negb]; reflexivity.
Qed.

Lemma pure_init_comms_ok (s s1 : State) :
  _init_comms s = (inr tt, s1) ->
  (exists c, nccl_comm (self s1) = Some c)
  /\ heap (env s1) = heap (env s)
  /\ peers (env s1) = peers (env s)
  /\ base (self s1) = base (self s)
  /\ allreduce_grad_dtype (self s1) = allreduce_grad_dtype (self s).
Proof.
  rewrite pure_init_comms_cases.
  destruct (nccl_comm (self s)) eqn:Hc.
  - intros [= <-]. rewrite Hc. eauto 10.
  - destruct (nccl_available (env s)); [|discriminate].
    intros [= <-]. cbn. eauto 10.
Qed.

Lemma pure_allreduce_grad_prefix (model : Model) (stream : option Stream)
    (s s1 : State) c p0 rest g0 :
  _init_comms s = (inr tt, s1) ->
  nccl_comm (self s1) = Some c ->
  extracted (heap (env s1)) model = p0 :: rest ->
  grad (heap (env s1) p0) = Some g0 ->
  let h := heap (env s1) in
  let params := p0 :: rest in
  let st := match stream with None => Stream_null | Some x => x end in
  let gd := arr_dtype g0 in
  let wd := match allreduce_grad_dtype (self s1) with
            | None => gd | Some d => d end in
  let n := total_size h attr_grad params in
  let nb := itemsize wd * n in
  let conv := negb (dtype_eqb gd wd) in
  let A1 := memory (dm_assign nb (gpu_allreduce_buffer_a (self s1))) in
  let B1 := memory (dm_assign nb (gpu_allreduce_buffer_b (self s1))) in
  let T1 := if conv
            then memory (dm_assign (itemsize gd * n) (gpu_tmp_buffer (self s1)))
            else memory (gpu_tmp_buffer (self s1)) in
  let T2 := if conv then pack_mem h params (itemsize gd) attr_grad 0 T1
            else T1 in
  let A2 := if conv
            then write 0 (firstn nb (astype_raw gd wd
                                       (read 0 (n * itemsize gd) T2))) A1
            else pack_mem h params (itemsize wd) attr_grad 0 A1 in
  let log2 :=
    log (env s1)
    ++ [EvAssign "gpu_allreduce_buffer_a" nb;
        EvAssign "gpu_allreduce_buffer_b" nb]
    ++ (if conv
        then [EvAssign "gpu_tmp_buffer" (itemsize gd * n);
              EvPack params (itemsize gd) attr_grad "gpu_tmp_buffer";
              EvAstype gd wd;
              EvFromDevice "gpu_allreduce_buffer_a" nb]
        else [EvPack params (itemsize wd) attr_grad "gpu_allreduce_buffer_a"])
    ++ (if negb (Stream_eqb st Stream_null)
        then [EvSynchronize Stream_null] else []) in
  allreduce_grad model stream s
  = (ty <- lift (_get_nccl_type_id wd) ;;
     allReduce c buffer_a buffer_b n ty NCCL_SUM st ;;
     when (negb (Stream_eqb st Stream_null)) (synchronize st) ;;
     v <- array buffer_b n wd ;;
     ret_ <- mul_recip v (size (base (self s1))) ;;
     from_device buffer_b ret_ nb ;;
     _unpack_params_from_buffer params gd wd n)
      {| self := {| base := base (self s1); nccl_comm := Some c;
                    gpu_tmp_buffer := {| memory := T2 |};
                    gpu_allreduce_buffer_a := {| memory := A2 |};
                    gpu_allreduce_buffer_b := {| memory := B1 |};
                    allreduce_grad_dtype := allreduce_grad_dtype (self s1) |};
         env := with_log log2 (env s1) |}.
Proof.
  intros Hinit Hc Hex Hg0 h params st gd wd n nb conv A1 B1 T1 T2 A2 log2.
  assert (Hall : all_views h attr_grad params).
  { unfold params. rewrite <- Hex. apply extracted_all_views. }
  unfold allreduce_grad. unfold bind at 1. rewrite Hinit.
  unfold bind at 1, extract_params, bind at 1, get, ret.
  fold (extracted (heap (world s1)) model). simpl_state. rewrite Hex.
  unfold bind at 1, index. cbn [nth_error]. unfold ret.
  unfold bind at 1, _get_param_grad_dtype, bind at 1, view, bind at 1, get.
  simpl_state. cbn [getattr]. rewrite Hg0. unfold ret.
  unfold bind at 1. fold gd. fold wd.
  unfold bind at 1. rewrite sum_grad_size_ok by exact Hall.
  simpl_state. cbn [Nat.add]. fold h params n.
  unfold bind at 1, _assign. fold nb.
  unfold bind at 1, assign, bind at 1, emit, update_buf, modify.
  unfold bind at 1, bind at 1. simpl_state.
  rewrite Hc.
  unfold _pack_params_to_buffer.
  unfold log2, A2, T2, T1, conv; clear log2 A2 T2 T1 conv.
  fold st.
  destruct (dtype_eqb gd wd) eqn:Hd; cbn [negb when].
  - unfold ret at 1.
    unfold bind at 1, pack_params, bind at 1, emit, modify.
    rewrite (pack_walk_ok (BL := PureNccl_buffer_a_laws))
      by (simpl_state; exact Hall).
    simpl_state.
    unfold bind at 1.
    destruct (negb (Stream_eqb st Stream_null)) eqn:Hst; cbn [when];
      unfold synchronize, emit, modify; unfold bind at 1; try unfold ret at 1;
      simpl_state; rewrite ?with_log_twice;
      f_equal; unfold A1, B1; rewrite ?memory_eta;
      rewrite <- ?app_assoc; cbn [app]; rewrite ?app_nil_r;
      reflexivity.
  - unfold bind at 1, bind at 1, emit, update_buf, modify; simpl_state.
    unfold bind at 1, bind at 1, pack_params, bind at 1, emit, modify.
    rewrite (pack_walk_ok (BL := PureNccl_tmp_buffer_laws))
      by (simpl_state; exact Hall).
    simpl_state.
    unfold bind at 1, array, bind at 1, get, ret at 1.
    unfold bind at 1, astype, bind at 1, emit, modify, ret at 1.
    unfold from_device at 1, bind at 1, emit, update_buf, modify. simpl_state.
    unfold bind at 1.
    destruct (negb (Stream_eqb st Stream_null)) eqn:Hst; cbn [when];
      unfold synchronize, emit, modify; unfold bind at 1; try unfold ret at 1;
      simpl_state; rewrite ?with_log_twice;
      unfold dm_from_device, dm_array, dm_write;
      cbn [arr_raw arr_dtype arr_size memory];
      f_equal; unfold A1, B1; rewrite ?memory_eta;
      rewrite <- ?app_assoc; cbn [app]; rewrite ?app_nil_r;
      reflexivity.
Qed.

Lemma pure_allreduce_grad_run (model : Model) (stream : option Stream)
    (s s1 : State) c p0 rest g0 ty :
  _init_comms s = (inr tt, s1) ->
  nccl_comm (self s1) = Some c ->
  extracted (heap (env s1)) model = p0 :: rest ->
  grad (heap (env s1) p0) = Some g0 ->
  let h := heap (env s1) in
  let params := p0 :: rest in
  let st := match stream with None => Stream_null | Some x => x end in
  let gd := arr_dtype g0 in
  let wd := match allreduce_grad_dtype (self s1) with
            | None => gd | Some d => d end in
  _get_nccl_type_id wd = inr ty ->
  size (base (self s1)) <> 0 ->
  let n := total_size h attr_grad params in
  let nb := itemsize wd * n in
  let conv := negb (dtype_eqb gd wd) in
  let A1 := memory (dm_assign nb (gpu_allreduce_buffer_a (self s1))) in
  let B1 := memory (dm_assign nb (gpu_allreduce_buffer_b (self s1))) in
  let T1 := if conv
            then memory (dm_assign (itemsize gd * n) (gpu_tmp_buffer (self s1)))
            else memory (gpu_tmp_buffer (self s1)) in
  let T2 := if conv then pack_mem h params (itemsize gd) attr_grad 0 T1
            else T1 in
  let A2 := if conv
            then write 0 (firstn nb (astype_raw gd wd
                                       (read 0 (n * itemsize gd) T2))) A1
            else pack_mem h params (itemsize wd) attr_grad 0 A1 in
  let sent := read 0 (n * nccl_type_size ty) A2 in
  let B2 := write 0 (firstn (n * nccl_type_size ty)
                       (fold_left (sum_raw ty) (peers (env s1)) sent)) B1 in
  let B3 := write 0 (firstn nb
                       (mul_recip_raw wd (size (base (self s1)))
                          (read 0 (n * itemsize wd) B2))) B2 in
  let T3 := if conv
            then write 0 (firstn (itemsize gd * n)
                            (astype_raw wd gd (read 0 (n * itemsize wd) B3)))
                   T2
            else T2 in
  let h' := if conv
            then unpack_store params (itemsize gd) attr_grad 0 T3 h
            else unpack_store params (itemsize wd) attr_grad 0 B3 h in
  let log3 :=
    log (env s1)
    ++ [EvAssign "gpu_allreduce_buffer_a" nb;
        EvAssign "gpu_allreduce_buffer_b" nb]
    ++ (if conv
        then [EvAssign "gpu_tmp_buffer" (itemsize gd * n);
              EvPack params (itemsize gd) attr_grad "gpu_tmp_buffer";
              EvAstype gd wd;
              EvFromDevice "gpu_allreduce_buffer_a" nb]
        else [EvPack params (itemsize wd) attr_grad "gpu_allreduce_buffer_a"])
    ++ (if negb (Stream_eqb st Stream_null)
        then [EvSynchronize Stream_null] else [])
    ++ [EvAllReduce c "gpu_allreduce_buffer_a" "gpu_allreduce_buffer_b" n ty
          NCCL_SUM st sent]
    ++ (if negb (Stream_eqb st Stream_null)
        then [EvSynchronize st] else [])
    ++ [EvMulRecip wd (size (base (self s1)));
        EvFromDevice "gpu_allreduce_buffer_b" nb]
    ++ (if conv
        then [EvAstype wd gd;
              EvFromDevice "gpu_tmp_buffer" (itemsize gd * n);
              EvUnpack params (itemsize gd) attr_grad "gpu_tmp_buffer"]
        else [EvUnpack params (itemsize wd) attr_grad
                "gpu_allreduce_buffer_b"]) in
  allreduce_grad model stream s
  = (inr tt,
     {| self := {| base := base (self s1); nccl_comm := Some c;
                   gpu_tmp_buffer := {| memory := T3 |};
                   gpu_allreduce_buffer_a := {| memory := A2 |};
                   gpu_allreduce_buffer_b := {| memory := B3 |};
                   allreduce_grad_dtype := allreduce_grad_dtype (self s1) |};
        env := with_log log3 (with_heap h' (env s1)) |}).
Proof.
  intros Hinit Hc Hex Hg0 h params st gd wd Hty Hsize
    n nb conv A1 B1 T1 T2 A2 sent B2 B3 T3 h' log3.
  assert (Hall : all_views h attr_grad params).
  { unfold params. rewrite <- Hex. apply extracted_all_views. }
  rewrite (pure_allreduce_grad_prefix model stream s Hinit Hc Hex Hg0).
  fold h params st gd wd n nb conv A1 B1 T1 T2 A2.
  rewrite Hty. unfold lift.
  unfold bind at 1, ret at 1.
  unfold bind at 1, allReduce, bind at 1, get.
  unfold bind at 1, emit, update_buf, modify. simpl_state.
  fold sent.
  unfold bind at 1.
  assert (Hsync :
    forall (X : State),
      when (negb (Stream_eqb st Stream_null)) (synchronize st) X
      = (inr tt,
         {| self := self X;
            env := with_log
                     (log (env X)
                      ++ (if negb (Stream_eqb st Stream_null)
                          then [EvSynchronize st] else []))
                     (env X) |})).
  { intros X. destruct (negb (Stream_eqb st Stream_null)); cbn [when].
    - reflexivity.
    - unfold ret. rewrite app_nil_r, with_log_same. now destruct X. }
  rewrite Hsync. simpl_state.
  unfold bind at 1, array, bind at 1, get, ret at 1. simpl_state.
  unfold bind at 1, mul_recip.
  destruct (Nat.eqb_spec (size (base (self s1))) 0) as [|_]; [contradiction|].
  unfold bind at 1, emit, modify, ret at 1. simpl_state.
  unfold bind at 1, from_device at 1, bind at 1, emit, update_buf, modify.
  simpl_state.
  unfold dm_array, dm_from_device, dm_write.
  cbn [arr_raw arr_dtype arr_size memory].
  fold B2. fold nb. fold B3.
  unfold _unpack_params_from_buffer.
  unfold log3, h', T3; clear log3 h' T3.
  unfold conv.
  destruct (dtype_eqb gd wd) eqn:Hd; cbn [negb].
  - unfold unpack_params, bind at 1, emit, modify.
    rewrite (unpack_walk_ok (BL := PureNccl_buffer_b_laws))
      by (simpl_state; exact Hall).
    simpl_state. rewrite !with_log_twice, with_heap_with_log.
    rewrite <- !app_assoc. reflexivity.
  - unfold bind at 1, array, bind at 1, get, ret at 1.
    unfold bind at 1, astype, bind at 1, emit, modify, ret at 1.
    unfold bind at 1, from_device at 1, bind at 1, emit, update_buf, modify.
    simpl_state.
    unfold unpack_params, bind at 1, emit, modify.
    rewrite (unpack_walk_ok (BL := PureNccl_tmp_buffer_laws))
      by (simpl_state; exact Hall).
    simpl_state. rewrite !with_log_twice, with_heap_with_log.
    unfold dm_array, dm_from_device, dm_write.
    cbn [arr_raw arr_dtype arr_size memory].
    rewrite <- !app_assoc. reflexivity.
Qed.

End PureRuns.

(** ** What a computation keeps *)

Section Frames.

Context {E : Externals} {St : Type} {HW : HasWorld St} {X : Type}.
Variable f : St -> X.

(** [f] does not look at the log, nor at the parameters. *)
Hypothesis f_log : forall l s, f (set_world (with_log l (world s)) s) = f s.
Hypothesis f_heap : forall h s, f (set_world (with_heap h (world s)) s) = f s.

Lemma keeps_ret A (a : A) : keeps f (ret a).
Proof. intros s. reflexivity. Qed.

Lemma keeps_raise A e : keeps f (raise (A:=A) e).
Proof. intros s. reflexivity. Qed.

Lemma keeps_get : keeps f get.
Proof. intros s. reflexivity. Qed.

Lemma keeps_bind A B (m : M St A) (k : A -> M St B) :
  keeps f m -> (forall a, keeps f (k a)) -> keeps f (bind m k).
Proof.
  intros Hm Hk s. unfold bind. specialize (Hm s).
  destruct (m s) as [[e|a] s']; cbn in *.
  - exact Hm.
  - rewrite <- Hm. apply Hk.
Qed.

Lemma keeps_when (b : bool) (m : M St unit) : keeps f m -> keeps f (when b m).
Proof. destruct b; [trivial|intros _; apply keeps_ret]. Qed.

Lemma keeps_lift A (r : exn + A) : keeps f (lift r).
Proof. destruct r; [apply keeps_raise|apply keeps_ret]. Qed.

Lemma keeps_index A (l : list A) i : keeps f (index l i).
Proof.
  unfold index. destruct (nth_error l i); [apply keeps_ret|apply keeps_raise].
Qed.

Lemma keeps_emit e : keeps f (emit e).
Proof. intros s. apply f_log. Qed.

Lemma keeps_view p a : keeps f (view p a).
Proof.
  intros s. unfold view, bind, get.
  destruct (getattr (heap (world s) p) a); reflexivity.
Qed.

Lemma keeps_set_view p a v : keeps f (set_view p a v).
Proof. intros s. apply f_heap. Qed.

Lemma keeps_astype a dt : keeps f (astype a dt).
Proof.
  apply keeps_bind; [apply keeps_emit|intros; apply keeps_ret].
Qed.

Lemma keeps_mul_recip a n : keeps f (mul_recip a n).
Proof.
  unfold mul_recip. destruct (n =? 0); [apply keeps_raise|].
  apply keeps_bind; [apply keeps_emit|intros; apply keeps_ret].
Qed.

Lemma keeps_extract_params model : keeps f (extract_params model).
Proof. intros s. reflexivity. Qed.

Lemma keeps_sum_grad_size params acc : keeps f (sum_grad_size params acc).
Proof.
  revert acc. induction params as [|p rest IH]; intros acc; cbn.
  - apply keeps_ret.
  - apply keeps_bind; [apply keeps_view|intros; apply IH].
Qed.

Lemma keeps_synchronize st : keeps f (synchronize st).
Proof. apply keeps_emit. Qed.

Lemma keeps_broadcast_naive model : keeps f (broadcast_naive model).
Proof.
  apply keeps_bind; [apply keeps_emit|]. intros _ s. apply f_heap.
Qed.

(** Operations on a buffer [f] does not look at. *)
Section Buffer.

Variable b : BufRef St.
Hypothesis f_buf : forall m s, f (buf_set b m s) = f s.

Lemma keeps_update_buf g : keeps f (update_buf b g).
Proof. intros s. apply f_buf. Qed.

Lemma keeps_assign n : keeps f (assign b n).
Proof.
  apply keeps_bind; [apply keeps_emit|intros; apply keeps_update_buf].
Qed.

Lemma keeps_array count dt : keeps f (array b count dt).
Proof. intros s. reflexivity. Qed.

Lemma keeps_from_device src n : keeps f (from_device b src n).
Proof.
  apply keeps_bind; [apply keeps_emit|intros; apply keeps_update_buf].
Qed.

Lemma keeps_imul_recip count dt n : keeps f (imul_recip b count dt n).
Proof.
  unfold imul_recip. destruct (n =? 0); [apply keeps_raise|].
  apply keeps_bind; [apply keeps_emit|intros; apply keeps_update_buf].
Qed.

Lemma keeps_pack_walk params item_size attr off :
  keeps f (pack_walk params item_size attr b off).
Proof.
  revert off. induction params as [|p rest IH]; intros off; cbn.
  - apply keeps_ret.
  - apply keeps_bind; [apply keeps_view|intros v].
    apply keeps_bind; [apply keeps_update_buf|intros; apply IH].
Qed.

Lemma keeps_pack_params params item_size attr :
  keeps f (pack_params params item_size attr b).
Proof.
  apply keeps_bind; [apply keeps_emit|intros; apply keeps_pack_walk].
Qed.

Lemma keeps_unpack_walk params item_size attr off :
  keeps f (unpack_walk params item_size attr b off).
Proof.
  revert off. induction params as [|p rest IH]; intros off; cbn.
  - apply keeps_ret.
  - apply keeps_bind; [apply keeps_view|intros v].
    apply keeps_bind; [apply keeps_get|intros s].
    apply keeps_bind; [apply keeps_set_view|intros; apply IH].
Qed.

Lemma keeps_unpack_params params item_size attr :
  keeps f (unpack_params params item_size attr b).
Proof.
  apply keeps_bind; [apply keeps_emit|intros; apply keeps_unpack_walk].
Qed.

Lemma keeps_allReduce comm src count ty op st :
  keeps f (allReduce comm src b count ty op st).
Proof.
  apply keeps_bind; [apply keeps_get|intros s].
  apply keeps_bind; [apply keeps_emit|intros; apply keeps_update_buf].
Qed.

Lemma keeps_bcast comm count ty root st :
  keeps f (bcast comm b count ty root st).
Proof.
  apply keeps_bind; [apply keeps_get|intros s].
  apply keeps_bind; [apply keeps_emit|intros _].
  destruct (root_memory (world s)); [apply keeps_update_buf|apply keeps_ret].
Qed.

End Buffer.

End Frames.

Create HintDb frames discriminated.

#[export] Hint Resolve keeps_ret keeps_raise keeps_get keeps_when keeps_lift
  keeps_index keeps_emit keeps_view keeps_set_view keeps_astype
  keeps_mul_recip keeps_extract_params keeps_sum_grad_size keeps_synchronize
  keeps_broadcast_naive keeps_update_buf keeps_assign keeps_array
  keeps_from_device
  keeps_imul_recip keeps_pack_walk keeps_pack_params keeps_unpack_walk
  keeps_unpack_params keeps_allReduce
  keeps_bcast : frames.

#[export] Hint Extern 1 (_ = _) => solve [intros; reflexivity] : frames.

(** Close a step from [frames], or peel a bind and go on with its two
    sides. *)
Ltac frame :=
  first [ solve [auto with frames]
        | match goal with
          | |- keeps _ (match ?x with _ => _ end) => destruct x; frame
          | |- keeps _ (if ?x then _ else _) => destruct x; frame
          end
        | apply keeps_bind; [frame | intros; frame] ].

(** ** The handle of the pure NCCL communicator *)

Section PureHandle.

Context {E : Externals}.
Import PureNccl.

Lemma keeps_handle_assign gd wd n : keeps handle (_assign gd wd n).
Proof. unfold _assign. frame. Qed.

Lemma keeps_handle_pack params gd wd n :
  keeps handle (_pack_params_to_buffer params gd wd n).
Proof.
  unfold _pack_params_to_buffer. frame.
Qed.

Lemma keeps_handle_unpack params gd wd n :
  keeps handle (_unpack_params_from_buffer params gd wd n).
Proof.
  unfold _unpack_params_from_buffer. frame.
Qed.

#[local] Hint Resolve keeps_handle_assign keeps_handle_pack
  keeps_handle_unpack : frames.

Lemma keeps_handle_broadcast_data model : keeps handle (broadcast_data model).
Proof. unfold broadcast_data. frame. Qed.

(** Whatever [allreduce_grad] does after [_init_comms], and however it
    ends, the handle and the construction count stay as [_init_comms] left
    them. *)
Lemma allreduce_grad_handle model stream (s : State) :
  handle (final (allreduce_grad model stream s))
  = handle (final (_init_comms s)).
Proof.
  unfold allreduce_grad, bind at 1.
  destruct (_init_comms s) as [[e|[]] s1]; [reflexivity|].
  cbn [final snd].
  match goal with
  | |- handle (final (?m s1)) = _ => enough (K : keeps handle m) by apply K
  end.
  frame.
Qed.

End PureHandle.

(** ** Outcomes *)

Lemma not_returns_raise S A e (s : S) : ~ returns (raise (A:=A) e s).
Proof. intros [a Ha]. discriminate. Qed.

Lemma not_returns_bind S A B (m : M S A) (k : A -> M S B) (s : S) :
  (forall a s', ~ returns (k a s')) -> ~ returns (bind m k s).
Proof.
  intros Hk. unfold bind. destruct (m s) as [[e|a] s'].
  - intros [b Hb]. discriminate.
  - apply Hk.
Qed.


(** * The claims *)

(** ** Construction *)

(** C7. Constructing a [SingleNodeCommunicator] under a topology with more
    than one node raises the configuration error [ValueError] at once: the
    world is left as it was, so no device buffer and no collective handle
    has been made or used. *)
Theorem C7_single_node_rejects_multi_node (b : CommunicatorBase) (w : World) :
  1 < inter_size b ->
  SingleNode.__init__ b w
  = (inl (ValueError
            "SingleNodeCommunicator cannot be used under multi-node settings"),
     w).
Proof.
  intros Hn. unfold SingleNode.__init__.
  destruct (Nat.eqb_spec (inter_size b) 1) as [H1|_]; [lia|reflexivity].
Qed.

Lemma C7_witness :
  SingleNode.__init__ two_nodes demo_world
  = (inl (ValueError
            "SingleNodeCommunicator cannot be used under multi-node settings"),
     demo_world).
Proof. apply C7_single_node_rejects_multi_node. cbn. lia. Defined.

(** C8. A wire reduction type is valid only if it is one of float16,
    float32 and float64: the constructor of [PureNcclCommunicator] never
    returns for a dtype that is not floating-point, and raises [ValueError]
    for it once the NCCL version and the rank check have passed; the
    mapping to an NCCL type raises [ValueError] for every dtype outside the
    three, and answers only for floating-point dtypes among them. *)
Theorem C8_wire_type_validation :
  (forall b d w, kind d <> "f"%char ->
     ~ returns (PureNccl.__init__ b (Some d) w))
  /\ (forall b d w r1 r2 r3 r4,
        kind d <> "f"%char ->
        2000 <= nccl_version w ->
        mpi_my_ranks (mpi_comm b) = (mpi_rank (mpi_comm b), r1, r2, r3, r4) ->
        raises (PureNccl.__init__ b (Some d) w)
          (ValueError
             "allreduce_grad_dtype must benumpy.float16, numpy.float32,numpy.float64, or None."))
  /\ (forall d, ~ In d [float16; float32; float64] ->
        PureNccl._get_nccl_type_id d
        = inl (ValueError "dtype must be float16, float32, or float64."))
  /\ (forall d t, PureNccl._get_nccl_type_id d = inr t ->
        In d [float16; float32; float64] /\ kind d = "f"%char).
Proof.
  repeat split.
  - intros b d w Hk. unfold PureNccl.__init__.
    apply not_returns_bind. intros w0 s0.
    destruct (nccl_version w0 <? 2000); [apply not_returns_raise|].
    repeat (apply not_returns_bind; intros).
    destruct (Ascii.eqb_spec (kind d) "f"%char); [contradiction|].
    apply not_returns_raise.
  - intros b d w r1 r2 r3 r4 Hk Hv Hr.
    unfold raises, outcome, PureNccl.__init__, bind at 1, get.
    destruct (Nat.ltb_spec (nccl_version w) 2000); [lia|].
    unfold bind at 1, PureNccl._init_ranks. rewrite Hr, Nat.eqb_refl.
    cbn [negb]. unfold ret at 1.
    destruct (Ascii.eqb_spec (kind d) "f"%char); [contradiction|].
    reflexivity.
  - intros d Hd. destruct d; try reflexivity; exfalso; apply Hd; cbn; auto.
  - destruct d; cbn in H; try discriminate; cbn; auto.
  - destruct d; cbn in H; try discriminate; reflexivity.
Qed.

Lemma C8_witness :
  ~ returns (PureNccl.__init__ one_process (Some int32) demo_world)
  /\ raises (PureNccl.__init__ one_process (Some int32) demo_world)
       (ValueError
          "allreduce_grad_dtype must benumpy.float16, numpy.float32,numpy.float64, or None.")
  /\ PureNccl._get_nccl_type_id int32
     = inl (ValueError "dtype must be float16, float32, or float64.")
  /\ (In float16 [float16; float32; float64] /\ kind float16 = "f"%char).
Proof.
  destruct C8_wire_type_validation as (H1 & H2 & H3 & H4).
  split; [|split; [|split]].
  - apply H1. cbn. discriminate.
  - apply (H2 one_process int32 demo_world 0 1 0 1).
    + cbn. discriminate.
    + cbn. lia.
    + reflexivity.
  - apply H3. cbn. intuition discriminate.
  - apply (H4 float16 NCCL_FLOAT16). reflexivity.
Defined.




(** ** Lazy initialisation *)

(** With [inter_mpi_comm] left at [None] by the base class, the guard of
    [SingleNodeCommunicator._init_comms] never sees the handle it made:
    every call constructs another one. *)
Lemma single_node_init_comms_rebuilds (s : SingleNode.State) :
  inter_mpi_comm (SingleNode.base (SingleNode.self s)) = None ->
  nccl_available (SingleNode.env s) = true ->
  comms_created (SingleNode.env (final (SingleNode._init_comms s)))
  = S (comms_created (SingleNode.env s)).
Proof.
  intros Hi Ha. rewrite single_init_comms_cases, Hi, Ha. reflexivity.
Qed.

(** C2, as stated, fails: the first call a fresh [PureNcclCommunicator]
    gets, when it is [broadcast_data], returns without constructing the
    handle: the broadcast goes through the naive MPI path. *)
Lemma C2_counterexample :
  returns (PureNccl.broadcast_data (E:=byte_externals) demo_model
             (pure_new None))
  /\ PureNccl.handle
       (final (PureNccl.broadcast_data (E:=byte_externals) demo_model
                 (pure_new None)))
     = (None, 0).
Proof. split; [exists tt|]; vm_compute; reflexivity. Qed.

Section LazyInitialisation.

Context {E : Externals}.
Import PureNccl.

Lemma init_comms_handle (s : State) :
  handle (final (_init_comms s))
  = match nccl_comm (self s) with
    | Some _ => handle s
    | None =>
        if nccl_available (env s)
        then (Some (comms_created (env s)), S (comms_created (env s)))
        else handle s
    end.
Proof.
  rewrite pure_init_comms_cases.
  destruct (nccl_comm (self s)); [reflexivity|].
  destruct (nccl_available (env s)); reflexivity.
Qed.

Lemma call_handle (c : Call) (s : State) :
  handle (final (call c s)) = handle s
  \/ (nccl_comm (self s) = None
      /\ handle (final (call c s))
         = (Some (comms_created (env s)), S (comms_created (env s)))).
Proof.
  assert (Hinit : handle (final (_init_comms s)) = handle s
                  \/ (nccl_comm (self s) = None
                      /\ handle (final (_init_comms s))
                         = (Some (comms_created (env s)),
                            S (comms_created (env s))))).
  { rewrite init_comms_handle.
    destruct (nccl_comm (self s)); [now left|].
    destruct (nccl_available (env s)); [now right|now left]. }
  destruct c as [|model|model stream]; cbn [call].
  - exact Hinit.
  - left. apply keeps_handle_broadcast_data.
  - now rewrite allreduce_grad_handle.
Qed.

Lemma calls_handle_some (cs : list Call) (s : State) h :
  nccl_comm (self s) = Some h -> handle (calls cs s) = handle s.
Proof.
  revert s. induction cs as [|c cs IH]; intros s Hs; cbn [calls].
  - reflexivity.
  - destruct (call_handle c s) as [Hk | [Hnone _]]; [|congruence].
    rewrite IH; [exact Hk|].
    unfold handle in Hk. injection Hk as Hk _. congruence.
Qed.

Lemma calls_handle_none (cs : list Call) (s : State) :
  nccl_comm (self s) = None ->
  handle (calls cs s) = (None, comms_created (env s))
  \/ handle (calls cs s)
     = (Some (comms_created (env s)), S (comms_created (env s))).
Proof.
  revert s. induction cs as [|c cs IH]; intros s Hs; cbn [calls].
  - left. unfold handle. now rewrite Hs.
  - destruct (call_handle c s) as [Hk | [_ Hk]].
    + unfold handle in Hk. injection Hk as Hc Hn. rewrite Hs in Hc.
      destruct (IH _ Hc) as [H|H]; rewrite H, Hn; auto.
    + right. unfold handle in Hk. injection Hk as Hc Hn.
      rewrite (calls_handle_some cs _ Hc). unfold handle. now rewrite Hc, Hn.
Qed.

End LazyInitialisation.

(** C2, amended. No constructor makes the NCCL handle. A
    [PureNcclCommunicator] makes it on the first [allreduce_grad] that
    finds NCCL available, never in [broadcast_data]; once it holds a
    handle, [_init_comms] is a no-op, [allreduce_grad] keeps the handle
    however it ends, and over any sequence of calls on one instance the
    handle is constructed at most once and then kept. *)
Theorem C2_lazy_initialisation {E : Externals} :
  (forall b dt w c w',
     PureNccl.__init__ b dt w = (inr c, w') ->
     PureNccl.nccl_comm c = None /\ comms_created w' = comms_created w)
  /\ (forall b w c w',
        SingleNode.__init__ b w = (inr c, w') ->
        SingleNode.intra_nccl_comm c = None
        /\ comms_created w' = comms_created w)
  /\ (forall s h,
        PureNccl.nccl_comm (PureNccl.self s) = Some h ->
        PureNccl._init_comms s = (inr tt, s))
  /\ (forall s model,
        PureNccl.handle (final (PureNccl.broadcast_data model s))
        = PureNccl.handle s)
  /\ (forall s model stream,
        PureNccl.nccl_comm (PureNccl.self s) = None ->
        nccl_available (PureNccl.env s) = true ->
        PureNccl.handle (final (PureNccl.allreduce_grad model stream s))
        = (Some (comms_created (PureNccl.env s)),
           S (comms_created (PureNccl.env s))))
  /\ (forall s model stream h,
        PureNccl.nccl_comm (PureNccl.self s) = Some h ->
        PureNccl.handle (final (PureNccl.allreduce_grad model stream s))
        = PureNccl.handle s)
  /\ (forall cs s h,
        PureNccl.nccl_comm (PureNccl.self s) = Some h ->
        PureNccl.handle (PureNccl.calls cs s) = PureNccl.handle s)
  /\ (forall cs s,
        PureNccl.nccl_comm (PureNccl.self s) = None ->
        PureNccl.handle (PureNccl.calls cs s)
        = (None, comms_created (PureNccl.env s))
        \/ PureNccl.handle (PureNccl.calls cs s)
           = (Some (comms_created (PureNccl.env s)),
              S (comms_created (PureNccl.env s)))).
Proof.
  repeat apply conj.
  - intros b dt w c w'. unfold PureNccl.__init__, bind at 1, get.
    destruct (nccl_version w <? 2000); [discriminate|].
    unfold bind at 1, PureNccl._init_ranks.
    destruct (mpi_my_ranks (mpi_comm b)) as [[[[r0 r1] r2] r3] r4].
    destruct (negb (r0 =? mpi_rank (mpi_comm b))); [discriminate|].
    unfold ret at 1, bind, emit, modify.
    destruct dt as [d|]; [destruct (negb (Ascii.eqb (kind d) "f"))|];
      try discriminate; intros [= <- <-]; split; reflexivity.
  - intros b w c w'. unfold SingleNode.__init__.
    destruct (negb (inter_size b =? 1)); [discriminate|].
    unfold bind, emit, modify. intros [= <- <-]. split; reflexivity.
  - intros s h Hs. rewrite pure_init_comms_cases, Hs. reflexivity.
  - intros s model. apply keeps_handle_broadcast_data.
  - intros s model stream Hs Ha.
    rewrite allreduce_grad_handle, init_comms_handle, Hs, Ha. reflexivity.
  - intros s model stream h Hs.
    rewrite allreduce_grad_handle, init_comms_handle, Hs. reflexivity.
  - intros cs s h. apply calls_handle_some.
  - intros cs s. apply calls_handle_none.
Qed.

Lemma C2_witness :
  (PureNccl.nccl_comm (PureNccl.self (pure_new None)) = None
   /\ comms_created demo_world = comms_created demo_world)
  /\ PureNccl.handle
       (final (PureNccl.allreduce_grad (E:=byte_externals) demo_model None
                 (pure_new None)))
     = (Some 0, 1)
  /\ PureNccl.handle
       (PureNccl.calls (E:=byte_externals)
          [PureNccl.Call_broadcast_data demo_model;
           PureNccl.Call_allreduce_grad demo_model None;
           PureNccl.Call_init_comms;
           PureNccl.Call_allreduce_grad frozen_model None]
          (pure_ready None))
     = PureNccl.handle (pure_ready None).
Proof.
  destruct (C2_lazy_initialisation (E:=byte_externals))
    as (Hnew & _ & _ & _ & Hfirst & _ & Hkeep & _).
  split; [|split].
  - apply (Hnew one_process None
             (with_log [] demo_world)
             (PureNccl.self (pure_new None))
             (with_log [EvDeviceMemory "gpu_tmp_buffer";
                        EvDeviceMemory "gpu_allreduce_buffer_a";
                        EvDeviceMemory "gpu_allreduce_buffer_b"] demo_world)).
    reflexivity.
  - apply (Hfirst (pure_new None) demo_model None); reflexivity.
  - apply (Hkeep _ (pure_ready None) 0). reflexivity.
Defined.

(** ** Sorting keeps the parameters *)

Lemma In_insert_by_name (x y : string * loc) (l : Model) :
  In y (insert_by_name x l) <-> y = x \/ In y l.
Proof.
  induction l as [|z l IH]; cbn.
  - intuition congruence.
  - destruct (String.leb (fst x) (fst z)); cbn; [intuition congruence|].
    rewrite IH. intuition.
Qed.

Lemma In_sorted (y : string * loc) (m : Model) : In y (sorted m) <-> In y m.
Proof.
  induction m as [|x m IH]; cbn; [reflexivity|].
  rewrite In_insert_by_name, IH. intuition congruence.
Qed.

(** A model none of whose parameters has a gradient view gives
    [extract_params] nothing. *)
Lemma extracted_nil (h : Store) (model : Model) :
  (forall np, In np model -> grad (h (snd np)) = None) ->
  extracted h model = [].
Proof.
  intros Hnone. unfold extracted.
  assert (Hs : forall np, In np (sorted model) -> grad (h (snd np)) = None).
  { intros np Hin. apply Hnone. now apply In_sorted. }
  induction (sorted model) as [|x l IH]; cbn; [reflexivity|].
  unfold has_grad at 1. rewrite (Hs x) by now left.
  apply IH. intros np Hin. apply Hs. now right.
Qed.

(** ** The single-node allreduce *)

(** C6. [SingleNodeCommunicator.allreduce_grad] works on the handle of the
    intra-node communicator alone, at the fixed 4-byte type [NCCL_FLOAT],
    and does exactly this, in this order: size both buffers, pack the
    gradients into buffer A, reduce-sum A into B, multiply B by
    [1.0 / size], unpack B into the gradients. The log shows the calls in
    that order; buffer A ends up holding the packed gradients, buffer B the
    reduced sum of the packed bytes multiplied by [1.0 / size], and the
    gradients what unpacking that buffer B gives, all at 4 bytes an
    element. *)
Theorem C6_single_node_allreduce_sequence {E : Externals} (model : Model)
    (s s1 : SingleNode.State) :
  SingleNode._init_comms s = (inr tt, s1) ->
  size (SingleNode.base (SingleNode.self s1)) <> 0 ->
  exists c,
    SingleNode.intra_nccl_comm (SingleNode.self s1) = Some c
    /\ nccl_type_size NCCL_FLOAT = 4
    /\ returns (SingleNode.allreduce_grad model s)
    /\ let me := SingleNode.self s1 in
       let h := heap (SingleNode.env s1) in
       let params := extracted h model in
       let n := total_size h attr_grad params in
       let packed :=
         pack_mem h params 4 attr_grad 0
           (memory (dm_assign (n * 4) (SingleNode.gpu_buffer_a me))) in
       let sent := read 0 (n * nccl_type_size NCCL_FLOAT) packed in
       let summed :=
         write 0 (firstn (n * nccl_type_size NCCL_FLOAT)
                    (fold_left (sum_raw NCCL_FLOAT)
                       (peers (SingleNode.env s1)) sent))
           (memory (dm_assign (n * 4) (SingleNode.gpu_buffer_b me))) in
       let averaged :=
         write 0 (mul_recip_raw float32 (size (SingleNode.base me))
                    (read 0 (n * itemsize float32) summed)) summed in
       let after := final (SingleNode.allreduce_grad model s) in
       log (SingleNode.env after)
       = log (SingleNode.env s1)
         ++ [EvAssign "gpu_buffer_a" (n * 4);
             EvAssign "gpu_buffer_b" (n * 4);
             EvPack params 4 attr_grad "gpu_buffer_a";
             EvAllReduce c "gpu_buffer_a" "gpu_buffer_b" n NCCL_FLOAT
               NCCL_SUM Stream_null sent;
             EvMulRecip float32 (size (SingleNode.base me));
             EvUnpack params 4 attr_grad "gpu_buffer_b"]
       /\ memory (SingleNode.gpu_buffer_a (SingleNode.self after)) = packed
       /\ memory (SingleNode.gpu_buffer_b (SingleNode.self after)) = averaged
       /\ heap (SingleNode.env after)
          = unpack_store params 4 attr_grad 0 averaged h
       /\ SingleNode.intra_nccl_comm (SingleNode.self after) = Some c
       /\ SingleNode.base (SingleNode.self after) = SingleNode.base me.
Proof.
  intros Hinit Hsize.
  destruct (single_init_comms_ok _ Hinit) as ([c Hc] & _).
  exists c. split; [exact Hc|]. split; [reflexivity|].
  rewrite (single_allreduce_grad_run model s Hinit Hc Hsize).
  split; [exists tt; reflexivity|].
  cbv zeta. cbn [final snd SingleNode.env SingleNode.self
                 SingleNode.gpu_buffer_a SingleNode.gpu_buffer_b
                 SingleNode.intra_nccl_comm SingleNode.base
                 log heap with_log with_heap memory].
  repeat split.
Qed.

Lemma C6_witness :
  returns (SingleNode.allreduce_grad (E:=byte_externals) frozen_model
             single_new)
  /\ log (SingleNode.env
            (final (SingleNode.allreduce_grad (E:=byte_externals) frozen_model
                      single_new)))
     = [EvInitIntraMpiComm; EvInitNcclComm 0;
        EvAssign "gpu_buffer_a" 12; EvAssign "gpu_buffer_b" 12;
        EvPack [0; 1] 4 attr_grad "gpu_buffer_a";
        EvAllReduce 0 "gpu_buffer_a" "gpu_buffer_b" 3 NCCL_FLOAT NCCL_SUM
          Stream_null
          [x01; x02; x03; x04; x05; x06; x07; x08; x0a; x0b; x0c; x0d];
        EvMulRecip float32 1;
        EvUnpack [0; 1] 4 attr_grad "gpu_buffer_b"]
  /\ memory (SingleNode.gpu_buffer_b
               (SingleNode.self
                  (final (SingleNode.allreduce_grad (E:=byte_externals)
                            frozen_model single_new))))
     = [x01; x02; x03; x04; x05; x06; x07; x08; x0a; x0b; x0c; x0d].
Proof.
  destruct (C6_single_node_allreduce_sequence (E:=byte_externals) frozen_model
              single_new
              (s1:=final (SingleNode._init_comms single_new)))
    as (c & Hc & _ & Hret & Hlog & _ & HB & _).
  - vm_compute. reflexivity.
  - vm_compute. discriminate.
  - split; [exact Hret|].
    vm_compute in Hc. injection Hc as <-.
    split.
    + rewrite Hlog. vm_compute. reflexivity.
    + rewrite HB. vm_compute. reflexivity.
Defined.

(** ** A model with nothing to reduce *)

(** C1. On a model none of whose parameters has a gradient view, the
    single-node [allreduce_grad] returns and is a no-op on the model: it
    asks for zero-sized buffers and reduces zero elements. The pure NCCL
    [allreduce_grad] does not: it reads the dtype of [params[0]] of an
    empty list and raises [IndexError], right after [_init_comms]. *)
Theorem C1_allreduce_grad_without_gradients {E : Externals} (model : Model) :
  (forall (s s1 : SingleNode.State),
     (forall np, In np model ->
        grad (heap (SingleNode.env s) (snd np)) = None) ->
     SingleNode._init_comms s = (inr tt, s1) ->
     size (SingleNode.base (SingleNode.self s1)) <> 0 ->
     exists c,
       SingleNode.intra_nccl_comm (SingleNode.self s1) = Some c
       /\ returns (SingleNode.allreduce_grad model s)
       /\ heap (SingleNode.env (final (SingleNode.allreduce_grad model s)))
          = heap (SingleNode.env s)
       /\ log (SingleNode.env (final (SingleNode.allreduce_grad model s)))
          = log (SingleNode.env s1)
            ++ [EvAssign "gpu_buffer_a" 0; EvAssign "gpu_buffer_b" 0;
                EvPack [] 4 attr_grad "gpu_buffer_a";
                EvAllReduce c "gpu_buffer_a" "gpu_buffer_b" 0 NCCL_FLOAT
                  NCCL_SUM Stream_null [];
                EvMulRecip float32
                  (size (SingleNode.base (SingleNode.self s1)));
                EvUnpack [] 4 attr_grad "gpu_buffer_b"])
  /\ (forall (s s1 : PureNccl.State) stream,
        (forall np, In np model ->
           grad (heap (PureNccl.env s) (snd np)) = None) ->
        PureNccl._init_comms s = (inr tt, s1) ->
        PureNccl.allreduce_grad model stream s = (inl IndexError, s1)).
Proof.
  split.
  - intros s s1 Hnone Hinit Hsize.
    destruct (single_init_comms_ok _ Hinit) as ([c Hc] & Hheap & _).
    exists c. split; [exact Hc|].
    rewrite (single_allreduce_grad_run model s Hinit Hc Hsize).
    rewrite Hheap, (extracted_nil _ model Hnone).
    cbn [total_size Nat.mul unpack_store pack_mem final snd outcome fst
         SingleNode.env with_log with_heap heap log read firstn].
    split; [exists tt; reflexivity|]. split; reflexivity.
  - intros s s1 stream Hnone Hinit.
    destruct (pure_init_comms_ok _ Hinit) as (_ & Hheap & _).
    unfold PureNccl.allreduce_grad, bind at 1. rewrite Hinit.
    unfold bind at 1, extract_params, bind at 1, get, ret at 1.
    fold (extracted (heap (world s1)) model).
    cbn [world PureNccl.State_HasWorld]. rewrite Hheap.
    rewrite (extracted_nil _ model Hnone). reflexivity.
Qed.

Lemma C1_witness :
  (returns (SingleNode.allreduce_grad (E:=byte_externals) no_grad_model
              single_new)
   /\ heap (SingleNode.env
              (final (SingleNode.allreduce_grad (E:=byte_externals)
                        no_grad_model single_new)))
      = heap (SingleNode.env single_new))
  /\ outcome (PureNccl.allreduce_grad (E:=byte_externals) no_grad_model None
                (pure_new None))
     = inl IndexError.
Proof.
  destruct (C1_allreduce_grad_without_gradients (E:=byte_externals)
              no_grad_model) as [Hsingle Hpure].
  split.
  - destruct (Hsingle single_new (final (SingleNode._init_comms single_new)))
      as (c & _ & Hret & Hheap & _).
    + intros np [<-|[]]. reflexivity.
    + vm_compute. reflexivity.
    + vm_compute. discriminate.
    + split; assumption.
  - rewrite (Hpure (pure_new None) (final (PureNccl._init_comms (pure_new None)))
               None).
    + reflexivity.
    + intros np [<-|[]]. reflexivity.
    + vm_compute. reflexivity.
Defined.

(** ** The single-node broadcast *)

Section SingleBroadcast.

Context {E : Externals}.
Import SingleNode.

Ltac simpl_state :=
  cbn [self env base gpu_buffer_a gpu_buffer_b intra_nccl_comm
       buf_set buf_get buf_name buffer_a buffer_b
       world set_world State_HasWorld
       heap log peers root_memory with_log with_heap memory].

Lemma single_broadcast_data_run (model : Model) (s s1 : State) c :
  _init_comms s = (inr tt, s1) ->
  intra_nccl_comm (self s1) = Some c ->
  let h := heap (env s1) in
  let params := map snd (sorted model) in
  all_views h attr_grad params ->
  all_views h attr_data params ->
  let n := total_size h attr_grad params in
  let A1 := memory (dm_assign (n * 4) (gpu_buffer_a (self s1))) in
  let A2 := pack_mem h params 4 attr_data 0 A1 in
  let A3 := match root_memory (env s1) with
            | None => A2
            | Some bs => write 0 (firstn (n * 4) bs) A2
            end in
  broadcast_data model s
  = (inr tt,
     {| self := {| base := base (self s1);
                   gpu_buffer_a := {| memory := A3 |};
                   gpu_buffer_b := gpu_buffer_b (self s1);
                   intra_nccl_comm := Some c |};
        env := with_log
                 (log (env s1) ++
                  [EvAssign "gpu_buffer_a" (n * 4);
                   EvPack params 4 attr_data "gpu_buffer_a";
                   EvBcast c "gpu_buffer_a" n NCCL_FLOAT 0 Stream_null;
                   EvUnpack params 4 attr_data "gpu_buffer_a"])
                 (with_heap (unpack_store params 4 attr_data 0 A3 h)
                    (env s1)) |}).
Proof.
  intros Hinit Hc h params Hgrad Hdata n A1 A2 A3.
  unfold broadcast_data. unfold bind at 1. rewrite Hinit.
  fold params.
  unfold bind at 1. rewrite sum_grad_size_ok by exact Hgrad.
  cbn [world State_HasWorld Nat.add]. fold h n.
  unfold bind at 1, assign, bind at 1, emit, update_buf, modify.
  unfold bind at 1, pack_params, bind at 1, emit, modify.
  rewrite (pack_walk_ok (BL := SingleNode_buffer_a_laws))
    by (simpl_state; exact Hdata).
  unfold bind at 1, the_intra_nccl_comm, bind at 1, get.
  simpl_state. rewrite Hc. unfold ret at 1.
  unfold bind at 1, bcast, bind at 1, get.
  unfold bind at 1, emit, modify. simpl_state.
  unfold A3; clear A3.
  destruct (root_memory (env s1)) as [bs|].
  - unfold update_buf, modify. simpl_state.
    unfold unpack_params, bind at 1, emit, modify.
    rewrite (unpack_walk_ok (BL := SingleNode_buffer_a_laws))
      by (simpl_state; exact Hdata).
    simpl_state. rewrite !with_log_twice, with_heap_with_log.
    unfold dm_write. cbn [memory nccl_type_size NCCL_FLOAT].
    rewrite <- !app_assoc. reflexivity.
  - unfold ret at 1.
    unfold unpack_params, bind at 1, emit, modify.
    rewrite (unpack_walk_ok (BL := SingleNode_buffer_a_laws))
      by (simpl_state; exact Hdata).
    simpl_state. rewrite !with_log_twice, with_heap_with_log.
    rewrite <- !app_assoc. reflexivity.
Qed.

(** A parameter without a gradient view stops [broadcast_data] where it
    adds up the gradient sizes. *)
Lemma single_broadcast_data_missing (model : Model) (s s1 : State) :
  _init_comms s = (inr tt, s1) ->
  Exists (fun np => grad (heap (env s1) (snd np)) = None) model ->
  broadcast_data model s = (inl AttributeError, s1).
Proof.
  intros Hinit Hex.
  unfold broadcast_data. unfold bind at 1. rewrite Hinit.
  unfold bind at 1. rewrite sum_grad_size_missing; [reflexivity|].
  cbn [world State_HasWorld].
  apply Exists_exists in Hex as (np & Hin & Hnp).
  apply Exists_exists. exists (snd np). split; [|exact Hnp].
  apply in_map. now apply In_sorted.
Qed.

End SingleBroadcast.

(** C10. [SingleNodeCommunicator.broadcast_data] walks every named
    parameter, not only those with a gradient: a parameter without a
    gradient view is not skipped but raises [AttributeError] where the
    gradient sizes are added up, before any buffer is sized, so the call
    returns only for models all of whose parameters have a gradient. When
    they all do, the buffer is sized by the gradients' element count times
    4, and it is the data views that are packed, broadcast as [NCCL_FLOAT]
    and unpacked, at item size 4. *)
Theorem C10_single_node_broadcast_needs_gradients
    (model : Model) (s s1 : SingleNode.State) :
  SingleNode._init_comms s = (inr tt, s1) ->
  let h := heap (SingleNode.env s1) in
  let params := map snd (sorted model) in
  let n := total_size h attr_grad params in
  (Exists (fun np => grad (h (snd np)) = None) model ->
   SingleNode.broadcast_data model s = (inl AttributeError, s1))
  /\ (returns (SingleNode.broadcast_data model s) ->
      forall np, In np model -> grad (h (snd np)) <> None)
  /\ (all_views h attr_grad params ->
      all_views h attr_data params ->
      let sized :=
        memory (dm_assign (n * 4)
                  (SingleNode.gpu_buffer_a (SingleNode.self s1))) in
      let packed := pack_mem h params 4 attr_data 0 sized in
      let received :=
        match root_memory (SingleNode.env s1) with
        | None => packed
        | Some bs => write 0 (firstn (n * nccl_type_size NCCL_FLOAT) bs) packed
        end in
      let after := final (SingleNode.broadcast_data model s) in
      exists c,
        SingleNode.intra_nccl_comm (SingleNode.self s1) = Some c
        /\ returns (SingleNode.broadcast_data model s)
        /\ log (SingleNode.env after)
           = log (SingleNode.env s1)
             ++ [EvAssign "gpu_buffer_a" (n * 4);
                 EvPack params 4 attr_data "gpu_buffer_a";
                 EvBcast c "gpu_buffer_a" n NCCL_FLOAT 0 Stream_null;
                 EvUnpack params 4 attr_data "gpu_buffer_a"]
        /\ memory (SingleNode.gpu_buffer_a (SingleNode.self after)) = received
        /\ capacity SingleNode.buffer_a after
           = Nat.max (capacity SingleNode.buffer_a s1) (n * 4)
        /\ SingleNode.gpu_buffer_b (SingleNode.self after)
           = SingleNode.gpu_buffer_b (SingleNode.self s1)
        /\ heap (SingleNode.env after)
           = unpack_store params 4 attr_data 0 received h).
Proof.
  intros Hinit h params n. split; [|split].
  - now apply single_broadcast_data_missing.
  - intros [a Hret] np Hin Hnone.
    assert (Hex : Exists (fun np => grad (h (snd np)) = None) model)
      by (apply Exists_exists; now exists np).
    rewrite (single_broadcast_data_missing s Hinit Hex) in Hret.
    discriminate.
  - intros Hgrad Hdata sized packed received after.
    destruct (single_init_comms_ok _ Hinit) as ([c Hc] & _).
    exists c. split; [exact Hc|]. subst after.
    rewrite (single_broadcast_data_run model s Hinit Hc Hgrad Hdata).
    fold h. fold params. fold n. fold sized. fold packed.
    cbn [nccl_type_size NCCL_FLOAT] in received. fold received.
    split; [exists tt; reflexivity|].
    unfold capacity, capacity_bytes.
    cbn [final snd SingleNode.env SingleNode.self SingleNode.gpu_buffer_a
         SingleNode.gpu_buffer_b SingleNode.buffer_a buf_get
         log heap with_log with_heap memory].
    repeat split.
    assert (Hlen : length received = length sized).
    { unfold received.
      destruct (root_memory (SingleNode.env s1));
        [rewrite write_length|]; apply pack_mem_length. }
    rewrite Hlen. unfold sized, dm_assign, capacity_bytes.
    destruct (Nat.ltb_spec
                (length (memory (SingleNode.gpu_buffer_a (SingleNode.self s1))))
                (n * 4)); cbn [memory].
    + rewrite repeat_length. lia.
    + lia.
Qed.

Lemma C10_witness :
  SingleNode.broadcast_data frozen_model single_new
  = (inl AttributeError, final (SingleNode._init_comms single_new))
  /\ (returns (SingleNode.broadcast_data demo_model
                 single_new)
      /\ log (SingleNode.env
                (final (SingleNode.broadcast_data
                          demo_model single_new)))
         = [EvInitIntraMpiComm; EvInitNcclComm 0;
            EvAssign "gpu_buffer_a" 12;
            EvPack [0; 1] 4 attr_data "gpu_buffer_a";
            EvBcast 0 "gpu_buffer_a" 3 NCCL_FLOAT 0 Stream_null;
            EvUnpack [0; 1] 4 attr_data "gpu_buffer_a"]
      /\ memory (SingleNode.gpu_buffer_a
                   (SingleNode.self
                      (final (SingleNode.broadcast_data demo_model
                                single_new))))
         = [x01; x02; x03; x04; x05; x06; x07; x08; x0a; x0b; x0c; x0d]).
Proof.
  split.
  - apply (C10_single_node_broadcast_needs_gradients
             frozen_model single_new).
    + vm_compute. reflexivity.
    + right. left. reflexivity.
  - destruct (C10_single_node_broadcast_needs_gradients
                demo_model single_new
                (s1:=final (SingleNode._init_comms single_new)))
      as (_ & _ & Hall).
    + vm_compute. reflexivity.
    + destruct Hall as (c & Hc & Hret & Hlog & HA & _).
      * repeat constructor; vm_compute; discriminate.
      * repeat constructor; vm_compute; discriminate.
      * split; [exact Hret|].
        vm_compute in Hc. injection Hc as <-.
        split.
        -- rewrite Hlog. vm_compute. reflexivity.
        -- rewrite HA. vm_compute. reflexivity.
Defined.

(** ** The mixed-precision allreduce *)

Lemma dtype_eqb_eq (a b : dtype) : dtype_eqb a b = true <-> a = b.
Proof.
  unfold dtype_eqb. destruct (dtype_eq_dec a b); split; congruence.
Qed.

Lemma dtype_eqb_neq (a b : dtype) : dtype_eqb a b = false <-> a <> b.
Proof.
  unfold dtype_eqb. destruct (dtype_eq_dec a b); split; congruence.
Qed.

(** C3. In [PureNcclCommunicator.allreduce_grad] the wire type is the
    constructor's override when there is one and the dtype of the first
    gradient otherwise. When it equals the native type the gradients are
    packed straight into reduction buffer A at wire width and unpacked
    straight from buffer B. When it differs they are packed into the
    staging buffer at native width, converted to the wire type and copied
    into A; after the reduction the result is converted back, copied into
    the staging buffer and unpacked from there at native width. *)
Theorem C3_wire_type_and_staging {E : Externals} (model : Model)
    (stream : option Stream) (s s1 : PureNccl.State) p0 rest g0 ty :
  PureNccl._init_comms s = (inr tt, s1) ->
  extracted (heap (PureNccl.env s1)) model = p0 :: rest ->
  grad (heap (PureNccl.env s1) p0) = Some g0 ->
  let me := PureNccl.self s1 in
  let h := heap (PureNccl.env s1) in
  let params := p0 :: rest in
  let st := match stream with None => Stream_null | Some x => x end in
  let native := arr_dtype g0 in
  let wire := match PureNccl.allreduce_grad_dtype me with
              | None => native
              | Some d => d
              end in
  PureNccl._get_nccl_type_id wire = inr ty ->
  size (PureNccl.base me) <> 0 ->
  let n := total_size h attr_grad params in
  let nb := itemsize wire * n in
  let A1 := memory (dm_assign nb (PureNccl.gpu_allreduce_buffer_a me)) in
  let sync_null := if negb (Stream_eqb st Stream_null)
                   then [EvSynchronize Stream_null] else [] in
  let sync_st := if negb (Stream_eqb st Stream_null)
                 then [EvSynchronize st] else [] in
  let r := PureNccl.allreduce_grad model stream s in
  let after := PureNccl.self (final r) in
  exists c,
    PureNccl.nccl_comm me = Some c
    /\ returns r
    /\ (native = wire ->
        let packed := pack_mem h params (itemsize wire) attr_grad 0 A1 in
        memory (PureNccl.gpu_allreduce_buffer_a after) = packed
        /\ PureNccl.gpu_tmp_buffer after = PureNccl.gpu_tmp_buffer me
        /\ heap (PureNccl.env (final r))
           = unpack_store params (itemsize wire) attr_grad 0
               (memory (PureNccl.gpu_allreduce_buffer_b after)) h
        /\ log (PureNccl.env (final r))
           = log (PureNccl.env s1)
             ++ [EvAssign "gpu_allreduce_buffer_a" nb;
                 EvAssign "gpu_allreduce_buffer_b" nb;
                 EvPack params (itemsize wire) attr_grad
                   "gpu_allreduce_buffer_a"]
             ++ sync_null
             ++ [EvAllReduce c "gpu_allreduce_buffer_a"
                   "gpu_allreduce_buffer_b" n ty NCCL_SUM st
                   (read 0 (n * nccl_type_size ty) packed)]
             ++ sync_st
             ++ [EvMulRecip wire (size (PureNccl.base me));
                 EvFromDevice "gpu_allreduce_buffer_b" nb;
                 EvUnpack params (itemsize wire) attr_grad
                   "gpu_allreduce_buffer_b"])
    /\ (native <> wire ->
        let staged :=
          pack_mem h params (itemsize native) attr_grad 0
            (memory (dm_assign (itemsize native * n)
                       (PureNccl.gpu_tmp_buffer me))) in
        let converted :=
          write 0 (firstn nb (astype_raw native wire
                                (read 0 (n * itemsize native) staged))) A1 in
        let back :=
          write 0 (firstn (itemsize native * n)
                     (astype_raw wire native
                        (read 0 (n * itemsize wire)
                           (memory (PureNccl.gpu_allreduce_buffer_b after)))))
            staged in
        memory (PureNccl.gpu_allreduce_buffer_a after) = converted
        /\ memory (PureNccl.gpu_tmp_buffer after) = back
        /\ heap (PureNccl.env (final r))
           = unpack_store params (itemsize native) attr_grad 0 back h
        /\ log (PureNccl.env (final r))
           = log (PureNccl.env s1)
             ++ [EvAssign "gpu_allreduce_buffer_a" nb;
                 EvAssign "gpu_allreduce_buffer_b" nb;
                 EvAssign "gpu_tmp_buffer" (itemsize native * n);
                 EvPack params (itemsize native) attr_grad "gpu_tmp_buffer";
                 EvAstype native wire;
                 EvFromDevice "gpu_allreduce_buffer_a" nb]
             ++ sync_null
             ++ [EvAllReduce c "gpu_allreduce_buffer_a"
                   "gpu_allreduce_buffer_b" n ty NCCL_SUM st
                   (read 0 (n * nccl_type_size ty) converted)]
             ++ sync_st
             ++ [EvMulRecip wire (size (PureNccl.base me));
                 EvFromDevice "gpu_allreduce_buffer_b" nb;
                 EvAstype wire native;
                 EvFromDevice "gpu_tmp_buffer" (itemsize native * n);
                 EvUnpack params (itemsize native) attr_grad
                   "gpu_tmp_buffer"]).
Proof.
  intros Hinit Hex Hg0 me h params st native wire Hty Hsize n nb A1
    sync_null sync_st r after.
  destruct (pure_init_comms_ok _ Hinit) as ([c Hc] & _).
  exists c. split; [exact Hc|].
  pose proof (pure_allreduce_grad_run model stream s Hinit Hc Hex Hg0 Hty Hsize)
    as Hrun.
  cbv zeta in Hrun. fold me h params st native wire n nb A1 in Hrun.
  unfold after, r. rewrite Hrun.
  split; [exists tt; reflexivity|]. split.
  - intros Heq. apply dtype_eqb_eq in Heq. rewrite Heq.
    cbn [negb final snd PureNccl.self PureNccl.env
         PureNccl.gpu_allreduce_buffer_a PureNccl.gpu_allreduce_buffer_b
         PureNccl.gpu_tmp_buffer memory heap log with_log with_heap].
    rewrite memory_eta.
    repeat split;
      first [ reflexivity
            | unfold sync_null, sync_st; now rewrite <- !app_assoc ].
  - intros Hneq. apply dtype_eqb_neq in Hneq. rewrite Hneq.
    cbn [negb final snd PureNccl.self PureNccl.env
         PureNccl.gpu_allreduce_buffer_a PureNccl.gpu_allreduce_buffer_b
         PureNccl.gpu_tmp_buffer memory heap log with_log with_heap].
    repeat split;
      first [ reflexivity
            | unfold sync_null, sync_st; now rewrite <- !app_assoc ].
Qed.

Lemma C3_witness :
  returns (PureNccl.allreduce_grad (E:=byte_externals) demo_model None
             (pure_new (Some float16)))
  /\ log (PureNccl.env
            (final (PureNccl.allreduce_grad (E:=byte_externals) demo_model
                      None (pure_new (Some float16)))))
     = [EvInitNcclComm 0;
        EvAssign "gpu_allreduce_buffer_a" 6;
        EvAssign "gpu_allreduce_buffer_b" 6;
        EvAssign "gpu_tmp_buffer" 12;
        EvPack [0; 1] 4 attr_grad "gpu_tmp_buffer";
        EvAstype float32 float16;
        EvFromDevice "gpu_allreduce_buffer_a" 6;
        EvAllReduce 0 "gpu_allreduce_buffer_a" "gpu_allreduce_buffer_b" 3
          NCCL_FLOAT16 NCCL_SUM Stream_null [x01; x02; x05; x06; x0a; x0b];
        EvMulRecip float16 1;
        EvFromDevice "gpu_allreduce_buffer_b" 6;
        EvAstype float16 float32;
        EvFromDevice "gpu_tmp_buffer" 12;
        EvUnpack [0; 1] 4 attr_grad "gpu_tmp_buffer"].
Proof.
  destruct (C3_wire_type_and_staging (E:=byte_externals) demo_model None
              (pure_new (Some float16))
              (s1:=final (PureNccl._init_comms (pure_new (Some float16))))
              (p0:=0) (rest:=[1]) (g0:=grad_a) (ty:=NCCL_FLOAT16))
    as (c & Hc & Hret & _ & Hconv).
  - vm_compute. reflexivity.
  - vm_compute. reflexivity.
  - vm_compute. reflexivity.
  - vm_compute. reflexivity.
  - vm_compute. discriminate.
  - split; [exact Hret|].
    destruct Hconv as (_ & _ & _ & Hlog); [vm_compute; discriminate|].
    vm_compute in Hc. injection Hc as <-.
    rewrite Hlog. vm_compute. reflexivity.
Defined.

(** ** Averaging *)

(** C4. Both communicators hand the collective reduction the gradients as
    they were packed (and, in the mixed-precision path, converted), not
    scaled: no scaling precedes the reduction. The one multiplication by
    [1.0 / size] comes after it, on the reduced sum in buffer B; in the
    single-node communicator what it leaves in B is what is unpacked into
    the gradients. *)
Theorem C4_average_after_reduction {E : Externals} (model : Model) :
  (forall (s s1 : SingleNode.State),
     SingleNode._init_comms s = (inr tt, s1) ->
     size (SingleNode.base (SingleNode.self s1)) <> 0 ->
     let me := SingleNode.self s1 in
     let h := heap (SingleNode.env s1) in
     let params := extracted h model in
     let n := total_size h attr_grad params in
     let packed := pack_mem h params 4 attr_grad 0
                     (memory (dm_assign (n * 4) (SingleNode.gpu_buffer_a me))) in
     let sent := read 0 (n * 4) packed in
     let summed :=
       write 0 (firstn (n * 4)
                  (fold_left (sum_raw NCCL_FLOAT) (peers (SingleNode.env s1))
                     sent))
         (memory (dm_assign (n * 4) (SingleNode.gpu_buffer_b me))) in
     let r := SingleNode.allreduce_grad model s in
     exists c pre post,
       returns r
       /\ log (SingleNode.env (final r))
          = log (SingleNode.env s1) ++ pre
            ++ EvAllReduce c "gpu_buffer_a" "gpu_buffer_b" n NCCL_FLOAT
                 NCCL_SUM Stream_null sent :: post
       /\ existsb is_scaling pre = false
       /\ filter is_scaling post = [EvMulRecip float32 (size (SingleNode.base me))]
       /\ memory (SingleNode.gpu_buffer_b (SingleNode.self (final r)))
          = write 0 (mul_recip_raw float32 (size (SingleNode.base me))
                       (read 0 (n * 4) summed)) summed
       /\ heap (SingleNode.env (final r))
          = unpack_store params 4 attr_grad 0
              (memory (SingleNode.gpu_buffer_b (SingleNode.self (final r)))) h)
  /\ (forall (stream : option Stream) (s s1 : PureNccl.State) p0 rest g0 ty,
        PureNccl._init_comms s = (inr tt, s1) ->
        extracted (heap (PureNccl.env s1)) model = p0 :: rest ->
        grad (heap (PureNccl.env s1) p0) = Some g0 ->
        let me := PureNccl.self s1 in
        let h := heap (PureNccl.env s1) in
        let params := p0 :: rest in
        let st := match stream with None => Stream_null | Some x => x end in
        let native := arr_dtype g0 in
        let wire := match PureNccl.allreduce_grad_dtype me with
                    | None => native
                    | Some d => d
                    end in
        PureNccl._get_nccl_type_id wire = inr ty ->
        size (PureNccl.base me) <> 0 ->
        let n := total_size h attr_grad params in
        let nb := itemsize wire * n in
        let A1 := memory (dm_assign nb (PureNccl.gpu_allreduce_buffer_a me)) in
        let staged :=
          pack_mem h params (itemsize native) attr_grad 0
            (memory (dm_assign (itemsize native * n)
                       (PureNccl.gpu_tmp_buffer me))) in
        let in_A :=
          if dtype_eqb native wire
          then pack_mem h params (itemsize wire) attr_grad 0 A1
          else write 0 (firstn nb (astype_raw native wire
                                     (read 0 (n * itemsize native) staged)))
                 A1 in
        let sent := read 0 (n * nccl_type_size ty) in_A in
        let summed :=
          write 0 (firstn (n * nccl_type_size ty)
                     (fold_left (sum_raw ty) (peers (PureNccl.env s1)) sent))
            (memory (dm_assign nb (PureNccl.gpu_allreduce_buffer_b me))) in
        let r := PureNccl.allreduce_grad model stream s in
        exists c pre post,
          returns r
          /\ log (PureNccl.env (final r))
             = log (PureNccl.env s1) ++ pre
               ++ EvAllReduce c "gpu_allreduce_buffer_a"
                    "gpu_allreduce_buffer_b" n ty NCCL_SUM st sent :: post
          /\ existsb is_scaling pre = false
          /\ filter is_scaling post
             = [EvMulRecip wire (size (PureNccl.base me))]
          /\ memory (PureNccl.gpu_allreduce_buffer_b
                       (PureNccl.self (final r)))
             = write 0 (firstn nb
                          (mul_recip_raw wire (size (PureNccl.base me))
                             (read 0 (n * itemsize wire) summed))) summed).
Proof.
  split.
  - intros s s1 Hinit Hsize me h params n packed sent summed r.
    destruct (single_init_comms_ok _ Hinit) as ([c Hc] & _).
    exists c.
    eexists [_; _; _], [_; _].
    unfold r. rewrite (single_allreduce_grad_run model s Hinit Hc Hsize).
    split; [exists tt; reflexivity|].
    repeat split; reflexivity.
  - intros stream s s1 p0 rest g0 ty Hinit Hex Hg0 me h params st native wire
      Hty Hsize n nb A1 staged in_A sent summed r.
    destruct (pure_init_comms_ok _ Hinit) as ([c Hc] & _).
    pose proof (pure_allreduce_grad_run model stream s Hinit Hc Hex Hg0 Hty
                  Hsize) as Hrun.
    cbv zeta in Hrun. fold me h params st native wire n nb A1 in Hrun.
    exists c.
    exists ([EvAssign "gpu_allreduce_buffer_a" nb;
             EvAssign "gpu_allreduce_buffer_b" nb]
            ++ (if negb (dtype_eqb native wire)
                then [EvAssign "gpu_tmp_buffer" (itemsize native * n);
                      EvPack params (itemsize native) attr_grad
                        "gpu_tmp_buffer";
                      EvAstype native wire;
                      EvFromDevice "gpu_allreduce_buffer_a" nb]
                else [EvPack params (itemsize wire) attr_grad
                        "gpu_allreduce_buffer_a"])
            ++ (if negb (Stream_eqb st Stream_null)
                then [EvSynchronize Stream_null] else [])).
    exists ((if negb (Stream_eqb st Stream_null)
             then [EvSynchronize st] else [])
            ++ [EvMulRecip wire (size (PureNccl.base me));
                EvFromDevice "gpu_allreduce_buffer_b" nb]
            ++ (if negb (dtype_eqb native wire)
                then [EvAstype wire native;
                      EvFromDevice "gpu_tmp_buffer" (itemsize native * n);
                      EvUnpack params (itemsize native) attr_grad
                        "gpu_tmp_buffer"]
                else [EvUnpack params (itemsize wire) attr_grad
                        "gpu_allreduce_buffer_b"])).
    unfold r. rewrite Hrun.
    split; [exists tt; reflexivity|].
    unfold summed, sent, in_A, staged.
    destruct (dtype_eqb native wire), (negb (Stream_eqb st Stream_null));
      cbn [negb final snd PureNccl.self PureNccl.env
           PureNccl.gpu_allreduce_buffer_b memory log with_log with_heap app];
      repeat split; reflexivity.
Qed.

Lemma C4_witness :
  (returns (SingleNode.allreduce_grad (E:=byte_externals) demo_model
              single_new)
   /\ memory (SingleNode.gpu_buffer_b
                (SingleNode.self
                   (final (SingleNode.allreduce_grad (E:=byte_externals)
                             demo_model single_new))))
      = [x01; x02; x03; x04; x05; x06; x07; x08; x0a; x0b; x0c; x0d])
  /\ (returns (PureNccl.allreduce_grad (E:=byte_externals) demo_model None
                 (pure_new None))
      /\ memory (PureNccl.gpu_allreduce_buffer_b
                   (PureNccl.self
                      (final (PureNccl.allreduce_grad (E:=byte_externals)
                                demo_model None (pure_new None)))))
         = [x01; x02; x03; x04; x05; x06; x07; x08; x0a; x0b; x0c; x0d]).
Proof.
  destruct (C4_average_after_reduction (E:=byte_externals) demo_model)
    as [Hsingle Hpure].
  split.
  - destruct (Hsingle single_new (final (SingleNode._init_comms single_new)))
      as (c & pre & post & Hret & _ & _ & _ & Hmem & _).
    + vm_compute. reflexivity.
    + vm_compute. discriminate.
    + split; [exact Hret|]. rewrite Hmem. vm_compute. reflexivity.
  - destruct (Hpure None (pure_new None)
                (final (PureNccl._init_comms (pure_new None)))
                0 [1] grad_a NCCL_FLOAT32)
      as (c & pre & post & Hret & _ & _ & _ & Hmem).
    + vm_compute. reflexivity.
    + vm_compute. reflexivity.
    + vm_compute. reflexivity.
    + vm_compute. reflexivity.
    + vm_compute. discriminate.
    + split; [exact Hret|]. rewrite Hmem. vm_compute. reflexivity.
Defined.

(** ** A single participant *)

Section SingleParticipant.

Implicit Types mem bs : list byte.

Lemma read0_firstn k mem : read 0 k mem = firstn k mem.
Proof. reflexivity. Qed.

Lemma read0_write0 bs mem :
  length bs <= length mem -> read 0 (length bs) (write 0 bs mem) = bs.
Proof.
  intros Hlen. rewrite read_write_same by (cbn; lia).
  rewrite Nat.sub_diag. unfold read. cbn [firstn]. apply app_nil_r.
Qed.

Lemma write0_read0 k mem : write 0 (read 0 k mem) mem = mem.
Proof.
  rewrite read0_firstn.
  replace (firstn k mem) with (firstn (Nat.min k (length mem)) mem ++ []).
  - apply write_back. rewrite length_firstn. cbn. lia.
  - rewrite app_nil_r. destruct (Nat.le_ge_cases k (length mem)).
    + now rewrite Nat.min_l.
    + rewrite Nat.min_r by assumption. now rewrite !firstn_all2 by lia.
Qed.

Lemma dm_assign_length n (m : DeviceMemory) :
  n <= length (memory (dm_assign n m)).
Proof.
  unfold dm_assign, capacity_bytes.
  destruct (Nat.ltb_spec (length (memory m)) n); cbn [memory].
  - now rewrite repeat_length.
  - assumption.
Qed.

(** With nobody else in the group and a product by [1.0 / 1] that changes
    nothing, buffer B ends up holding, on its first [k] bytes, what buffer
    A held there. *)
Lemma alone_prefix k A B :
  k <= length A -> k <= length B ->
  let B2 := write 0 (firstn k (read 0 k A)) B in
  firstn k (write 0 (firstn k (read 0 k B2)) B2) = firstn k A.
Proof.
  intros HA HB B2.
  assert (Hk : length (firstn k A) = k) by (rewrite length_firstn; lia).
  assert (HB2 : read 0 k B2 = firstn k A).
  { unfold B2. rewrite !read0_firstn, firstn_firstn, Nat.min_id.
    rewrite <- Hk at 1. rewrite <- read0_firstn. apply read0_write0. lia. }
  rewrite HB2, firstn_firstn, Nat.min_id.
  rewrite <- HB2 at 1. rewrite write0_read0.
  rewrite <- read0_firstn. exact HB2.
Qed.

End SingleParticipant.

Lemma nccl_type_size_itemsize d ty :
  PureNccl._get_nccl_type_id d = inr ty -> nccl_type_size ty = itemsize d.
Proof.
  destruct d; cbn; intros [= <-] || discriminate; reflexivity.
Qed.

Lemma alone_reduced k (A B : list byte) :
  k <= length A -> k <= length B ->
  firstn k (write 0 (firstn k (read 0 k A)) B) = firstn k A.
Proof.
  intros HA HB.
  assert (Hk : length (firstn k A) = k) by (rewrite length_firstn; lia).
  rewrite read0_firstn, firstn_firstn, Nat.min_id.
  rewrite <- Hk at 1. rewrite <- read0_firstn. apply read0_write0. lia.
Qed.

(** C5. In a process group of one (size 1, no other rank contributing),
    with a product by [1.0 / 1] that changes no value, [allreduce_grad]
    leaves the gradients of every parameter as they were, in the
    single-node communicator and in the pure NCCL communicator when the
    wire type is the native type. When the wire type differs, the gradients
    are what unpacking finds after the packed bytes went to the wire type
    and back; they are unchanged whenever that round trip loses nothing. *)
Theorem C5_single_participant {E : Externals} (model : Model) :
  (forall d bs, mul_recip_raw d 1 bs = bs) ->
  (forall (s s1 : SingleNode.State),
     SingleNode._init_comms s = (inr tt, s1) ->
     size (SingleNode.base (SingleNode.self s1)) = 1 ->
     peers (SingleNode.env s1) = [] ->
     let r := SingleNode.allreduce_grad model s in
     returns r
     /\ forall l, heap (SingleNode.env (final r)) l = heap (SingleNode.env s) l)
  /\ (forall (stream : option Stream) (s s1 : PureNccl.State) p0 rest g0 ty,
        PureNccl._init_comms s = (inr tt, s1) ->
        extracted (heap (PureNccl.env s1)) model = p0 :: rest ->
        grad (heap (PureNccl.env s1) p0) = Some g0 ->
        let me := PureNccl.self s1 in
        let h := heap (PureNccl.env s1) in
        let params := p0 :: rest in
        let native := arr_dtype g0 in
        let wire := match PureNccl.allreduce_grad_dtype me with
                    | None => native
                    | Some d => d
                    end in
        PureNccl._get_nccl_type_id wire = inr ty ->
        size (PureNccl.base me) = 1 ->
        peers (PureNccl.env s1) = [] ->
        let n := total_size h attr_grad params in
        let nb := itemsize wire * n in
        let r := PureNccl.allreduce_grad model stream s in
        returns r
        /\ (native = wire ->
            forall l, heap (PureNccl.env (final r)) l = heap (PureNccl.env s) l)
        /\ (native <> wire ->
            let staged :=
              pack_mem h params (itemsize native) attr_grad 0
                (memory (dm_assign (itemsize native * n)
                           (PureNccl.gpu_tmp_buffer me))) in
            let on_wire :=
              read 0 nb
                (write 0 (firstn nb (astype_raw native wire
                                       (read 0 (n * itemsize native) staged)))
                   (memory (dm_assign nb
                              (PureNccl.gpu_allreduce_buffer_a me)))) in
            let back :=
              firstn (itemsize native * n) (astype_raw wire native on_wire) in
            heap (PureNccl.env (final r))
            = unpack_store params (itemsize native) attr_grad 0
                (write 0 back staged) h
            /\ (back = read 0 (itemsize native * n) staged ->
                forall l,
                  heap (PureNccl.env (final r)) l = heap (PureNccl.env s) l))).
Proof.
  intros Hone. split.
  - intros s s1 Hinit Hsize Hpeers r.
    destruct (single_init_comms_ok _ Hinit) as ([c Hc] & Hheap & _).
    assert (Hsz : size (SingleNode.base (SingleNode.self s1)) <> 0) by lia.
    unfold r. rewrite (single_allreduce_grad_run model s Hinit Hc Hsz).
    split; [exists tt; reflexivity|].
    cbn [final snd SingleNode.env heap with_log with_heap].
    rewrite Hsize, Hpeers, Hone. cbn [fold_left]. rewrite write0_read0.
    intros l. rewrite <- Hheap.
    apply unpack_store_restores; [|reflexivity].
    eapply restores_prefix; [|apply pack_restores].
    + cbn [Nat.add]. symmetry. apply alone_reduced.
      * rewrite pack_mem_length. apply dm_assign_length.
      * apply dm_assign_length.
    + cbn [Nat.add]. apply dm_assign_length.
  - intros stream s s1 p0 rest g0 ty Hinit Hex Hg0 me h params native wire
      Hty Hsize Hpeers n nb r.
    destruct (pure_init_comms_ok _ Hinit) as ([c Hc] & Hheap & _).
    assert (Hsz : size (PureNccl.base (PureNccl.self s1)) <> 0)
      by (fold me; lia).
    pose proof (pure_allreduce_grad_run model stream s Hinit Hc Hex Hg0 Hty
                  Hsz) as Hrun.
    cbv zeta in Hrun. fold me h params native wire n nb in Hrun.
    rewrite Hsize, Hpeers in Hrun. cbn [fold_left] in Hrun.
    rewrite Hone in Hrun.
    rewrite (nccl_type_size_itemsize _ Hty) in Hrun.
    replace (n * itemsize wire) with nb in Hrun by (unfold nb; lia).
    unfold r. rewrite Hrun. clear Hrun.
    split; [exists tt; reflexivity|].
    cbn [final snd PureNccl.env heap with_log with_heap].
    split.
    + intros Heq. apply dtype_eqb_eq in Heq. rewrite Heq. cbn [negb].
      intros l. rewrite <- Hheap. fold h.
      apply unpack_store_restores; [|reflexivity].
      eapply restores_prefix; [|apply pack_restores].
      * cbn [Nat.add]. replace (total_size h attr_grad params * itemsize wire)
          with nb by (unfold nb, n; lia).
        symmetry.
        match goal with
        | |- firstn nb (write 0 (firstn nb (read 0 nb ?B2)) ?B2) = _ =>
            rewrite (read0_firstn nb B2), firstn_firstn, Nat.min_id,
              <- (read0_firstn nb B2), write0_read0
        end.
        apply alone_reduced.
        -- rewrite pack_mem_length. apply dm_assign_length.
        -- apply dm_assign_length.
      * cbn [Nat.add]. replace (total_size h attr_grad params * itemsize wire)
          with nb by (unfold nb, n; lia).
        apply dm_assign_length.
    + intros Hneq.
      apply dtype_eqb_neq in Hneq. rewrite Hneq. cbn [negb].
      set (staged :=
             pack_mem h params (itemsize native) attr_grad 0
               (memory (dm_assign (itemsize native * n)
                          (PureNccl.gpu_tmp_buffer me)))).
      set (on_wire :=
             read 0 nb
               (write 0 (firstn nb (astype_raw native wire
                                      (read 0 (n * itemsize native) staged)))
                  (memory (dm_assign nb
                             (PureNccl.gpu_allreduce_buffer_a me))))).
      set (back :=
             firstn (itemsize native * n) (astype_raw wire native on_wire)).
      match goal with
      | |- context [astype_raw wire native (read 0 nb ?B3)] =>
          assert (Hwire : read 0 nb B3 = on_wire)
      end.
      { rewrite read0_firstn. unfold on_wire. rewrite (read0_firstn nb (write _ _ _)).
        apply alone_prefix.
        - rewrite write_length. apply dm_assign_length.
        - apply dm_assign_length. }
      rewrite Hwire. fold back. split; [reflexivity|].
      intros Hback l. rewrite Hback, write0_read0, <- Hheap. fold h.
      apply unpack_store_restores; [|reflexivity].
      apply pack_restores. cbn [Nat.add].
      replace (total_size h attr_grad params * itemsize native)
        with (itemsize native * n) by (unfold n; lia).
      apply dm_assign_length.
Qed.

Lemma C5_witness :
  (returns (SingleNode.allreduce_grad (E:=byte_externals) demo_model
              single_new)
   /\ heap (SingleNode.env
              (final (SingleNode.allreduce_grad (E:=byte_externals)
                        demo_model single_new))) 0
      = demo_store 0)
  /\ (returns (PureNccl.allreduce_grad (E:=byte_externals) demo_model None
                 (pure_new None))
      /\ heap (PureNccl.env
                 (final (PureNccl.allreduce_grad (E:=byte_externals)
                           demo_model None (pure_new None)))) 1
         = demo_store 1).
Proof.
  destruct (C5_single_participant (E:=byte_externals) demo_model)
    as [Hsingle Hpure].
  - intros d bs. reflexivity.
  - split.
    + destruct (Hsingle single_new
                  (final (SingleNode._init_comms single_new)))
        as [Hret Hheap].
      * vm_compute. reflexivity.
      * vm_compute. reflexivity.
      * vm_compute. reflexivity.
      * split; [exact Hret|apply Hheap].
    + destruct (Hpure None (pure_new None)
                  (final (PureNccl._init_comms (pure_new None)))
                  0 [1] grad_a NCCL_FLOAT32)
        as (Hret & Hsame & _).
      * vm_compute. reflexivity.
      * vm_compute. reflexivity.
      * vm_compute. reflexivity.
      * vm_compute. reflexivity.
      * vm_compute. reflexivity.
      * vm_compute. reflexivity.
      * split; [exact Hret|]. apply Hsame. vm_compute. reflexivity.
Defined.

(** * Further properties of the two communicators *)

(** ** When the collective library cannot be initialised *)

(** X1. Without NCCL in CuPy, a communicator that holds no handle cannot
    reduce: [allreduce_grad] of both classes and the single-node
    [broadcast_data] raise [RuntimeError] and leave the communicator, the
    parameters and the log exactly as they were, so the call can be made
    again later. [PureNcclCommunicator.broadcast_data] does not need NCCL
    and returns all the same. *)
Theorem X1_nccl_unavailable_leaves_no_trace {E : Externals} :
  let unavailable :=
    RuntimeError
      "NCCL is not available. Please confirm that NCCL is enabled in CuPy." in
  (forall (s : PureNccl.State) model stream,
     PureNccl.nccl_comm (PureNccl.self s) = None ->
     nccl_available (PureNccl.env s) = false ->
     PureNccl.allreduce_grad model stream s = (inl unavailable, s)
     /\ returns (PureNccl.broadcast_data model s))
  /\ (forall (s : SingleNode.State) model,
        inter_mpi_comm (SingleNode.base (SingleNode.self s)) = None ->
        nccl_available (SingleNode.env s) = false ->
        SingleNode.allreduce_grad model s = (inl unavailable, s)
        /\ SingleNode.broadcast_data model s = (inl unavailable, s)).
Proof.
  intros unavailable. split.
  - intros s model stream Hc Ha. split.
    + unfold PureNccl.allreduce_grad, bind at 1.
      now rewrite pure_init_comms_cases, Hc, Ha.
    + exists tt. reflexivity.
  - intros s model Hi Ha. split.
    + unfold SingleNode.allreduce_grad, bind at 1.
      now rewrite single_init_comms_cases, Hi, Ha.
    + unfold SingleNode.broadcast_data, bind at 1.
      now rewrite single_init_comms_cases, Hi, Ha.
Qed.

Lemma X1_witness :
  (PureNccl.allreduce_grad (E:=byte_externals) demo_model None pure_offline
   = (inl (RuntimeError
        "NCCL is not available. Please confirm that NCCL is enabled in CuPy."),
      pure_offline)
   /\ returns (PureNccl.broadcast_data (E:=byte_externals) demo_model
                 pure_offline))
  /\ (SingleNode.allreduce_grad (E:=byte_externals) demo_model single_offline
      = (inl (RuntimeError
           "NCCL is not available. Please confirm that NCCL is enabled in CuPy."),
         single_offline)
      /\ SingleNode.broadcast_data demo_model single_offline
         = (inl (RuntimeError
              "NCCL is not available. Please confirm that NCCL is enabled in CuPy."),
            single_offline)).
Proof.
  destruct (X1_nccl_unavailable_leaves_no_trace (E:=byte_externals))
    as [Hpure Hsingle].
  split.
  - apply Hpure; reflexivity.
  - apply Hsingle; reflexivity.
Defined.

(** X2. The constructor of [SingleNodeCommunicator] always leaves
    [intra_nccl_comm] at [None], and [_init_comms] builds it only while
    [inter_mpi_comm] is [None]. On an instance whose base class has set
    [inter_mpi_comm], the assertion of [_init_comms] therefore fails in
    every [broadcast_data] and [allreduce_grad]: each raises
    [AssertionError] and changes nothing, however many calls are made. *)
Theorem X2_single_node_assertion_dead_end {E : Externals}
    (b : CommunicatorBase) (w w' : World) (c : SingleNode.SingleNodeCommunicator)
    (mc : MpiComm) :
  SingleNode.__init__ b w = (inr c, w') ->
  inter_mpi_comm b = Some mc ->
  let s := {| SingleNode.self := c; SingleNode.env := w' |} in
  (forall model, SingleNode.allreduce_grad model s = (inl AssertionError, s))
  /\ (forall model, SingleNode.broadcast_data model s = (inl AssertionError, s))
  /\ (forall cs, SingleNode.calls cs s = s).
Proof.
  intros Hnew Hi s.
  assert (Hinit : SingleNode._init_comms s = (inl AssertionError, s)).
  { rewrite single_init_comms_cases. unfold SingleNode.__init__ in Hnew.
    destruct (negb (inter_size b =? 1)); [discriminate|].
    unfold bind, emit, modify, ret in Hnew. injection Hnew as <- _.
    cbn. now rewrite Hi. }
  assert (Hall : forall model,
            SingleNode.allreduce_grad model s = (inl AssertionError, s)).
  { intros model. unfold SingleNode.allreduce_grad, bind at 1.
    now rewrite Hinit. }
  assert (Hbc : forall model,
            SingleNode.broadcast_data model s = (inl AssertionError, s)).
  { intros model. unfold SingleNode.broadcast_data, bind at 1.
    now rewrite Hinit. }
  split; [exact Hall|]. split; [exact Hbc|].
  induction cs as [|[| model | model] cs IH]; cbn [SingleNode.calls].
  - reflexivity.
  - cbn [SingleNode.call]. now rewrite Hinit.
  - cbn [SingleNode.call]. now rewrite Hbc.
  - cbn [SingleNode.call]. now rewrite Hall.
Qed.

Lemma X2_witness :
  exists s,
    SingleNode.__init__ bound_process demo_world
    = (inr (SingleNode.self s), SingleNode.env s)
    /\ SingleNode.allreduce_grad (E:=byte_externals) demo_model s
       = (inl AssertionError, s)
    /\ SingleNode.broadcast_data demo_model s = (inl AssertionError, s)
    /\ SingleNode.calls (E:=byte_externals)
         [SingleNode.Call_broadcast_data demo_model;
          SingleNode.Call_allreduce_grad demo_model] s = s.
Proof.
  eexists {| SingleNode.self := _; SingleNode.env := _ |}. cbn [SingleNode.self SingleNode.env].
  destruct (X2_single_node_assertion_dead_end (E:=byte_externals)
              bound_process demo_world
              (w' := snd (SingleNode.__init__ bound_process demo_world))
              (c := {| SingleNode.base := bound_process;
                       SingleNode.gpu_buffer_a := DeviceMemory_new;
                       SingleNode.gpu_buffer_b := DeviceMemory_new;
                       SingleNode.intra_nccl_comm := None |})
              (mc := mpi_comm one_process))
    as (Hall & Hbc & Hcalls).
  - vm_compute. reflexivity.
  - reflexivity.
  - split; [vm_compute; reflexivity|].
    split; [apply Hall|]. split; [apply Hbc|apply Hcalls].
Defined.

(** ** The guard of the single-node initialisation *)

Section SingleGuard.

Context {E : Externals}.
Import SingleNode.

(** After [_init_comms], neither public method touches the handle, the
    construction count, or what the guard looks at. *)
Lemma single_allreduce_grad_handle model (s : State) :
  handle (final (allreduce_grad model s)) = handle (final (_init_comms s))
  /\ guard (final (allreduce_grad model s)) = guard (final (_init_comms s)).
Proof.
  split; unfold allreduce_grad, bind at 1;
    (destruct (_init_comms s) as [[e|[]] s1]; [reflexivity|]);
    cbn [final snd].
  - match goal with
    | |- handle (final (?m s1)) = _ => enough (K : keeps handle m) by apply K
    end.
    frame.
  - match goal with
    | |- guard (final (?m s1)) = _ => enough (K : keeps guard m) by apply K
    end.
    frame.
Qed.

Lemma single_broadcast_data_handle model (s : State) :
  handle (final (broadcast_data model s)) = handle (final (_init_comms s))
  /\ guard (final (broadcast_data model s)) = guard (final (_init_comms s)).
Proof.
  split; unfold broadcast_data, bind at 1;
    (destruct (_init_comms s) as [[e|[]] s1]; [reflexivity|]);
    cbn [final snd].
  - match goal with
    | |- handle (final (?m s1)) = _ => enough (K : keeps handle m) by apply K
    end.
    frame.
  - match goal with
    | |- guard (final (?m s1)) = _ => enough (K : keeps guard m) by apply K
    end.
    frame.
Qed.

Lemma single_call_handle (c : Call) (s : State) :
  handle (final (call c s)) = handle (final (_init_comms s))
  /\ guard (final (call c s)) = guard (final (_init_comms s)).
Proof.
  destruct c as [| model | model]; cbn [call].
  - split; reflexivity.
  - apply single_broadcast_data_handle.
  - apply single_allreduce_grad_handle.
Qed.

Lemma single_init_comms_rebuilt (s : State) :
  guard s = (None, true) ->
  handle (final (_init_comms s))
  = (Some (comms_created (env s)), S (comms_created (env s)))
  /\ guard (final (_init_comms s)) = (None, true).
Proof.
  unfold guard. intros [= Hi Ha].
  rewrite single_init_comms_cases, Hi, Ha. cbn. now rewrite Hi, Ha.
Qed.

End SingleGuard.

(** X3. [SingleNodeCommunicator._init_comms] tests [inter_mpi_comm], which
    the class never sets, instead of the handle it builds. On an instance
    whose [inter_mpi_comm] is [None], with NCCL available, every
    [_init_comms], [broadcast_data] and [allreduce_grad], however it ends,
    constructs one more NCCL communicator and makes it the handle: after
    any sequence of calls the number of constructions has grown by the
    number of calls, and the handle is the one constructed last. *)
Theorem X3_single_node_rebuilds_on_every_call {E : Externals}
    (cs : list SingleNode.Call) (s : SingleNode.State) :
  inter_mpi_comm (SingleNode.base (SingleNode.self s)) = None ->
  nccl_available (SingleNode.env s) = true ->
  let s' := SingleNode.calls cs s in
  comms_created (SingleNode.env s')
  = comms_created (SingleNode.env s) + length cs
  /\ (cs <> [] ->
      SingleNode.intra_nccl_comm (SingleNode.self s')
      = Some (comms_created (SingleNode.env s) + length cs - 1)).
Proof.
  intros Hi Ha. cbv zeta.
  assert (Hg : SingleNode.guard s = (None, true)).
  { unfold SingleNode.guard. now rewrite Hi, Ha. }
  clear Hi Ha. revert s Hg.
  induction cs as [|c cs IH]; intros s Hg.
  - cbn. split; [lia|congruence].
  - cbn [SingleNode.calls length].
    destruct (single_call_handle c s) as [Hh Hg'].
    destruct (single_init_comms_rebuilt Hg) as [Hh1 Hg1].
    rewrite Hh1 in Hh. rewrite Hg1 in Hg'.
    unfold SingleNode.handle in Hh. injection Hh as Hc Hn.
    destruct (IH _ Hg') as [IHn IHc]. rewrite IHn, Hn. split; [lia|].
    intros _. destruct cs as [|c' cs'].
    + cbn [SingleNode.calls length]. rewrite Hc. f_equal. lia.
    + rewrite IHc by discriminate. rewrite Hn. f_equal. cbn [length]. lia.
Qed.

Lemma X3_witness :
  comms_created
    (SingleNode.env
       (SingleNode.calls (E:=byte_externals)
          [SingleNode.Call_broadcast_data demo_model;
           SingleNode.Call_allreduce_grad demo_model;
           SingleNode.Call_allreduce_grad no_grad_model] single_new))
  = 3
  /\ SingleNode.intra_nccl_comm
       (SingleNode.self
          (SingleNode.calls (E:=byte_externals)
             [SingleNode.Call_broadcast_data demo_model;
              SingleNode.Call_allreduce_grad demo_model;
              SingleNode.Call_allreduce_grad no_grad_model] single_new))
     = Some 2.
Proof.
  destruct (X3_single_node_rebuilds_on_every_call (E:=byte_externals)
              [SingleNode.Call_broadcast_data demo_model;
               SingleNode.Call_allreduce_grad demo_model;
               SingleNode.Call_allreduce_grad no_grad_model] single_new)
    as [Hn Hc].
  - reflexivity.
  - reflexivity.
  - split; [exact Hn|]. apply Hc. discriminate.
Defined.

(** ** The device buffers *)

Lemma dm_assign_capacity n (m : DeviceMemory) :
  capacity_bytes (dm_assign n m) = Nat.max (capacity_bytes m) n.
Proof.
  unfold dm_assign, capacity_bytes.
  destruct (Nat.ltb_spec (length (memory m)) n); cbn [memory].
  - rewrite repeat_length. lia.
  - lia.
Qed.

Lemma dm_assign_enough n (m : DeviceMemory) :
  n <= capacity_bytes m -> dm_assign n m = m.
Proof.
  intros Hn. unfold dm_assign.
  destruct (Nat.ltb_spec (capacity_bytes m) n); [lia|reflexivity].
Qed.

Lemma dm_write_capacity off bs (m : DeviceMemory) :
  capacity_bytes (dm_write off bs m) = capacity_bytes m.
Proof. apply write_length. Qed.

(** X4. When [PureNcclCommunicator._assign] returns, buffers A and B have
    the larger of their old capacity and the bytes of the elements in the
    wire dtype; a buffer that was already large enough is kept as it is,
    contents included. The staging buffer is sized in the same way for the
    native dtype when the two dtypes differ and is not touched when they
    are equal. Parameters and handle are not touched. *)
Theorem X4_assign_sizes_the_buffers (gd wd : dtype) (n : nat)
    (s s' : PureNccl.State) :
  PureNccl._assign gd wd n s = (inr tt, s') ->
  let wire_bytes := itemsize wd * n in
  capacity PureNccl.buffer_a s'
  = Nat.max (capacity PureNccl.buffer_a s) wire_bytes
  /\ capacity PureNccl.buffer_b s'
     = Nat.max (capacity PureNccl.buffer_b s) wire_bytes
  /\ (wire_bytes <= capacity PureNccl.buffer_a s ->
      PureNccl.gpu_allreduce_buffer_a (PureNccl.self s')
      = PureNccl.gpu_allreduce_buffer_a (PureNccl.self s))
  /\ (wire_bytes <= capacity PureNccl.buffer_b s ->
      PureNccl.gpu_allreduce_buffer_b (PureNccl.self s')
      = PureNccl.gpu_allreduce_buffer_b (PureNccl.self s))
  /\ (gd = wd ->
      PureNccl.gpu_tmp_buffer (PureNccl.self s')
      = PureNccl.gpu_tmp_buffer (PureNccl.self s))
  /\ (gd <> wd ->
      capacity PureNccl.tmp_buffer s'
      = Nat.max (capacity PureNccl.tmp_buffer s) (itemsize gd * n))
  /\ heap (PureNccl.env s') = heap (PureNccl.env s)
  /\ PureNccl.handle s' = PureNccl.handle s.
Proof.
  intros Hrun wire_bytes.
  assert (Hs : s' = final (PureNccl._assign gd wd n s)) by now rewrite Hrun.
  subst s'. clear Hrun.
  unfold PureNccl._assign. fold wire_bytes.
  unfold bind, assign, bind, emit, update_buf, modify, capacity.
  destruct (dtype_eqb gd wd) eqn:Hd; cbn.
  - apply dtype_eqb_eq in Hd.
    repeat split; intros;
      first [ apply dm_assign_capacity
            | now apply dm_assign_enough | congruence ].
  - apply dtype_eqb_neq in Hd.
    repeat split; intros;
      first [ apply dm_assign_capacity
            | now apply dm_assign_enough | congruence ].
Qed.

Lemma X4_witness :
  (PureNccl.gpu_allreduce_buffer_a
     (PureNccl.self (final (PureNccl._assign float32 float32 0
                               (pure_new None))))
   = PureNccl.gpu_allreduce_buffer_a (PureNccl.self (pure_new None))
   /\ PureNccl.gpu_tmp_buffer
        (PureNccl.self (final (PureNccl._assign float32 float32 0
                                  (pure_new None))))
      = PureNccl.gpu_tmp_buffer (PureNccl.self (pure_new None)))
  /\ capacity PureNccl.tmp_buffer
       (final (PureNccl._assign float32 float16 3 (pure_new None)))
     = Nat.max (capacity PureNccl.tmp_buffer (pure_new None))
         (itemsize float32 * 3).
Proof.
  split.
  - destruct (X4_assign_sizes_the_buffers float32 float32 0
                (pure_new None)
                (s' := final (PureNccl._assign float32 float32 0
                                (pure_new None))))
      as (_ & _ & Ha & _ & Ht & _).
    + vm_compute. reflexivity.
    + split; [apply Ha; vm_compute; lia|apply Ht; reflexivity].
  - destruct (X4_assign_sizes_the_buffers float32 float16 3
                (pure_new None)
                (s' := final (PureNccl._assign float32 float16 3
                                (pure_new None))))
      as (_ & _ & _ & _ & _ & Ht & _).
    + vm_compute. reflexivity.
    + apply Ht. discriminate.
Defined.

(** ** Buffers only grow *)

Section Growth.

Context {E : Externals} {St : Type} {HW : HasWorld St}.

Lemma grows_keeps A (f : St -> nat) (m : M St A) : keeps f m -> grows f m.
Proof. intros H s. now rewrite H. Qed.

Lemma grows_bind A B (f : St -> nat) (m : M St A) (k : A -> M St B) :
  grows f m -> (forall a, grows f (k a)) -> grows f (bind m k).
Proof.
  intros Hm Hk s. unfold bind. specialize (Hm s).
  destruct (m s) as [[e|a] s']; cbn in *.
  - exact Hm.
  - etransitivity; [exact Hm|apply Hk].
Qed.

Lemma grows_when (f : St -> nat) (c : bool) (m : M St unit) :
  grows f m -> grows f (when c m).
Proof. destruct c; [trivial|intros _ s; reflexivity]. Qed.

Variable b : BufRef St.
Context {BL : BufLaws b}.

Lemma grows_update_buf g :
  (forall m, capacity_bytes m <= capacity_bytes (g m)) ->
  grows (capacity b) (update_buf b g).
Proof.
  intros Hg s. unfold update_buf, modify, capacity. cbn.
  rewrite buf_get_set. apply Hg.
Qed.

Lemma grows_emit e : grows (capacity b) (emit e).
Proof.
  intros s. unfold emit, modify, capacity. cbn.
  now rewrite buf_get_set_world.
Qed.

Lemma grows_assign n : grows (capacity b) (assign b n).
Proof.
  apply grows_bind; [apply grows_emit|intros _].
  apply grows_update_buf. intros m. rewrite dm_assign_capacity. lia.
Qed.

Lemma grows_from_device src n : grows (capacity b) (from_device b src n).
Proof.
  apply grows_bind; [apply grows_emit|intros _].
  apply grows_update_buf. intros m. unfold dm_from_device.
  now rewrite dm_write_capacity.
Qed.

Lemma grows_imul_recip count dt n : grows (capacity b) (imul_recip b count dt n).
Proof.
  unfold imul_recip. destruct (n =? 0); [intros s; reflexivity|].
  apply grows_bind; [apply grows_emit|intros _].
  apply grows_update_buf. intros m. now rewrite dm_write_capacity.
Qed.

Lemma grows_pack_walk params item_size attr off :
  grows (capacity b) (pack_walk params item_size attr b off).
Proof.
  revert off. induction params as [|p rest IH]; intros off; cbn.
  - intros s. reflexivity.
  - apply grows_bind.
    + intros s. unfold view, bind, get.
      destruct (getattr (heap (world s) p) attr); reflexivity.
    + intros v. apply grows_bind; [|intros _; apply IH].
      apply grows_update_buf. intros m. unfold dm_from_device.
      now rewrite dm_write_capacity.
Qed.

Lemma grows_pack_params params item_size attr :
  grows (capacity b) (pack_params params item_size attr b).
Proof.
  apply grows_bind; [apply grows_emit|intros _; apply grows_pack_walk].
Qed.

Lemma grows_allReduce comm src count ty op st :
  grows (capacity b) (allReduce comm src b count ty op st).
Proof.
  apply grows_bind; [intros s; reflexivity|intros s].
  apply grows_bind; [apply grows_emit|intros _].
  apply grows_update_buf. intros m. now rewrite dm_write_capacity.
Qed.

Lemma grows_bcast comm count ty root st :
  grows (capacity b) (bcast comm b count ty root st).
Proof.
  apply grows_bind; [intros s; reflexivity|intros s].
  apply grows_bind; [apply grows_emit|intros _].
  destruct (root_memory (world s)); [|intros s'; reflexivity].
  apply grows_update_buf. intros m. now rewrite dm_write_capacity.
Qed.

End Growth.

Create HintDb growth discriminated.

#[export] Hint Resolve grows_when grows_assign grows_from_device grows_imul_recip
  grows_pack_walk grows_pack_params grows_allReduce grows_bcast : growth.

#[export] Hint Extern 0 (BufLaws _) => typeclasses eauto : growth.

(** Close a step that leaves the measure alone from [frames], a step on
    the buffer itself from [growth], or peel a bind. *)
Ltac grow :=
  first [ solve [apply grows_keeps; frame]
        | solve [auto with growth]
        | match goal with
          | |- grows _ (match ?x with _ => _ end) => destruct x; grow
          | |- grows _ (if ?x then _ else _) => destruct x; grow
          end
        | apply grows_bind; [grow | intros; grow] ].

Section PureGrowth.

Context {E : Externals}.
Import PureNccl.

Lemma pure_grows_init_comms (b : BufRef State) :
  In b [tmp_buffer; buffer_a; buffer_b] -> grows (capacity b) _init_comms.
Proof.
  intros Hb s. rewrite pure_init_comms_cases.
  destruct (nccl_comm (self s)); [reflexivity|].
  destruct (nccl_available (env s)); [|reflexivity].
  destruct Hb as [<-|[<-|[<-|[]]]]; reflexivity.
Qed.

Lemma pure_grows_allreduce_grad (b : BufRef State) model stream :
  In b [tmp_buffer; buffer_a; buffer_b] ->
  grows (capacity b) (allreduce_grad model stream).
Proof.
  intros Hb. unfold allreduce_grad.
  apply grows_bind; [now apply pure_grows_init_comms|intros _].
  unfold _assign, _pack_params_to_buffer, _unpack_params_from_buffer.
  destruct Hb as [<-|[<-|[<-|[]]]]; grow.
Qed.

Lemma pure_grows_call (b : BufRef State) (c : Call) :
  In b [tmp_buffer; buffer_a; buffer_b] -> grows (capacity b) (call c).
Proof.
  intros Hb. destruct c as [| model | model stream]; cbn [call].
  - now apply pure_grows_init_comms.
  - apply grows_keeps. unfold broadcast_data.
    destruct Hb as [<-|[<-|[<-|[]]]]; frame.
  - now apply pure_grows_allreduce_grad.
Qed.

Lemma pure_grows_calls (b : BufRef State) (cs : list Call) (s : State) :
  In b [tmp_buffer; buffer_a; buffer_b] ->
  capacity b s <= capacity b (calls cs s).
Proof.
  intros Hb. revert s. induction cs as [|c cs IH]; intros s; cbn [calls].
  - reflexivity.
  - etransitivity; [apply (pure_grows_call c Hb)|apply IH].
Qed.

End PureGrowth.

Section SingleGrowth.

Context {E : Externals}.
Import SingleNode.

Lemma single_grows_init_comms (b : BufRef State) :
  In b [buffer_a; buffer_b] -> grows (capacity b) _init_comms.
Proof.
  intros Hb s. rewrite single_init_comms_cases.
  destruct (inter_mpi_comm (base (self s))).
  - destruct (intra_nccl_comm (self s)); reflexivity.
  - destruct (nccl_available (env s)); [|reflexivity].
    destruct Hb as [<-|[<-|[]]]; reflexivity.
Qed.

Lemma single_grows_call (b : BufRef State) (c : Call) :
  In b [buffer_a; buffer_b] -> grows (capacity b) (call c).
Proof.
  intros Hb. destruct c as [| model | model]; cbn [call].
  - now apply single_grows_init_comms.
  - unfold broadcast_data.
    apply grows_bind; [now apply single_grows_init_comms|intros _].
    unfold the_intra_nccl_comm.
    destruct Hb as [<-|[<-|[]]]; grow.
  - unfold allreduce_grad.
    apply grows_bind; [now apply single_grows_init_comms|intros _].
    unfold the_intra_nccl_comm.
    destruct Hb as [<-|[<-|[]]]; grow.
Qed.

Lemma single_grows_calls (b : BufRef State) (cs : list Call) (s : State) :
  In b [buffer_a; buffer_b] ->
  capacity b s <= capacity b (calls cs s).
Proof.
  intros Hb. revert s. induction cs as [|c cs IH]; intros s; cbn [calls].
  - reflexivity.
  - etransitivity; [apply (single_grows_call c Hb)|apply IH].
Qed.

End SingleGrowth.

(** X5. The device buffers of a communicator only grow. Over any sequence
    of [_init_comms], [broadcast_data] and [allreduce_grad] calls on one
    instance, whatever the models and however each call ends, the capacity
    of each buffer of a [PureNcclCommunicator] and of a
    [SingleNodeCommunicator] is at least what it was before. *)
Theorem X5_buffers_never_shrink {E : Externals} :
  (forall (cs : list PureNccl.Call) (s : PureNccl.State),
     let s' := PureNccl.calls cs s in
     capacity_bytes (PureNccl.gpu_tmp_buffer (PureNccl.self s))
     <= capacity_bytes (PureNccl.gpu_tmp_buffer (PureNccl.self s'))
     /\ capacity_bytes (PureNccl.gpu_allreduce_buffer_a (PureNccl.self s))
        <= capacity_bytes (PureNccl.gpu_allreduce_buffer_a (PureNccl.self s'))
     /\ capacity_bytes (PureNccl.gpu_allreduce_buffer_b (PureNccl.self s))
        <= capacity_bytes (PureNccl.gpu_allreduce_buffer_b (PureNccl.self s')))
  /\ (forall (cs : list SingleNode.Call) (s : SingleNode.State),
        let s' := SingleNode.calls cs s in
        capacity_bytes (SingleNode.gpu_buffer_a (SingleNode.self s))
        <= capacity_bytes (SingleNode.gpu_buffer_a (SingleNode.self s'))
        /\ capacity_bytes (SingleNode.gpu_buffer_b (SingleNode.self s))
           <= capacity_bytes (SingleNode.gpu_buffer_b (SingleNode.self s'))).
Proof.
  split; intros cs s s'; subst s'.
  - split; [|split].
    + apply (pure_grows_calls (b := PureNccl.tmp_buffer)). cbn. auto.
    + apply (pure_grows_calls (b := PureNccl.buffer_a)). cbn. auto.
    + apply (pure_grows_calls (b := PureNccl.buffer_b)). cbn. auto.
  - split.
    + apply (single_grows_calls (b := SingleNode.buffer_a)). cbn. auto.
    + apply (single_grows_calls (b := SingleNode.buffer_b)). cbn. auto.
Qed.

(** ** How a reduction can end *)

Section SingleOutcomes.

Context {E : Externals}.
Import SingleNode.

Ltac simpl_state :=
  cbn [self env base gpu_buffer_a gpu_buffer_b intra_nccl_comm
       buf_set buf_get buf_name buffer_a buffer_b
       world set_world State_HasWorld
       heap log peers root_memory with_log with_heap memory].

(** In a group of size zero the reduction gets as far as the division. *)
Lemma single_allreduce_grad_zero (model : Model) (s s1 : State) :
  _init_comms s = (inr tt, s1) ->
  size (base (self s1)) = 0 ->
  exists s2,
    allreduce_grad model s = (inl ZeroDivisionError, s2)
    /\ heap (env s2) = heap (env s1).
Proof.
  intros Hinit Hsize.
  destruct (single_init_comms_ok _ Hinit) as ([c Hc] & _).
  unfold allreduce_grad. unfold bind at 1. rewrite Hinit.
  unfold bind at 1. unfold extract_params, bind at 1, get, ret.
  fold (extracted (heap (world s1)) model). cbn [world State_HasWorld].
  unfold bind at 1. rewrite sum_grad_size_ok by apply extracted_all_views.
  cbn [world State_HasWorld Nat.add].
  unfold bind at 1, assign, bind at 1, emit, update_buf, modify.
  unfold bind at 1, bind at 1.
  unfold bind at 1, pack_params, bind at 1, emit, modify.
  rewrite (pack_walk_ok (BL := SingleNode_buffer_a_laws))
    by (cbn; apply extracted_all_views).
  unfold bind at 1, the_intra_nccl_comm, bind at 1, get.
  simpl_state. rewrite Hc. unfold ret.
  unfold bind at 1, allReduce, bind at 1, get.
  unfold bind at 1, emit, update_buf, modify.
  unfold bind at 1. unfold bind at 1, imul_recip.
  simpl_state. rewrite Hsize. cbn [Nat.eqb]. unfold raise.
  eexists. split; reflexivity.
Qed.

Lemma single_init_comms_raises (s s1 : State) e :
  _init_comms s = (inl e, s1) ->
  s1 = s
  /\ (e = RuntimeError
            "NCCL is not available. Please confirm that NCCL is enabled in CuPy."
      \/ e = AssertionError).
Proof.
  rewrite single_init_comms_cases.
  destruct (inter_mpi_comm (base (self s))).
  - destruct (intra_nccl_comm (self s)); [discriminate|].
    intros [= <- <-]. auto.
  - destruct (nccl_available (env s)); [discriminate|].
    intros [= <- <-]. auto.
Qed.

End SingleOutcomes.

(** X6. [SingleNodeCommunicator.allreduce_grad] can return only if
    [_init_comms] returns and the group is not empty. When it raises one
    of the errors of its own code, the [RuntimeError] or the
    [AssertionError] of [_init_comms] or the [ZeroDivisionError] of
    [1.0 / self.size], nothing has been unpacked yet: the parameters are as
    they were. *)
Theorem X6_single_node_allreduce_grad_outcomes {E : Externals}
    (model : Model) (s : SingleNode.State) :
  (returns (SingleNode.allreduce_grad model s) ->
   returns (SingleNode._init_comms s)
   /\ size (SingleNode.base (SingleNode.self s)) <> 0)
  /\ (forall e,
        raises (SingleNode.allreduce_grad model s) e ->
        e = RuntimeError
              "NCCL is not available. Please confirm that NCCL is enabled in CuPy."
        \/ e = AssertionError \/ e = ZeroDivisionError ->
        heap (SingleNode.env (final (SingleNode.allreduce_grad model s)))
        = heap (SingleNode.env s)).
Proof.
  destruct (SingleNode._init_comms s) as [[e0|[]] s1] eqn:Hinit.
  - destruct (single_init_comms_raises _ Hinit) as [-> He0].
    assert (Hrun : SingleNode.allreduce_grad model s = (inl e0, s)).
    { unfold SingleNode.allreduce_grad, bind at 1. now rewrite Hinit. }
    rewrite Hrun. split.
    + intros [a Ha]. discriminate.
    + intros e _ _. reflexivity.
  - destruct (single_init_comms_ok _ Hinit) as ([c Hc] & Hheap & _ & Hbase & _).
    rewrite <- Hbase.
    destruct (Nat.eq_dec (size (SingleNode.base (SingleNode.self s1))) 0)
      as [Hz|Hnz].
    + destruct (single_allreduce_grad_zero model s Hinit Hz)
        as (s2 & Hrun & Hheap2).
      rewrite Hrun. split.
      * intros [a Ha]. discriminate.
      * intros e _ _. cbn [final snd]. congruence.
    + rewrite (single_allreduce_grad_run model s Hinit Hc Hnz). split.
      * intros _. split; [exists tt; reflexivity|assumption].
      * intros e He. discriminate.
Qed.

Lemma X6_witness :
  (returns (SingleNode._init_comms single_new)
   /\ size (SingleNode.base (SingleNode.self single_new)) <> 0)
  /\ heap (SingleNode.env
             (final (SingleNode.allreduce_grad (E:=byte_externals)
                       frozen_model single_offline)))
     = heap (SingleNode.env single_offline).
Proof.
  split.
  - apply (X6_single_node_allreduce_grad_outcomes (E:=byte_externals)
             frozen_model single_new).
    exists tt. vm_compute. reflexivity.
  - apply (proj2 (X6_single_node_allreduce_grad_outcomes (E:=byte_externals)
                    frozen_model single_offline)
             (RuntimeError
                "NCCL is not available. Please confirm that NCCL is enabled in CuPy.")).
    + reflexivity.
    + left. reflexivity.
Defined.

Section PureOutcomes.

Context {E : Externals}.
Import PureNccl.

Ltac simpl_state :=
  cbn [self env base nccl_comm gpu_tmp_buffer gpu_allreduce_buffer_a
       gpu_allreduce_buffer_b allreduce_grad_dtype
       buf_set buf_get buf_name tmp_buffer buffer_a buffer_b
       world set_world State_HasWorld
       heap log peers with_log with_heap memory].

Lemma pure_init_comms_raises (s s1 : State) e :
  _init_comms s = (inl e, s1) ->
  s1 = s
  /\ e = RuntimeError
           "NCCL is not available. Please confirm that NCCL is enabled in CuPy.".
Proof.
  rewrite pure_init_comms_cases.
  destruct (nccl_comm (self s)); [discriminate|].
  destruct (nccl_available (env s)); [discriminate|].
  intros [= <- <-]. auto.
Qed.

Lemma pure_allreduce_grad_empty (model : Model) stream (s s1 : State) :
  _init_comms s = (inr tt, s1) ->
  extracted (heap (env s1)) model = [] ->
  allreduce_grad model stream s = (inl IndexError, s1).
Proof.
  intros Hinit Hex.
  unfold allreduce_grad, bind at 1. rewrite Hinit.
  unfold bind at 1, extract_params, bind at 1, get, ret at 1.
  fold (extracted (heap (world s1)) model).
  cbn [world State_HasWorld]. now rewrite Hex.
Qed.

Lemma extracted_first (h : Store) (model : Model) p0 rest :
  extracted h model = p0 :: rest -> exists g0, grad (h p0) = Some g0.
Proof.
  intros Hex. pose proof (extracted_all_views h model) as Hall.
  rewrite Hex in Hall. inversion Hall as [|? ? Hp _]; subst. cbn in Hp.
  destruct (grad (h p0)); [eauto|contradiction].
Qed.

Lemma get_nccl_type_id_raises d e :
  _get_nccl_type_id d = inl e ->
  e = ValueError "dtype must be float16, float32, or float64.".
Proof. destruct d; cbn; congruence. Qed.

(** The wire dtype has no NCCL type: the call stops before the
    reduction. *)
Lemma pure_allreduce_grad_bad_type (model : Model) stream (s s1 : State)
    p0 rest g0 e :
  _init_comms s = (inr tt, s1) ->
  extracted (heap (env s1)) model = p0 :: rest ->
  grad (heap (env s1) p0) = Some g0 ->
  _get_nccl_type_id
    (match allreduce_grad_dtype (self s1) with
     | None => arr_dtype g0 | Some d => d end) = inl e ->
  exists s2,
    allreduce_grad model stream s = (inl e, s2)
    /\ heap (env s2) = heap (env s1).
Proof.
  intros Hinit Hex Hg0 Hty.
  destruct (pure_init_comms_ok _ Hinit) as ([c Hc] & _).
  rewrite (pure_allreduce_grad_prefix model stream s Hinit Hc Hex Hg0).
  rewrite Hty. unfold lift, bind at 1, raise.
  eexists. split; reflexivity.
Qed.

(** In a group of size zero the call gets as far as the division. *)
Lemma pure_allreduce_grad_zero (model : Model) stream (s s1 : State)
    p0 rest g0 ty :
  _init_comms s = (inr tt, s1) ->
  extracted (heap (env s1)) model = p0 :: rest ->
  grad (heap (env s1) p0) = Some g0 ->
  _get_nccl_type_id
    (match allreduce_grad_dtype (self s1) with
     | None => arr_dtype g0 | Some d => d end) = inr ty ->
  size (base (self s1)) = 0 ->
  exists s2,
    allreduce_grad model stream s = (inl ZeroDivisionError, s2)
    /\ heap (env s2) = heap (env s1).
Proof.
  intros Hinit Hex Hg0 Hty Hsize.
  destruct (pure_init_comms_ok _ Hinit) as ([c Hc] & _).
  rewrite (pure_allreduce_grad_prefix model stream s Hinit Hc Hex Hg0).
  rewrite Hty. unfold lift.
  unfold bind at 1, ret at 1.
  unfold bind at 1, allReduce, bind at 1, get.
  unfold bind at 1, emit, update_buf, modify. simpl_state.
  unfold bind at 1.
  destruct (negb (Stream_eqb _ Stream_null)); cbn [when].
  - unfold synchronize, emit, modify. simpl_state.
    unfold bind at 1, array, bind at 1, get, ret at 1. simpl_state.
    unfold bind at 1, mul_recip. rewrite Hsize. cbn [Nat.eqb]. unfold raise.
    eexists. split; reflexivity.
  - unfold ret at 1.
    unfold bind at 1, array, bind at 1, get, ret at 1. simpl_state.
    unfold bind at 1, mul_recip. rewrite Hsize. cbn [Nat.eqb]. unfold raise.
    eexists. split; reflexivity.
Qed.

End PureOutcomes.

(** X7. [PureNcclCommunicator.allreduce_grad] can return only if
    [_init_comms] returns, some parameter has a gradient, the wire dtype
    (the override, or else the dtype of the first gradient in name order)
    is float16, float32 or float64, and the group is not empty. When it
    raises one of the errors of its own code, the [RuntimeError] of
    [_init_comms], the [IndexError] of [params[0]], the [ValueError] of the
    dtype mapping or the [ZeroDivisionError] of [1.0 / self.size], nothing
    has been unpacked yet: the parameters are as they were. *)
Theorem X7_pure_nccl_allreduce_grad_outcomes {E : Externals}
    (model : Model) (stream : option Stream) (s : PureNccl.State) :
  (returns (PureNccl.allreduce_grad model stream s) ->
   returns (PureNccl._init_comms s)
   /\ size (PureNccl.base (PureNccl.self s)) <> 0
   /\ exists p0 rest g0 ty,
        extracted (heap (PureNccl.env s)) model = p0 :: rest
        /\ grad (heap (PureNccl.env s) p0) = Some g0
        /\ PureNccl._get_nccl_type_id
             (match PureNccl.allreduce_grad_dtype (PureNccl.self s) with
              | None => arr_dtype g0
              | Some d => d
              end) = inr ty)
  /\ (forall e,
        raises (PureNccl.allreduce_grad model stream s) e ->
        e = RuntimeError
              "NCCL is not available. Please confirm that NCCL is enabled in CuPy."
        \/ e = IndexError
        \/ e = ValueError "dtype must be float16, float32, or float64."
        \/ e = ZeroDivisionError ->
        heap (PureNccl.env (final (PureNccl.allreduce_grad model stream s)))
        = heap (PureNccl.env s)).
Proof.
  destruct (PureNccl._init_comms s) as [[e0|[]] s1] eqn:Hinit.
  { destruct (pure_init_comms_raises _ Hinit) as [-> He0].
    assert (Hrun : PureNccl.allreduce_grad model stream s = (inl e0, s)).
    { unfold PureNccl.allreduce_grad, bind at 1. now rewrite Hinit. }
    rewrite Hrun. split.
    - intros [a Ha]. discriminate.
    - intros e _ _. reflexivity. }
  destruct (pure_init_comms_ok _ Hinit)
    as ([c Hc] & Hheap & _ & Hbase & Hdt).
  rewrite <- Hbase, <- Hdt, <- Hheap.
  destruct (extracted (heap (PureNccl.env s1)) model) as [|p0 rest] eqn:Hex.
  { rewrite (pure_allreduce_grad_empty model stream s Hinit Hex). split.
    - intros [a Ha]. discriminate.
    - intros e _ _. reflexivity. }
  destruct (extracted_first _ _ Hex) as [g0 Hg0].
  destruct (PureNccl._get_nccl_type_id
              (match PureNccl.allreduce_grad_dtype (PureNccl.self s1) with
               | None => arr_dtype g0
               | Some d => d
               end)) as [e1|ty] eqn:Hty.
  { destruct (pure_allreduce_grad_bad_type model stream s Hinit Hex Hg0 Hty)
      as (s2 & Hrun & Hheap2).
    rewrite Hrun. split.
    - intros [a Ha]. discriminate.
    - intros e _ _. cbn [final snd]. exact Hheap2. }
  destruct (Nat.eq_dec (size (PureNccl.base (PureNccl.self s1))) 0)
    as [Hz|Hnz].
  { destruct (pure_allreduce_grad_zero model stream s Hinit Hex Hg0 Hty Hz)
      as (s2 & Hrun & Hheap2).
    rewrite Hrun. split.
    - intros [a Ha]. discriminate.
    - intros e _ _. cbn [final snd]. exact Hheap2. }
  rewrite (pure_allreduce_grad_run model stream s Hinit Hc Hex Hg0 Hty Hnz).
  split.
  - intros _. split; [exists tt; reflexivity|]. split; [assumption|].
    exists p0, rest, g0, ty. auto.
  - intros e He. discriminate.
Qed.

Lemma X7_witness :
  (returns (PureNccl._init_comms (pure_new (Some float16)))
   /\ size (PureNccl.base (PureNccl.self (pure_new (Some float16)))) <> 0)
  /\ heap (PureNccl.env
             (final (PureNccl.allreduce_grad (E:=byte_externals)
                       demo_model None (pure_new (Some longdouble)))))
     = heap (PureNccl.env (pure_new (Some longdouble))).
Proof.
  split.
  - destruct (proj1 (X7_pure_nccl_allreduce_grad_outcomes (E:=byte_externals)
                       frozen_model None (pure_new (Some float16))))
      as (Hinit & Hsize & _).
    + exists tt. vm_compute. reflexivity.
    + split; assumption.
  - apply (proj2 (X7_pure_nccl_allreduce_grad_outcomes (E:=byte_externals)
                    demo_model None (pure_new (Some longdouble)))
             (ValueError "dtype must be float16, float32, or float64.")).
    + vm_compute. reflexivity.
    + right. right. left. reflexivity.
Defined.

(** ** How the single-node broadcast can end *)

Lemma all_views_dec (h : Store) attr params :
  {all_views h attr params}
  + {Exists (fun p => getattr (h p) attr = None) params}.
Proof.
  unfold all_views. induction params as [|p rest IH].
  - left. constructor.
  - destruct (getattr (h p) attr) as [v|] eqn:Hv.
    + destruct IH as [Hall|Hex].
      * left. constructor; [congruence|assumption].
      * right. now apply Exists_cons_tl.
    + right. now apply Exists_cons_hd.
Qed.

Lemma all_views_model (h : Store) attr (model : Model) :
  all_views h attr (map snd (sorted model))
  <-> forall np, In np model -> getattr (h (snd np)) attr <> None.
Proof.
  unfold all_views. rewrite Forall_forall. split.
  - intros H np Hin. apply H. apply in_map. now apply In_sorted.
  - intros H p Hp. apply in_map_iff in Hp as (np & <- & Hin).
    apply H. now apply In_sorted.
Qed.

Section PackMissing.

Context {St : Type} {HW : HasWorld St}.

(** A parameter without the selected view stops the walk with the error
    of reading an attribute of [None]; the parameters are not touched. *)
Lemma pack_walk_missing (b : BufRef St) {BL : BufLaws b} params item_size attr
    off (s : St) :
  Exists (fun p => getattr (heap (world s) p) attr = None) params ->
  exists s2,
    pack_walk params item_size attr b off s = (inl AttributeError, s2)
    /\ world s2 = world s.
Proof.
  revert off s. induction params as [|p rest IH]; intros off s Hex; cbn.
  - inversion Hex.
  - unfold bind at 1, view, bind at 1, get.
    destruct (getattr (heap (world s) p) attr) as [v|] eqn:Hv.
    + unfold ret, bind at 1, update_buf, modify.
      destruct (IH (off + arr_size v * item_size)
                  (buf_set b
                     (dm_from_device v (arr_size v * item_size) off
                        (buf_get b s)) s))
        as (s2 & Hrun & Hw).
      * rewrite world_buf_set. inversion Hex; subst; [congruence|assumption].
      * exists s2. split; [exact Hrun|]. now rewrite Hw, world_buf_set.
    + exists s. split; reflexivity.
Qed.

End PackMissing.

Section SingleBroadcastOutcomes.

Context {E : Externals}.
Import SingleNode.

Ltac simpl_state :=
  cbn [self env base gpu_buffer_a gpu_buffer_b intra_nccl_comm
       buf_set buf_get buf_name buffer_a buffer_b
       world set_world State_HasWorld
       heap log peers root_memory with_log with_heap memory].

(** Every parameter has a gradient but one has no data: the call stops
    while it packs. *)
Lemma single_broadcast_data_no_data (model : Model) (s s1 : State) :
  _init_comms s = (inr tt, s1) ->
  all_views (heap (env s1)) attr_grad (map snd (sorted model)) ->
  Exists (fun p => getattr (heap (env s1) p) attr_data = None)
    (map snd (sorted model)) ->
  exists s2,
    broadcast_data model s = (inl AttributeError, s2)
    /\ heap (env s2) = heap (env s1).
Proof.
  intros Hinit Hgrad Hdata.
  unfold broadcast_data. unfold bind at 1. rewrite Hinit.
  unfold bind at 1. rewrite sum_grad_size_ok by exact Hgrad.
  cbn [world State_HasWorld Nat.add].
  unfold bind at 1, assign, bind at 1, emit, update_buf, modify.
  unfold bind at 1, pack_params, bind at 1, emit, modify.
  match goal with
  | |- context [pack_walk ?ps ?i ?a ?b ?o ?st] =>
      destruct (@pack_walk_missing _ _ b _ ps i a o st) as (s2 & Hrun & Hw);
        [simpl_state; exact Hdata|rewrite Hrun]
  end.
  exists s2. split; [reflexivity|].
  change (env s2) with (world s2). rewrite Hw. reflexivity.
Qed.

End SingleBroadcastOutcomes.

(** X8. [SingleNodeCommunicator.broadcast_data] can return only if
    [_init_comms] returns and every named parameter of the model has both
    a gradient and a data view. When it raises one of the errors of its own
    code, the [RuntimeError] or the [AssertionError] of [_init_comms] or
    the [AttributeError] of a missing view, nothing has been unpacked yet:
    the parameters are as they were. *)
Theorem X8_single_node_broadcast_data_outcomes
    (model : Model) (s : SingleNode.State) :
  (returns (SingleNode.broadcast_data model s) ->
   returns (SingleNode._init_comms s)
   /\ forall np, In np model ->
        grad (heap (SingleNode.env s) (snd np)) <> None
        /\ data (heap (SingleNode.env s) (snd np)) <> None)
  /\ (forall e,
        raises (SingleNode.broadcast_data model s) e ->
        e = RuntimeError
              "NCCL is not available. Please confirm that NCCL is enabled in CuPy."
        \/ e = AssertionError \/ e = AttributeError ->
        heap (SingleNode.env (final (SingleNode.broadcast_data model s)))
        = heap (SingleNode.env s)).
Proof.
  destruct (SingleNode._init_comms s) as [[e0|[]] s1] eqn:Hinit.
  { destruct (single_init_comms_raises _ Hinit) as [-> He0].
    assert (Hrun : SingleNode.broadcast_data model s = (inl e0, s)).
    { unfold SingleNode.broadcast_data, bind at 1. now rewrite Hinit. }
    rewrite Hrun. split.
    - intros [a Ha]. discriminate.
    - intros e _ _. reflexivity. }
  destruct (single_init_comms_ok _ Hinit) as ([c Hc] & Hheap & _).
  rewrite <- Hheap.
  set (h := heap (SingleNode.env s1)) in *.
  set (params := map snd (sorted model)).
  destruct (all_views_dec h attr_grad params) as [Hgrad|Hnograd].
  2:{ assert (Hex : Exists (fun np => grad (h (snd np)) = None) model).
      { apply Exists_exists in Hnograd as (p & Hp & Hnone).
        apply in_map_iff in Hp as (np & <- & Hin).
        apply Exists_exists. exists np. split; [now apply In_sorted|exact Hnone]. }
      rewrite (single_broadcast_data_missing s Hinit Hex). split.
      - intros [a Ha]. discriminate.
      - intros e _ _. reflexivity. }
  destruct (all_views_dec h attr_data params) as [Hdata|Hnodata].
  2:{ destruct (single_broadcast_data_no_data model s Hinit Hgrad Hnodata)
        as (s2 & Hrun & Hheap2).
      rewrite Hrun. split.
      - intros [a Ha]. discriminate.
      - intros e _ _. exact Hheap2. }
  rewrite (single_broadcast_data_run model s Hinit Hc Hgrad Hdata). split.
  - intros _. split; [exists tt; reflexivity|].
    intros np Hin. split.
    + now apply (proj1 (all_views_model h attr_grad model) Hgrad np).
    + now apply (proj1 (all_views_model h attr_data model) Hdata np).
  - intros e He. discriminate.
Qed.

Lemma X8_witness :
  (returns (SingleNode._init_comms single_new)
   /\ grad (heap (SingleNode.env single_new) 0) <> None)
  /\ heap (SingleNode.env
             (final (SingleNode.broadcast_data frozen_model single_new)))
     = heap (SingleNode.env single_new).
Proof.
  split.
  - destruct (proj1 (X8_single_node_broadcast_data_outcomes demo_model
                       single_new)) as (Hinit & Hviews).
    + exists tt. vm_compute. reflexivity.
    + split; [exact Hinit|].
      apply (Hviews ("a", 0)). right. left. reflexivity.
  - apply (proj2 (X8_single_node_broadcast_data_outcomes frozen_model
                    single_new) AttributeError).
    + vm_compute. reflexivity.
    + right. right. reflexivity.
Defined.

(** ** What the single-node broadcast leaves in the parameters *)

Lemma single_init_comms_root_memory (s s1 : SingleNode.State) :
  SingleNode._init_comms s = (inr tt, s1) ->
  root_memory (SingleNode.env s1) = root_memory (SingleNode.env s).
Proof.
  rewrite single_init_comms_cases.
  destruct (inter_mpi_comm _).
  - destruct (SingleNode.intra_nccl_comm _); [|discriminate].
    now intros [= <-].
  - destruct (nccl_available _); [|discriminate]. now intros [= <-].
Qed.

Section UnpackPrefix.

Variables (item_size : nat) (attr : Attr).

(** Writing a view of the same size back changes no element count. *)
Lemma total_size_set (h : Store) p v v' params :
  getattr (h p) attr = Some v ->
  arr_size v' = arr_size v ->
  total_size (store_set h p (setattr (h p) attr v')) attr params
  = total_size h attr params.
Proof.
  intros Hv Hsize. induction params as [|q rest IH]; cbn; [reflexivity|].
  unfold store_set at 1. destruct (Nat.eqb_spec q p) as [->|Hq].
  - rewrite Hv. replace (getattr (setattr (h p) attr v') attr) with (Some v')
      by (destruct attr; reflexivity).
    now rewrite IH, Hsize.
  - destruct (getattr (h q) attr); [now rewrite IH|reflexivity].
Qed.

(** [unpack_store] looks only at the bytes the walk covers. *)
Lemma unpack_store_prefix params off mem mem' (h : Store) :
  firstn (off + total_size h attr params * item_size) mem
  = firstn (off + total_size h attr params * item_size) mem' ->
  unpack_store params item_size attr off mem h
  = unpack_store params item_size attr off mem' h.
Proof.
  revert off h. induction params as [|p rest IH]; intros off h Heq; cbn in *.
  - reflexivity.
  - destruct (getattr (h p) attr) as [v|] eqn:Hv; [|reflexivity].
    rewrite Nat.mul_add_distr_r in Heq.
    assert (Hread : read off (arr_size v * item_size) mem
                    = read off (arr_size v * item_size) mem').
    { apply read_prefix. eapply firstn_shorter; [|exact Heq]. lia. }
    unfold dm_to_device. cbn [memory]. rewrite Hread.
    apply IH. rewrite total_size_set with (v := v) by (assumption || reflexivity).
    eapply firstn_shorter; [|exact Heq]. lia.
Qed.

End UnpackPrefix.

(** X9. On the root of the broadcast, [SingleNodeCommunicator.broadcast_data]
    returns and leaves every parameter as it was, provided the buffer,
    which is sized from the element counts of the gradients, is large
    enough for the data it packs: the data views have no more elements in
    total than the gradient views. *)
Theorem X9_broadcast_data_on_the_root (model : Model)
    (s : SingleNode.State) :
  returns (SingleNode._init_comms s) ->
  root_memory (SingleNode.env s) = None ->
  let h := heap (SingleNode.env s) in
  let params := map snd (sorted model) in
  all_views h attr_grad params ->
  all_views h attr_data params ->
  total_size h attr_data params <= total_size h attr_grad params ->
  returns (SingleNode.broadcast_data model s)
  /\ forall l,
       heap (SingleNode.env (final (SingleNode.broadcast_data model s))) l
       = h l.
Proof.
  intros [[] Hret] Hroot h params Hgrad Hdata Hfit.
  destruct (SingleNode._init_comms s) as [r s1] eqn:Hinit.
  cbn in Hret. subst r.
  destruct (single_init_comms_ok _ Hinit) as ([c Hc] & Hheap & _).
  pose proof (single_init_comms_root_memory _ Hinit) as Hroot1.
  rewrite Hroot in Hroot1.
  assert (Hh : heap (SingleNode.env s1) = h) by exact Hheap.
  rewrite (single_broadcast_data_run model s Hinit Hc)
    by (rewrite Hh; assumption).
  rewrite Hroot1, Hh. fold params.
  split; [exists tt; reflexivity|].
  intros l. cbn [final snd SingleNode.env heap with_log with_heap].
  apply unpack_store_restores; [|reflexivity].
  apply pack_restores. cbn [Nat.add].
  etransitivity; [|apply dm_assign_length].
  apply Nat.mul_le_mono_r. exact Hfit.
Qed.

Lemma X9_witness :
  returns (SingleNode.broadcast_data demo_model single_new)
  /\ heap (SingleNode.env
             (final (SingleNode.broadcast_data demo_model single_new))) 0
     = demo_store 0.
Proof.
  destruct (X9_broadcast_data_on_the_root demo_model single_new)
    as [Hret Hheap].
  - exists tt. reflexivity.
  - reflexivity.
  - repeat constructor; discriminate.
  - repeat constructor; discriminate.
  - vm_compute. lia.
  - split; [exact Hret|apply Hheap].
Defined.

(** X10. Off the root, [SingleNodeCommunicator.broadcast_data] returns and
    leaves in the data views what unpacking the root's bytes gives, in name
    order at item size 4: what the rank packed of its own data is
    overwritten and plays no part. This holds when the root sends at least
    the bytes that are broadcast and the data views have no more elements
    in total than the gradient views the buffer is sized from. *)
Theorem X10_broadcast_data_off_the_root (model : Model)
    (s : SingleNode.State) (bs : list byte) :
  returns (SingleNode._init_comms s) ->
  root_memory (SingleNode.env s) = Some bs ->
  let h := heap (SingleNode.env s) in
  let params := map snd (sorted model) in
  let n := total_size h attr_grad params in
  all_views h attr_grad params ->
  all_views h attr_data params ->
  total_size h attr_data params <= n ->
  n * 4 <= length bs ->
  returns (SingleNode.broadcast_data model s)
  /\ heap (SingleNode.env (final (SingleNode.broadcast_data model s)))
     = unpack_store params 4 attr_data 0 bs h.
Proof.
  intros [[] Hret] Hroot h params n Hgrad Hdata Hfit Hbs.
  destruct (SingleNode._init_comms s) as [r s1] eqn:Hinit.
  cbn in Hret. subst r.
  destruct (single_init_comms_ok _ Hinit) as ([c Hc] & Hheap & _).
  pose proof (single_init_comms_root_memory _ Hinit) as Hroot1.
  rewrite Hroot in Hroot1.
  assert (Hh : heap (SingleNode.env s1) = h) by exact Hheap.
  rewrite (single_broadcast_data_run model s Hinit Hc)
    by (rewrite Hh; assumption).
  rewrite Hroot1, Hh. fold params. fold n.
  split; [exists tt; reflexivity|].
  cbn [final snd SingleNode.env heap with_log with_heap].
  apply unpack_store_prefix. cbn [Nat.add].
  apply firstn_shorter with (n := n * 4);
    [now apply Nat.mul_le_mono_r|].
  assert (Hsent : firstn (n * 4) bs = firstn (n * 4) (read 0 (n * 4) bs))
    by (now rewrite read0_firstn, firstn_firstn, Nat.min_id).
  rewrite Hsent at 1.
  apply alone_reduced; [assumption|].
  rewrite pack_mem_length. apply dm_assign_length.
Qed.

Lemma X10_witness :
  returns (SingleNode.broadcast_data demo_model single_follower)
  /\ data (heap (SingleNode.env
                   (final (SingleNode.broadcast_data demo_model
                             single_follower))) 1)
     = Some {| arr_dtype := float32; arr_size := 1;
               arr_raw := [x19; x1a; x1b; x1c] |}.
Proof.
  destruct (X10_broadcast_data_off_the_root demo_model single_follower
              (bs := root_payload)) as [Hret Hheap].
  - exists tt. reflexivity.
  - reflexivity.
  - repeat constructor; discriminate.
  - repeat constructor; discriminate.
  - vm_compute. lia.
  - vm_compute. lia.
  - split; [exact Hret|]. rewrite Hheap. vm_compute. reflexivity.
Defined.

(** ** The order of the parameters *)

Lemma ascii_compare_refl (c : ascii) : Ascii.compare c c = Eq.
Proof. unfold Ascii.compare. apply N.compare_refl. Qed.

Lemma ascii_compare_lt_trans (a b c : ascii) :
  Ascii.compare a b = Lt -> Ascii.compare b c = Lt -> Ascii.compare a c = Lt.
Proof.
  unfold Ascii.compare. rewrite !N.compare_lt_iff. apply N.lt_trans.
Qed.

Lemma string_leb_trans (s1 s2 s3 : string) :
  String.leb s1 s2 = true -> String.leb s2 s3 = true ->
  String.leb s1 s3 = true.
Proof.
  unfold String.leb. revert s2 s3.
  induction s1 as [|c1 s1 IH]; intros [|c2 s2] [|c3 s3]; cbn;
    try congruence.
  destruct (Ascii.compare c1 c2) eqn:H12;
    destruct (Ascii.compare c2 c3) eqn:H23; try congruence.
  - apply Ascii.compare_eq_iff in H12, H23. subst.
    rewrite ascii_compare_refl. apply IH.
  - apply Ascii.compare_eq_iff in H12. subst. now rewrite H23.
  - apply Ascii.compare_eq_iff in H23. subst. now rewrite H12.
  - now rewrite (ascii_compare_lt_trans _ _ _ H12 H23).
Qed.

Lemma name_le_trans x y z : name_le x y -> name_le y z -> name_le x z.
Proof. apply string_leb_trans. Qed.

Lemma insert_by_name_permutation x (l : Model) :
  Permutation (insert_by_name x l) (x :: l).
Proof.
  induction l as [|y l IH]; cbn.
  - reflexivity.
  - destruct (String.leb (fst x) (fst y)); [reflexivity|].
    rewrite IH. apply perm_swap.
Qed.

Lemma sorted_permutation (m : Model) : Permutation (sorted m) m.
Proof.
  induction m as [|x m IH]; cbn.
  - reflexivity.
  - rewrite insert_by_name_permutation. now constructor.
Qed.

Lemma insert_by_name_sorted x (l : Model) :
  StronglySorted name_le l -> StronglySorted name_le (insert_by_name x l).
Proof.
  induction 1 as [|y l Hl IH Hy]; cbn.
  - constructor; constructor.
  - destruct (String.leb (fst x) (fst y)) eqn:Hxy.
    + constructor; [now constructor|].
      constructor; [exact Hxy|].
      rewrite Forall_forall in Hy |- *. intros z Hz.
      eapply name_le_trans; [exact Hxy|now apply Hy].
    + constructor; [exact IH|].
      rewrite Forall_forall in Hy |- *. intros z Hz.
      apply In_insert_by_name in Hz as [->|Hz]; [|now apply Hy].
      unfold name_le. destruct (String.leb_total (fst x) (fst y)); congruence.
Qed.

Lemma sorted_sorted (m : Model) : StronglySorted name_le (sorted m).
Proof.
  induction m as [|x m IH]; cbn.
  - constructor.
  - now apply insert_by_name_sorted.
Qed.

Lemma same_name_same_entry (l : Model) x y :
  NoDup (map fst l) -> In x l -> In y l -> fst x = fst y -> x = y.
Proof.
  induction l as [|z l IH]; cbn; [contradiction|].
  intros Hnd [->|Hx] [->|Hy] Hxy; inversion Hnd as [|? ? Hz Hl]; subst.
  - reflexivity.
  - exfalso. apply Hz. rewrite Hxy. now apply in_map.
  - exfalso. apply Hz. rewrite <- Hxy. now apply in_map.
  - now apply IH.
Qed.

(** Two lists in name order that hold the same entries, no name twice,
    are the same list. *)
Lemma name_order_unique (l l' : Model) :
  StronglySorted name_le l -> StronglySorted name_le l' ->
  Permutation l l' -> NoDup (map fst l) -> l = l'.
Proof.
  intros Hl. revert l'. induction Hl as [|x l Hl IH Hx]; intros l' Hl' Hp Hnd.
  - apply Permutation_nil in Hp. now subst.
  - destruct Hl' as [|x' l' Hl' Hx'].
    + apply Permutation_sym, Permutation_nil in Hp. discriminate.
    + assert (Hxx : x = x').
      { assert (Hin : In x (x' :: l'))
          by (eapply Permutation_in; [exact Hp|now left]).
        assert (Hin' : In x' (x :: l))
          by (eapply Permutation_in;
              [apply Permutation_sym; exact Hp|now left]).
        destruct Hin as [->|Hin]; [reflexivity|].
        destruct Hin' as [->|Hin']; [reflexivity|].
        rewrite Forall_forall in Hx, Hx'.
        apply (same_name_same_entry (x :: l)); cbn; auto.
        apply String.leb_antisym; [now apply Hx|now apply Hx']. }
      subst x'. f_equal. apply IH.
      * exact Hl'.
      * now apply Permutation_cons_inv in Hp.
      * now inversion Hnd.
Qed.

Lemma sorted_order_independent (m m' : Model) :
  Permutation m m' -> NoDup (map fst m) -> sorted m = sorted m'.
Proof.
  intros Hp Hnd. apply name_order_unique.
  - apply sorted_sorted.
  - apply sorted_sorted.
  - rewrite !sorted_permutation. exact Hp.
  - eapply Permutation_NoDup; [|exact Hnd].
    apply Permutation_map, Permutation_sym, sorted_permutation.
Qed.

(** X11. The order in which a model yields its named parameters does not
    matter: two models that yield the same parameters under distinct names
    are packed in the same order, so that the single-node
    [broadcast_data] and [allreduce_grad] of both classes do the same on
    either, from every state. *)
Theorem X11_order_of_namedparams_is_irrelevant {E : Externals}
    (model model' : Model) :
  Permutation model model' ->
  NoDup (map fst model) ->
  sorted model = sorted model'
  /\ (forall s, SingleNode.broadcast_data model s
                = SingleNode.broadcast_data model' s)
  /\ (forall s, SingleNode.allreduce_grad model s
                = SingleNode.allreduce_grad model' s)
  /\ (forall stream s,
        PureNccl.allreduce_grad model stream s
        = PureNccl.allreduce_grad model' stream s).
Proof.
  intros Hp Hnd.
  pose proof (sorted_order_independent Hp Hnd) as Hs.
  split; [exact Hs|]. split; [|split].
  - intros s. unfold SingleNode.broadcast_data. now rewrite Hs.
  - intros s. unfold SingleNode.allreduce_grad, extract_params.
    now rewrite Hs.
  - intros stream s. unfold PureNccl.allreduce_grad, extract_params.
    now rewrite Hs.
Qed.

Lemma X11_witness :
  sorted demo_model = sorted [("a", 0); ("b", 1)]
  /\ SingleNode.allreduce_grad (E:=byte_externals) demo_model single_new
     = SingleNode.allreduce_grad (E:=byte_externals) [("a", 0); ("b", 1)]
         single_new.
Proof.
  destruct (X11_order_of_namedparams_is_irrelevant (E:=byte_externals)
              (model := demo_model) (model' := [("a", 0); ("b", 1)]))
    as (Hs & _ & Hall & _).
  - apply perm_swap.
  - repeat constructor; cbn; intuition discriminate.
  - split; [exact Hs|apply Hall].
Defined.

(** ** What a call touches in the parameters *)

Lemma write0_skipn k bs (mem : list byte) :
  length bs <= k -> skipn k (write 0 bs mem) = skipn k mem.
Proof.
  intros Hk. unfold write. cbn [firstn app Nat.add].
  destruct (Nat.le_gt_cases (length bs) (length mem)) as [Hle|Hgt].
  - rewrite firstn_all2 by (rewrite length_app, length_skipn; lia).
    rewrite skipn_app, skipn_skipn.
    rewrite (skipn_all2 (n := k) bs) by assumption. cbn [app].
    f_equal. lia.
  - rewrite !skipn_all2; [reflexivity|lia|].
    rewrite length_firstn. lia.
Qed.

Lemma same_shape_refl o : same_shape o o.
Proof. destruct o; cbn; auto. Qed.

Lemma same_shape_trans o1 o2 o3 :
  same_shape o1 o2 -> same_shape o2 o3 -> same_shape o1 o3.
Proof.
  destruct o1, o2, o3; cbn; try tauto.
  intros (? & ? & ?) (? & ? & ?). repeat split; congruence.
Qed.

Section UnpackTouches.

Variables (item_size : nat) (attr : Attr).

(** What one step of the walk makes of a parameter. *)
Lemma unpack_step (h : Store) p v off mem l :
  getattr (h p) attr = Some v ->
  let h1 := store_set h p
              (setattr (h p) attr
                 (dm_to_device v (arr_size v * item_size) off
                    {| memory := mem |})) in
  (forall a, a <> attr -> getattr (h1 l) a = getattr (h l) a)
  /\ (l <> p -> h1 l = h l)
  /\ same_shape (getattr (h l) attr) (getattr (h1 l) attr)
  /\ same_tail item_size (getattr (h l) attr) (getattr (h1 l) attr).
Proof.
  intros Hv h1. unfold h1, store_set.
  destruct (Nat.eqb_spec l p) as [->|Hl].
  - split; [|split; [|split]].
    + intros a Ha. destruct a, attr; cbn; congruence.
    + congruence.
    + rewrite Hv. destruct attr; cbn; rewrite write_length; auto.
    + rewrite Hv. destruct attr; cbn; apply write0_skipn; unfold read;
        rewrite length_firstn; lia.
  - split; [|split; [|split]]; auto using same_shape_refl.
    unfold same_tail. now destruct (getattr (h l) attr).
Qed.

Lemma same_tail_trans o1 o2 o3 :
  same_shape o1 o2 ->
  same_tail item_size o1 o2 -> same_tail item_size o2 o3 ->
  same_tail item_size o1 o3.
Proof.
  destruct o1, o2, o3; cbn; try tauto.
  intros (_ & Hsize & _) H12 H23. rewrite <- H12, <- Hsize. exact H23.
Qed.

(** Unpacking writes to the selected view of the parameters it walks and
    to nothing else, and keeps the shape of what it writes to. *)
Lemma unpack_store_touches params off mem (h : Store) l :
  let h' := unpack_store params item_size attr off mem h in
  (forall a, a <> attr -> getattr (h' l) a = getattr (h l) a)
  /\ (~ In l params -> h' l = h l)
  /\ same_shape (getattr (h l) attr) (getattr (h' l) attr)
  /\ same_tail item_size (getattr (h l) attr) (getattr (h' l) attr).
Proof.
  revert off h. induction params as [|p rest IH]; intros off h; cbn.
  - split; [|split; [|split]]; auto using same_shape_refl.
    unfold same_tail. now destruct (getattr (h l) attr).
  - destruct (getattr (h p) attr) as [v|] eqn:Hv.
    + destruct (unpack_step h p off mem l Hv) as (Ha1 & Hl1 & Hs1 & Ht1).
      match goal with
      | |- context [unpack_store rest item_size attr ?o mem ?h1] =>
          destruct (IH o h1) as (Ha2 & Hl2 & Hs2 & Ht2)
      end.
      split; [|split; [|split]].
      * intros a Ha. now rewrite Ha2, Ha1.
      * intros Hnot.
        rewrite Hl2 by (intros Hin; apply Hnot; now right).
        apply Hl1. intros ->. apply Hnot. now left.
      * eapply same_shape_trans; eassumption.
      * eapply same_tail_trans; eassumption.
    + split; [|split; [|split]]; auto using same_shape_refl.
      unfold same_tail. now destruct (getattr (h l) attr).
Qed.

End UnpackTouches.

Section FinalHeaps.

Context {E : Externals}.

(** The parameters after a call are those before it, or what unpacking
    some buffer into them gives. *)
Lemma single_allreduce_grad_heap (model : Model) (s : SingleNode.State) :
  let h := heap (SingleNode.env s) in
  let h' := heap (SingleNode.env (final (SingleNode.allreduce_grad model s))) in
  h' = h
  \/ exists mem,
       h' = unpack_store (extracted h model) 4 attr_grad 0 mem h.
Proof.
  intros h h'. subst h h'.
  destruct (SingleNode._init_comms s) as [[e0|[]] s1] eqn:Hinit.
  - destruct (single_init_comms_raises _ Hinit) as [-> _].
    left. unfold SingleNode.allreduce_grad, bind at 1. now rewrite Hinit.
  - destruct (single_init_comms_ok _ Hinit) as ([c Hc] & Hheap & _).
    destruct (Nat.eq_dec (size (SingleNode.base (SingleNode.self s1))) 0)
      as [Hz|Hnz].
    + destruct (single_allreduce_grad_zero model s Hinit Hz)
        as (s2 & Hrun & Hheap2).
      left. rewrite Hrun. cbn [final snd]. congruence.
    + right. rewrite (single_allreduce_grad_run model s Hinit Hc Hnz).
      cbn [final snd SingleNode.env heap with_log with_heap].
      rewrite Hheap. eexists. reflexivity.
Qed.

Lemma pure_allreduce_grad_heap (model : Model) stream (s : PureNccl.State) :
  let h := heap (PureNccl.env s) in
  let h' :=
    heap (PureNccl.env (final (PureNccl.allreduce_grad model stream s))) in
  h' = h
  \/ exists item_size mem,
       h' = unpack_store (extracted h model) item_size attr_grad 0 mem h.
Proof.
  intros h h'. subst h h'.
  destruct (PureNccl._init_comms s) as [[e0|[]] s1] eqn:Hinit.
  { destruct (pure_init_comms_raises _ Hinit) as [-> _].
    left. unfold PureNccl.allreduce_grad, bind at 1. now rewrite Hinit. }
  destruct (pure_init_comms_ok _ Hinit) as ([c Hc] & Hheap & _).
  destruct (extracted (heap (PureNccl.env s1)) model) as [|p0 rest] eqn:Hex.
  { left. rewrite (pure_allreduce_grad_empty model stream s Hinit Hex).
    exact Hheap. }
  destruct (extracted_first _ _ Hex) as [g0 Hg0].
  destruct (PureNccl._get_nccl_type_id
              (match PureNccl.allreduce_grad_dtype (PureNccl.self s1) with
               | None => arr_dtype g0
               | Some d => d
               end)) as [e1|ty] eqn:Hty.
  { destruct (pure_allreduce_grad_bad_type model stream s Hinit Hex Hg0 Hty)
      as (s2 & Hrun & Hheap2).
    left. rewrite Hrun. cbn [final snd]. congruence. }
  destruct (Nat.eq_dec (size (PureNccl.base (PureNccl.self s1))) 0)
    as [Hz|Hnz].
  { destruct (pure_allreduce_grad_zero model stream s Hinit Hex Hg0 Hty Hz)
      as (s2 & Hrun & Hheap2).
    left. rewrite Hrun. cbn [final snd]. congruence. }
  right.
  rewrite (pure_allreduce_grad_run model stream s Hinit Hc Hex Hg0 Hty Hnz).
  cbn [final snd PureNccl.env heap with_log with_heap].
  rewrite <- Hheap, Hex.
  destruct (negb (dtype_eqb _ _)); eexists _, _; reflexivity.
Qed.

End FinalHeaps.

(** The same with the item size the pure NCCL communicator unpacks at,
    that of the dtype of the first gradient. *)
Lemma pure_allreduce_grad_heap_native {E : Externals} (model : Model) stream
    (s : PureNccl.State) p0 rest g0 :
  let h := heap (PureNccl.env s) in
  let h' :=
    heap (PureNccl.env (final (PureNccl.allreduce_grad model stream s))) in
  extracted h model = p0 :: rest ->
  grad (h p0) = Some g0 ->
  h' = h
  \/ exists mem,
       h' = unpack_store (p0 :: rest) (itemsize (arr_dtype g0)) attr_grad 0
              mem h.
Proof.
  intros h h' Hex Hg0. subst h h'.
  destruct (PureNccl._init_comms s) as [[e0|[]] s1] eqn:Hinit.
  { destruct (pure_init_comms_raises _ Hinit) as [-> _].
    left. unfold PureNccl.allreduce_grad, bind at 1. now rewrite Hinit. }
  destruct (pure_init_comms_ok _ Hinit) as ([c Hc] & Hheap & _).
  rewrite <- Hheap in Hex, Hg0.
  destruct (PureNccl._get_nccl_type_id
              (match PureNccl.allreduce_grad_dtype (PureNccl.self s1) with
               | None => arr_dtype g0
               | Some d => d
               end)) as [e1|ty] eqn:Hty.
  { destruct (pure_allreduce_grad_bad_type model stream s Hinit Hex Hg0 Hty)
      as (s2 & Hrun & Hheap2).
    left. rewrite Hrun. cbn [final snd]. congruence. }
  destruct (Nat.eq_dec (size (PureNccl.base (PureNccl.self s1))) 0)
    as [Hz|Hnz].
  { destruct (pure_allreduce_grad_zero model stream s Hinit Hex Hg0 Hty Hz)
      as (s2 & Hrun & Hheap2).
    left. rewrite Hrun. cbn [final snd]. congruence. }
  right.
  rewrite (pure_allreduce_grad_run model stream s Hinit Hc Hex Hg0 Hty Hnz).
  cbn [final snd PureNccl.env heap with_log with_heap].
  rewrite <- Hheap.
  destruct (dtype_eqb (arr_dtype g0) _) eqn:Hd; cbn [negb].
  - apply dtype_eqb_eq in Hd. rewrite <- Hd. eexists. reflexivity.
  - eexists. reflexivity.
Qed.

(** X12. When [allreduce_grad] returns, on gradients that hold at least
    the bytes it moves for each of their elements, it has written to
    gradient views only: the data view of every parameter is as it was, a
    parameter without a gradient or outside the model is as it was, and
    every gradient keeps its dtype, its element count and its byte length.
    A gradient is written as one block from its start, of its element
    count times the item size: 4 in the single-node variant whatever the
    dtype, the item size of the first gradient's dtype in the pure NCCL
    variant. The bytes of a gradient past that block are as they were; in
    the single-node variant that is the second half of a float64
    gradient. *)
Theorem X12_allreduce_grad_writes_gradients_only {E : Externals}
    (model : Model) (l : loc) :
  (forall (s : SingleNode.State),
     let h := heap (SingleNode.env s) in
     let h' :=
       heap (SingleNode.env (final (SingleNode.allreduce_grad model s))) in
     returns (SingleNode.allreduce_grad model s) ->
     full_views h 4 attr_grad (extracted h model) ->
     data (h' l) = data (h l)
     /\ (~ In l (extracted h model) -> h' l = h l)
     /\ same_shape (grad (h l)) (grad (h' l))
     /\ same_tail 4 (grad (h l)) (grad (h' l)))
  /\ (forall stream (s : PureNccl.State) p0 rest g0,
        let h := heap (PureNccl.env s) in
        let h' :=
          heap (PureNccl.env
                  (final (PureNccl.allreduce_grad model stream s))) in
        returns (PureNccl.allreduce_grad model stream s) ->
        extracted h model = p0 :: rest ->
        grad (h p0) = Some g0 ->
        full_views h (itemsize (arr_dtype g0)) attr_grad (p0 :: rest) ->
        data (h' l) = data (h l)
        /\ (~ In l (p0 :: rest) -> h' l = h l)
        /\ same_shape (grad (h l)) (grad (h' l))
        /\ same_tail (itemsize (arr_dtype g0)) (grad (h l)) (grad (h' l))).
Proof.
  split.
  - intros s h h' _ _.
    destruct (single_allreduce_grad_heap model s) as [Hsame|[mem Hunpack]];
      fold h in Hsame || fold h in Hunpack; fold h' in Hsame || fold h' in Hunpack.
    + rewrite Hsame. repeat split; auto using same_shape_refl.
      unfold same_tail. now destruct (grad (h l)).
    + rewrite Hunpack.
      destruct (unpack_store_touches 4 attr_grad (extracted h model) 0 mem h l)
        as (Ha & Hl & Hs & Ht).
      repeat split; try assumption.
      apply (Ha attr_data). discriminate.
  - intros stream s p0 rest g0 h h' _ Hex Hg0 _.
    destruct (pure_allreduce_grad_heap_native model stream s Hex Hg0)
      as [Hsame|(mem & Hunpack)];
      fold h in Hsame || fold h in Hunpack; fold h' in Hsame || fold h' in Hunpack.
    + rewrite Hsame. repeat split; auto using same_shape_refl.
      unfold same_tail. now destruct (grad (h l)).
    + rewrite Hunpack.
      destruct (unpack_store_touches (itemsize (arr_dtype g0)) attr_grad
                  (p0 :: rest) 0 mem h l) as (Ha & Hl & Hs & Ht).
      repeat split; try assumption.
      apply (Ha attr_data). discriminate.
Qed.

Lemma X12_witness :
  heap (SingleNode.env
          (final (SingleNode.allreduce_grad (E:=byte_externals) frozen_model
                    single_new))) 2
  = heap (SingleNode.env single_new) 2
  /\ heap (PureNccl.env
             (final (PureNccl.allreduce_grad (E:=byte_externals) frozen_model
                       None (pure_new None)))) 2
     = heap (PureNccl.env (pure_new None)) 2.
Proof.
  assert (Hfull : full_views demo_store 4 attr_grad [0; 1]).
  { repeat constructor.
    - exists grad_a. split; [reflexivity|cbn; lia].
    - exists grad_b. split; [reflexivity|cbn; lia]. }
  destruct (X12_allreduce_grad_writes_gradients_only (E:=byte_externals)
              frozen_model 2) as [Hsingle Hpure].
  split.
  - destruct (Hsingle single_new) as (_ & Hout & _).
    + exists tt. vm_compute. reflexivity.
    + exact Hfull.
    + apply Hout. vm_compute. intuition discriminate.
  - destruct (Hpure None (pure_new None) 0 [1] grad_a) as (_ & Hout & _).
    + exists tt. vm_compute. reflexivity.
    + vm_compute. reflexivity.
    + reflexivity.
    + exact Hfull.
    + apply Hout. vm_compute. intuition discriminate.
Defined.

Lemma single_broadcast_data_heap (model : Model) (s : SingleNode.State) :
  let h := heap (SingleNode.env s) in
  let h' := heap (SingleNode.env (final (SingleNode.broadcast_data model s))) in
  h' = h
  \/ exists mem,
       h' = unpack_store (map snd (sorted model)) 4 attr_data 0 mem h.
Proof.
  intros h h'. subst h h'.
  destruct (SingleNode._init_comms s) as [[e0|[]] s1] eqn:Hinit.
  { destruct (single_init_comms_raises _ Hinit) as [-> _].
    left. unfold SingleNode.broadcast_data, bind at 1. now rewrite Hinit. }
  destruct (single_init_comms_ok _ Hinit) as ([c Hc] & Hheap & _).
  destruct (all_views_dec (heap (SingleNode.env s1)) attr_grad
              (map snd (sorted model))) as [Hgrad|Hnograd].
  2:{ left.
      assert (Hex : Exists (fun np => grad (heap (SingleNode.env s1) (snd np))
                                      = None) model).
      { apply Exists_exists in Hnograd as (p & Hp & Hnone).
        apply in_map_iff in Hp as (np & <- & Hin).
        apply Exists_exists. exists np.
        split; [now apply In_sorted|exact Hnone]. }
      rewrite (single_broadcast_data_missing s Hinit Hex). exact Hheap. }
  destruct (all_views_dec (heap (SingleNode.env s1)) attr_data
              (map snd (sorted model))) as [Hdata|Hnodata].
  2:{ destruct (single_broadcast_data_no_data model s Hinit Hgrad Hnodata)
        as (s2 & Hrun & Hheap2).
      left. rewrite Hrun. cbn [final snd]. congruence. }
  right. rewrite (single_broadcast_data_run model s Hinit Hc Hgrad Hdata).
  cbn [final snd SingleNode.env heap with_log with_heap].
  rewrite Hheap. eexists. reflexivity.
Qed.

(** X13. When [SingleNodeCommunicator.broadcast_data] returns, on data
    views that hold at least 4 bytes for each of their elements and fit
    the buffer sized from the gradients, it has written to data views
    only: the gradient of every parameter is as it was, a parameter outside
    the model is as it was, and every data view keeps its dtype, its
    element count and its byte length. A data view is written as one block
    of 4 bytes an element from its start, whatever its dtype: the bytes
    past that block are as they were. *)
Theorem X13_broadcast_data_writes_data_only (model : Model)
    (s : SingleNode.State) (l : loc) :
  let h := heap (SingleNode.env s) in
  let h' := heap (SingleNode.env (final (SingleNode.broadcast_data model s))) in
  let params := map snd (sorted model) in
  returns (SingleNode.broadcast_data model s) ->
  full_views h 4 attr_data params ->
  total_size h attr_data params <= total_size h attr_grad params ->
  grad (h' l) = grad (h l)
  /\ (~ In l (map snd model) -> h' l = h l)
  /\ same_shape (data (h l)) (data (h' l))
  /\ same_tail 4 (data (h l)) (data (h' l)).
Proof.
  intros h h' params _ _ _.
  destruct (single_broadcast_data_heap model s) as [Hsame|[mem Hunpack]];
    fold h in Hsame || fold h in Hunpack;
    fold h' in Hsame || fold h' in Hunpack.
  - rewrite Hsame. repeat split; auto using same_shape_refl.
    unfold same_tail. now destruct (data (h l)).
  - rewrite Hunpack.
    destruct (unpack_store_touches 4 attr_data (map snd (sorted model)) 0 mem
                h l) as (Ha & Hl & Hs & Ht).
    repeat split; try assumption.
    + apply (Ha attr_grad). discriminate.
    + intros Hnot. apply Hl. intros Hin. apply Hnot.
      apply in_map_iff in Hin as (np & <- & Hin).
      apply in_map. now apply In_sorted.
Qed.

Lemma X13_witness :
  heap (SingleNode.env
          (final (SingleNode.broadcast_data demo_model single_follower))) 2
  = heap (SingleNode.env single_follower) 2.
Proof.
  destruct (X13_broadcast_data_writes_data_only demo_model single_follower 2)
    as (_ & Hout & _).
  - exists tt. vm_compute. reflexivity.
  - repeat constructor.
    + exists grad_a. split; [reflexivity|cbn; lia].
    + exists grad_b. split; [reflexivity|cbn; lia].
  - vm_compute. lia.
  - apply Hout. vm_compute. intuition discriminate.
Defined.

(** ** Construction *)

(** X14. The constructor of [PureNcclCommunicator] checks in this order:
    the NCCL version, the rank the topology query answers, the wire dtype.
    A version below 2.0 raises [RuntimeError] and a rank that differs from
    the rank of the MPI communicator raises [AssertionError], both before
    anything is allocated and whatever the dtype argument is. When the
    constructor returns, the instance has the four ranks the query
    answered, no NCCL handle, three buffers of capacity zero and the dtype
    it was given, which is [None] or a floating-point dtype; the world has
    only seen the three buffers being made. *)
Theorem X14_pure_nccl_constructor (b : CommunicatorBase)
    (dt : option dtype) (w : World) (r0 r1 r2 r3 r4 : nat) :
  mpi_my_ranks (mpi_comm b) = (r0, r1, r2, r3, r4) ->
  (nccl_version w < 2000 ->
   PureNccl.__init__ b dt w
   = (inl (RuntimeError "PureNcclCommunicator is only supported on NCCL 2.0+"),
      w))
  /\ (2000 <= nccl_version w -> r0 <> mpi_rank (mpi_comm b) ->
      PureNccl.__init__ b dt w = (inl AssertionError, w))
  /\ (forall c w',
        PureNccl.__init__ b dt w = (inr c, w') ->
        2000 <= nccl_version w
        /\ r0 = mpi_rank (mpi_comm b)
        /\ (dt = None \/ exists d, dt = Some d /\ kind d = "f"%char)
        /\ PureNccl.base c
           = {| mpi_comm := mpi_comm b;
                intra_rank := r1; intra_size := r2;
                inter_rank := r3; inter_size := r4;
                inter_mpi_comm := inter_mpi_comm b |}
        /\ PureNccl.nccl_comm c = None
        /\ PureNccl.allreduce_grad_dtype c = dt
        /\ capacity_bytes (PureNccl.gpu_tmp_buffer c) = 0
        /\ capacity_bytes (PureNccl.gpu_allreduce_buffer_a c) = 0
        /\ capacity_bytes (PureNccl.gpu_allreduce_buffer_b c) = 0
        /\ w' = with_log
                  (log w ++ [EvDeviceMemory "gpu_tmp_buffer";
                             EvDeviceMemory "gpu_allreduce_buffer_a";
                             EvDeviceMemory "gpu_allreduce_buffer_b"])
                  w).
Proof.
  intros Hr.
  unfold PureNccl.__init__, PureNccl._init_ranks, bind, get, emit, modify,
    ret, raise.
  rewrite Hr. cbn [world set_world World_HasWorld].
  destruct (Nat.ltb_spec (nccl_version w) 2000) as [Hv|Hv].
  { split; [reflexivity|]. split; [lia|]. intros c w' H. discriminate. }
  split; [lia|].
  destruct (Nat.eqb_spec r0 (mpi_rank (mpi_comm b))) as [H0|H0]; cbn [negb].
  2:{ split; [reflexivity|]. intros c w' H. discriminate. }
  split; [contradiction|]. intros c w'.
  rewrite !with_log_twice. cbn [log with_log].
  rewrite <- !app_assoc. cbn [app].
  destruct dt as [d|].
  - destruct (Ascii.eqb_spec (kind d) "f"%char) as [Hk|Hk]; cbn [negb];
      [|discriminate].
    intros [= <- <-]. cbn. repeat split; eauto.
  - intros [= <- <-]. cbn. repeat split; auto.
Qed.


Lemma X14_witness :
  PureNccl.__init__ one_process (Some int32) old_nccl_world
  = (inl (RuntimeError "PureNcclCommunicator is only supported on NCCL 2.0+"),
     old_nccl_world)
  /\ PureNccl.__init__ misranked_process (Some int32) demo_world
     = (inl AssertionError, demo_world)
  /\ PureNccl.nccl_comm (PureNccl.self (pure_new (Some float16))) = None.
Proof.
  split; [|split].
  - apply (@X14_pure_nccl_constructor one_process (Some int32) old_nccl_world
             0 0 1 0 1 eq_refl).
    vm_compute. lia.
  - apply (@X14_pure_nccl_constructor misranked_process (Some int32)
             demo_world 1 1 2 0 1 eq_refl).
    + vm_compute. lia.
    + vm_compute. discriminate.
  - apply (@X14_pure_nccl_constructor one_process (Some float16) demo_world
             0 0 1 0 1 eq_refl)
      with (w' := final (PureNccl.__init__ one_process (Some float16)
                           demo_world)).
    vm_compute. reflexivity.
Defined.

(** X15. The constructor of [SingleNodeCommunicator] returns exactly when
    the topology has one node: any other node count, zero included, raises
    [ValueError] before anything is allocated. When it returns, the
    instance is the base instance with two buffers of capacity zero and no
    NCCL handle; the world has only seen the two buffers being made. *)
Theorem X15_single_node_constructor (b : CommunicatorBase) (w : World) :
  (returns (SingleNode.__init__ b w) <-> inter_size b = 1)
  /\ (inter_size b <> 1 ->
      SingleNode.__init__ b w
      = (inl (ValueError
                "SingleNodeCommunicator cannot be used under multi-node settings"),
         w))
  /\ (forall c w',
        SingleNode.__init__ b w = (inr c, w') ->
        SingleNode.base c = b
        /\ SingleNode.intra_nccl_comm c = None
        /\ capacity_bytes (SingleNode.gpu_buffer_a c) = 0
        /\ capacity_bytes (SingleNode.gpu_buffer_b c) = 0
        /\ w' = with_log
                  (log w ++ [EvDeviceMemory "gpu_buffer_a";
                             EvDeviceMemory "gpu_buffer_b"])
                  w).
Proof.
  unfold SingleNode.__init__, bind, emit, modify, ret, raise.
  cbn [world set_world World_HasWorld].
  destruct (Nat.eqb_spec (inter_size b) 1) as [H1|H1]; cbn [negb].
  - split; [|split].
    + split; [auto|]. intros _. eexists. reflexivity.
    + contradiction.
    + intros c w'. rewrite !with_log_twice. cbn [log with_log].
      rewrite <- !app_assoc. cbn [app].
      intros [= <- <-]. cbn. repeat split; auto.
  - split; [|split].
    + split; [|contradiction]. intros [a Ha]. discriminate.
    + reflexivity.
    + intros c w' H. discriminate.
Qed.

Lemma X15_witness :
  SingleNode.__init__ no_node demo_world
  = (inl (ValueError
            "SingleNodeCommunicator cannot be used under multi-node settings"),
     demo_world)
  /\ SingleNode.intra_nccl_comm (SingleNode.self single_new) = None.
Proof.
  split.
  - apply (X15_single_node_constructor no_node demo_world).
    vm_compute. discriminate.
  - apply (X15_single_node_constructor one_process demo_world)
      with (w' := final (SingleNode.__init__ one_process demo_world)).
    vm_compute. reflexivity.
Defined.

(** ** The reduction stays inside the buffers *)

(** X16. When [allreduce_grad] returns, the elements handed to the
    collective fit the buffers it reads and writes. In the pure NCCL
    variant the NCCL type chosen for the wire dtype has the item size of
    that dtype, so the reduction covers exactly the bytes [_assign] sized
    buffers A and B for, and the staging buffer holds the gradients in
    their native dtype when a conversion takes place. In the single-node
    variant both buffers hold 4 bytes for each element reduced. *)
Theorem X16_reduction_fits_the_buffers {E : Externals} (model : Model) :
  (forall (stream : option Stream) (s s1 : PureNccl.State) p0 rest g0 ty,
     PureNccl._init_comms s = (inr tt, s1) ->
     extracted (heap (PureNccl.env s1)) model = p0 :: rest ->
     grad (heap (PureNccl.env s1) p0) = Some g0 ->
     let native := arr_dtype g0 in
     let wire := match PureNccl.allreduce_grad_dtype (PureNccl.self s1) with
                 | None => native
                 | Some d => d
                 end in
     PureNccl._get_nccl_type_id wire = inr ty ->
     size (PureNccl.base (PureNccl.self s1)) <> 0 ->
     let n := total_size (heap (PureNccl.env s1)) attr_grad (p0 :: rest) in
     let s' := final (PureNccl.allreduce_grad model stream s) in
     n * nccl_type_size ty = itemsize wire * n
     /\ n * nccl_type_size ty <= capacity PureNccl.buffer_a s'
     /\ n * nccl_type_size ty <= capacity PureNccl.buffer_b s'
     /\ (native <> wire ->
         itemsize native * n <= capacity PureNccl.tmp_buffer s'))
  /\ (forall (s s1 : SingleNode.State),
        SingleNode._init_comms s = (inr tt, s1) ->
        size (SingleNode.base (SingleNode.self s1)) <> 0 ->
        let h := heap (SingleNode.env s1) in
        let n := total_size h attr_grad (extracted h model) in
        let s' := final (SingleNode.allreduce_grad model s) in
        n * nccl_type_size NCCL_FLOAT <= capacity SingleNode.buffer_a s'
        /\ n * nccl_type_size NCCL_FLOAT <= capacity SingleNode.buffer_b s').
Proof.
  split.
  - intros stream s s1 p0 rest g0 ty Hinit Hex Hg0 native wire Hty Hsize n s'.
    destruct (pure_init_comms_ok _ Hinit) as ([c Hc] & _).
    assert (Hw : n * nccl_type_size ty = itemsize wire * n).
    { rewrite (nccl_type_size_itemsize _ Hty). apply Nat.mul_comm. }
    split; [exact Hw|]. rewrite Hw. subst s'.
    rewrite (pure_allreduce_grad_run model stream s Hinit Hc Hex Hg0 Hty Hsize).
    unfold capacity, capacity_bytes.
    cbn [final snd buf_get PureNccl.buffer_a PureNccl.buffer_b
         PureNccl.tmp_buffer PureNccl.self PureNccl.gpu_tmp_buffer
         PureNccl.gpu_allreduce_buffer_a PureNccl.gpu_allreduce_buffer_b
         memory].
    fold native. fold wire. fold n.
    destruct (dtype_eqb native wire) eqn:Hd; cbn [negb].
    + apply dtype_eqb_eq in Hd. split; [|split].
      * rewrite pack_mem_length. apply dm_assign_length.
      * rewrite !write_length. apply dm_assign_length.
      * congruence.
    + split; [|split].
      * rewrite write_length. apply dm_assign_length.
      * rewrite !write_length. apply dm_assign_length.
      * intros _. rewrite write_length, pack_mem_length.
        apply dm_assign_length.
  - intros s s1 Hinit Hsize h n s'.
    destruct (single_init_comms_ok _ Hinit) as ([c Hc] & _).
    subst s'.
    rewrite (single_allreduce_grad_run model s Hinit Hc Hsize).
    unfold capacity, capacity_bytes.
    cbn [final snd buf_get SingleNode.buffer_a SingleNode.buffer_b
         SingleNode.self SingleNode.gpu_buffer_a SingleNode.gpu_buffer_b
         memory nccl_type_size NCCL_FLOAT].
    fold h. fold n. split.
    + rewrite pack_mem_length. apply dm_assign_length.
    + rewrite !write_length. apply dm_assign_length.
Qed.

Lemma X16_witness :
  (3 * nccl_type_size NCCL_FLOAT16 = itemsize float16 * 3
   /\ itemsize float32 * 3
      <= capacity PureNccl.tmp_buffer
           (final (PureNccl.allreduce_grad (E:=byte_externals) demo_model
                     None (pure_new (Some float16)))))
  /\ 3 * nccl_type_size NCCL_FLOAT
     <= capacity SingleNode.buffer_b
          (final (SingleNode.allreduce_grad (E:=byte_externals) demo_model
                    single_new)).
Proof.
  destruct (X16_reduction_fits_the_buffers (E:=byte_externals) demo_model)
    as [Hpure Hsingle].
  split.
  - destruct (Hpure None (pure_new (Some float16))
                (final (PureNccl._init_comms (pure_new (Some float16))))
                0 [1] grad_a NCCL_FLOAT16) as (Hw & _ & _ & Ht).
    + vm_compute. reflexivity.
    + vm_compute. reflexivity.
    + vm_compute. reflexivity.
    + vm_compute. reflexivity.
    + vm_compute. discriminate.
    + split; [exact Hw|]. apply Ht. vm_compute. discriminate.
  - destruct (Hsingle single_new (final (SingleNode._init_comms single_new)))
      as (_ & Hb).
    + vm_compute. reflexivity.
    + vm_compute. discriminate.
    + exact Hb.
Defined.

(** ** What a reduction leaves in the gradients *)

Lemma write_prefix_exact off bs (mem : list byte) :
  off + length bs <= length mem ->
  firstn (off + length bs) (write off bs mem) = firstn off mem ++ bs.
Proof.
  intros Hlen. unfold write.
  rewrite (firstn_all2 (n := length mem))
    by (rewrite !length_app, length_firstn, length_skipn; lia).
  rewrite app_assoc.
  replace (off + length bs) with (length (firstn off mem ++ bs))
    by (rewrite length_app, length_firstn; lia).
  now rewrite firstn_app, firstn_all, Nat.sub_diag, firstn_O, app_nil_r.
Qed.

Section Packed.

Variables (h : Store) (item_size : nat) (attr : Attr).

Lemma full_views_all params :
  full_views h item_size attr params -> all_views h attr params.
Proof.
  unfold full_views, all_views. apply Forall_impl.
  intros p (v & Hv & _). congruence.
Qed.

Lemma packed_length params :
  full_views h item_size attr params ->
  length (packed h params item_size attr)
  = total_size h attr params * item_size.
Proof.
  induction 1 as [|p rest (v & Hv & Hraw) Hrest IH]; cbn; [reflexivity|].
  rewrite Hv, length_app, length_firstn, IH. lia.
Qed.

(** With views that hold all their bytes, what the walk leaves in the
    region it covers is the packed bytes, whatever the buffer held. *)
Lemma pack_mem_packed params off mem :
  full_views h item_size attr params ->
  off + total_size h attr params * item_size <= length mem ->
  firstn (off + total_size h attr params * item_size)
    (pack_mem h params item_size attr off mem)
  = firstn off mem ++ packed h params item_size attr.
Proof.
  intros Hfull. revert off mem.
  induction Hfull as [|p rest (v & Hv & Hraw) Hrest IH]; intros off mem Hlen;
    cbn in *.
  - now rewrite Nat.add_0_r, app_nil_r.
  - rewrite Hv in *. rewrite Nat.mul_add_distr_r in *.
    set (bs := firstn (arr_size v * item_size) (arr_raw v)).
    assert (Hbs : length bs = arr_size v * item_size)
      by (unfold bs; rewrite length_firstn; lia).
    rewrite Nat.add_assoc, IH by (rewrite write_length; lia).
    rewrite <- Hbs, write_prefix_exact by lia.
    now rewrite <- app_assoc.
Qed.

End Packed.

Section Reduced.

Variables (sumf scale : list byte -> list byte).
Hypothesis sumf_length : forall x, length (sumf x) = length x.
Hypothesis scale_length : forall x, length (scale x) = length x.

(** The first [k] bytes of buffer B after the reduction and the scaling,
    when buffer A starts with the [k] bytes [P]: they do not depend on what
    the buffers held before. *)
Lemma reduced_prefix k (P A2 B1 W : list byte) :
  firstn k A2 = P -> length P = k -> k <= length B1 ->
  let B2 := write 0 (firstn k (sumf (read 0 k A2))) B1 in
  W = scale (read 0 k B2) \/ W = firstn k (scale (read 0 k B2)) ->
  firstn k (write 0 W B2) = scale (sumf P).
Proof.
  intros HP Hk HB B2 HW.
  assert (Hsum : firstn k (sumf (read 0 k A2)) = sumf P).
  { rewrite read0_firstn, HP. apply firstn_all2. rewrite sumf_length. lia. }
  assert (Hread : read 0 k B2 = sumf P).
  { unfold B2. rewrite Hsum.
    replace k with (length (sumf P)) at 1 by (rewrite sumf_length; lia).
    apply read0_write0. rewrite sumf_length. lia. }
  assert (HW' : W = scale (sumf P)).
  { destruct HW as [->| ->]; rewrite Hread; [reflexivity|].
    apply firstn_all2. rewrite scale_length, sumf_length. lia. }
  subst W.
  replace k with (0 + length (scale (sumf P)))
    by (rewrite scale_length, sumf_length; lia).
  rewrite write_prefix_exact; [reflexivity|].
  unfold B2. rewrite write_length, scale_length, sumf_length. lia.
Qed.

End Reduced.

Lemma fold_sum_length {E : Externals} ty (peers : list (list byte)) a :
  (forall t x y, length (sum_raw t x y) = length x) ->
  length (fold_left (sum_raw ty) peers a) = length a.
Proof.
  intros Hsum. revert a. induction peers as [|b peers IH]; intros a; cbn.
  - reflexivity.
  - now rewrite IH, Hsum.
Qed.

Section Results.

Context {E : Externals}.
Hypothesis sum_length : forall t x y, length (sum_raw t x y) = length x.
Hypothesis mul_length : forall d n x, length (mul_recip_raw d n x) = length x.

Lemma single_allreduce_grad_result (model : Model) (s s1 : SingleNode.State) :
  SingleNode._init_comms s = (inr tt, s1) ->
  size (SingleNode.base (SingleNode.self s1)) <> 0 ->
  let h := heap (SingleNode.env s1) in
  let params := extracted h model in
  full_views h 4 attr_grad params ->
  SingleNode.allreduce_grad model s
  = (inr tt, final (SingleNode.allreduce_grad model s))
  /\ heap (SingleNode.env (final (SingleNode.allreduce_grad model s)))
     = unpack_store params 4 attr_grad 0
         (mul_recip_raw float32 (size (SingleNode.base (SingleNode.self s1)))
            (fold_left (sum_raw NCCL_FLOAT) (peers (SingleNode.env s1))
               (packed h params 4 attr_grad)))
         h.
Proof.
  intros Hinit Hsize h params Hfull.
  destruct (single_init_comms_ok _ Hinit) as ([c Hc] & _).
  rewrite (single_allreduce_grad_run model s Hinit Hc Hsize).
  split; [reflexivity|].
  cbn [final snd SingleNode.env heap with_log with_heap].
  fold h. fold params.
  set (n := total_size h attr_grad params).
  apply unpack_store_prefix. cbn [Nat.add]. fold n.
  pose proof (packed_length Hfull) as Hlen. fold n in Hlen.
  rewrite (firstn_all2 (n := n * 4)
             (mul_recip_raw _ _ (fold_left _ _ (packed h params 4 attr_grad))))
    by (rewrite mul_length, fold_sum_length, Hlen by exact sum_length; lia).
  apply (@reduced_prefix
           (fun x => fold_left (sum_raw NCCL_FLOAT)
                       (peers (SingleNode.env s1)) x)
           (mul_recip_raw float32
              (size (SingleNode.base (SingleNode.self s1))))).
  - intros x. now apply fold_sum_length.
  - intros x. apply mul_length.
  - exact (pack_mem_packed 0 _ Hfull (dm_assign_length _ _)).
  - exact Hlen.
  - apply dm_assign_length.
  - left. reflexivity.
Qed.

Lemma pure_allreduce_grad_result (model : Model) stream (s s1 : PureNccl.State)
    p0 rest g0 ty :
  PureNccl._init_comms s = (inr tt, s1) ->
  extracted (heap (PureNccl.env s1)) model = p0 :: rest ->
  grad (heap (PureNccl.env s1) p0) = Some g0 ->
  let h := heap (PureNccl.env s1) in
  let params := p0 :: rest in
  let wire := arr_dtype g0 in
  match PureNccl.allreduce_grad_dtype (PureNccl.self s1) with
  | None => True
  | Some d => d = wire
  end ->
  PureNccl._get_nccl_type_id wire = inr ty ->
  size (PureNccl.base (PureNccl.self s1)) <> 0 ->
  full_views h (itemsize wire) attr_grad params ->
  PureNccl.allreduce_grad model stream s
  = (inr tt, final (PureNccl.allreduce_grad model stream s))
  /\ heap (PureNccl.env (final (PureNccl.allreduce_grad model stream s)))
     = unpack_store params (itemsize wire) attr_grad 0
         (mul_recip_raw wire (size (PureNccl.base (PureNccl.self s1)))
            (fold_left (sum_raw ty) (peers (PureNccl.env s1))
               (packed h params (itemsize wire) attr_grad)))
         h.
Proof.
  intros Hinit Hex Hg0 h params wire Hdt Hty Hsize Hfull.
  destruct (pure_init_comms_ok _ Hinit) as ([c Hc] & _).
  assert (Hwire : match PureNccl.allreduce_grad_dtype (PureNccl.self s1) with
                  | None => arr_dtype g0
                  | Some d => d
                  end = wire).
  { destruct (PureNccl.allreduce_grad_dtype (PureNccl.self s1));
      [exact Hdt|reflexivity]. }
  assert (Hty' : PureNccl._get_nccl_type_id
                   (match PureNccl.allreduce_grad_dtype (PureNccl.self s1) with
                    | None => arr_dtype g0
                    | Some d => d
                    end) = inr ty) by now rewrite Hwire.
  rewrite (pure_allreduce_grad_run model stream s Hinit Hc Hex Hg0 Hty' Hsize).
  split; [reflexivity|].
  cbn [final snd PureNccl.env heap with_log with_heap].
  rewrite Hwire. fold h. fold params.
  replace (dtype_eqb (arr_dtype g0) wire) with true
    by (symmetry; now apply dtype_eqb_eq).
  cbn [negb].
  set (n := total_size h attr_grad params).
  rewrite (nccl_type_size_itemsize _ Hty).
  replace (itemsize wire * n) with (n * itemsize wire) by apply Nat.mul_comm.
  apply unpack_store_prefix. cbn [Nat.add]. fold n.
  pose proof (packed_length Hfull) as Hlen. fold n in Hlen.
  rewrite (firstn_all2 (n := n * itemsize wire)
             (mul_recip_raw _ _
                (fold_left _ _ (packed h params (itemsize wire) attr_grad))))
    by (rewrite mul_length, fold_sum_length, Hlen by exact sum_length; lia).
  apply (@reduced_prefix
           (fun x => fold_left (sum_raw ty) (peers (PureNccl.env s1)) x)
           (mul_recip_raw wire
              (size (PureNccl.base (PureNccl.self s1))))).
  - intros x. now apply fold_sum_length.
  - intros x. apply mul_length.
  - exact (pack_mem_packed 0 _ Hfull (dm_assign_length _ _)).
  - exact Hlen.
  - apply dm_assign_length.
  - right. reflexivity.
Qed.

End Results.

Lemma zip_bytes_length f (a b : list byte) :
  length (zip_bytes f a b) = length a.
Proof.
  revert b. induction a as [|x a IH]; intros [|y b]; cbn; auto.
Qed.

Lemma byte_externals_sum_length t x y :
  length (sum_raw (Externals := byte_externals) t x y) = length x.
Proof. apply zip_bytes_length. Qed.

Lemma byte_externals_mul_length d n x :
  length (mul_recip_raw (Externals := byte_externals) d n x) = length x.
Proof.
  cbn. destruct n as [|[|n]]; [apply length_map|reflexivity|apply length_map].
Qed.

Lemma demo_full_views : full_views demo_store 4 attr_grad [0; 1].
Proof.
  repeat constructor.
  - exists grad_a. split; [reflexivity|cbn; lia].
  - exists grad_b. split; [reflexivity|cbn; lia].
Qed.

(** X17. What [SingleNodeCommunicator.allreduce_grad] leaves in the
    gradients depends on the gradients, the contributions of the other
    ranks and the group size only, not on what the buffers held before:
    the gradients are unpacked, in name order at 4 bytes an element, from
    the sum of the packed gradients of all ranks multiplied by
    [1.0 / size]. This holds when every gradient view holds at least 4
    bytes for each of its elements and the sum and the product keep the
    length of their argument. *)
Theorem X17_single_node_allreduce_grad_result {E : Externals}
    (model : Model) (s : SingleNode.State) :
  (forall t x y, length (sum_raw t x y) = length x) ->
  (forall d n x, length (mul_recip_raw d n x) = length x) ->
  returns (SingleNode._init_comms s) ->
  size (SingleNode.base (SingleNode.self s)) <> 0 ->
  let h := heap (SingleNode.env s) in
  let params := extracted h model in
  full_views h 4 attr_grad params ->
  returns (SingleNode.allreduce_grad model s)
  /\ heap (SingleNode.env (final (SingleNode.allreduce_grad model s)))
     = unpack_store params 4 attr_grad 0
         (mul_recip_raw float32 (size (SingleNode.base (SingleNode.self s)))
            (fold_left (sum_raw NCCL_FLOAT) (peers (SingleNode.env s))
               (packed h params 4 attr_grad)))
         h.
Proof.
  intros Hsum Hmul [[] Hret] Hsize h params Hfull.
  destruct (SingleNode._init_comms s) as [r s1] eqn:Hinit.
  cbn in Hret. subst r.
  destruct (single_init_comms_ok _ Hinit)
    as (_ & Hheap & Hpeers & Hbase & _).
  rewrite <- Hbase in Hsize.
  destruct (single_allreduce_grad_result Hsum Hmul model s Hinit Hsize)
    as [Hrun Hres].
  { rewrite Hheap. exact Hfull. }
  split; [exists tt; now rewrite Hrun|].
  rewrite Hres, Hheap, Hpeers, Hbase. reflexivity.
Qed.

Lemma X17_witness :
  returns (SingleNode.allreduce_grad (E:=byte_externals) demo_model single_new)
  /\ heap (SingleNode.env
             (final (SingleNode.allreduce_grad (E:=byte_externals) demo_model
                       single_new)))
     = unpack_store [0; 1] 4 attr_grad 0
         [x01; x02; x03; x04; x05; x06; x07; x08; x0a; x0b; x0c; x0d]
         demo_store.
Proof.
  destruct (X17_single_node_allreduce_grad_result (E:=byte_externals)
              demo_model single_new) as [Hret Hheap].
  - apply byte_externals_sum_length.
  - apply byte_externals_mul_length.
  - exists tt. reflexivity.
  - vm_compute. discriminate.
  - exact demo_full_views.
  - split; [exact Hret|]. rewrite Hheap. reflexivity.
Defined.

(** X18. The same for [PureNcclCommunicator.allreduce_grad] when the wire
    dtype is the dtype of the first gradient, so that nothing is converted:
    the gradients are unpacked, in name order at the item size of that
    dtype, from the sum of the packed gradients of all ranks multiplied by
    [1.0 / size], whatever the buffers held before. Every gradient view
    must hold at least that item size for each of its elements. *)
Theorem X18_pure_nccl_allreduce_grad_result {E : Externals}
    (model : Model) (stream : option Stream) (s : PureNccl.State)
    p0 rest g0 ty :
  (forall t x y, length (sum_raw t x y) = length x) ->
  (forall d n x, length (mul_recip_raw d n x) = length x) ->
  returns (PureNccl._init_comms s) ->
  size (PureNccl.base (PureNccl.self s)) <> 0 ->
  let h := heap (PureNccl.env s) in
  extracted h model = p0 :: rest ->
  grad (h p0) = Some g0 ->
  let wire := arr_dtype g0 in
  PureNccl.allreduce_grad_dtype (PureNccl.self s) = None
  \/ PureNccl.allreduce_grad_dtype (PureNccl.self s) = Some wire ->
  PureNccl._get_nccl_type_id wire = inr ty ->
  full_views h (itemsize wire) attr_grad (p0 :: rest) ->
  returns (PureNccl.allreduce_grad model stream s)
  /\ heap (PureNccl.env (final (PureNccl.allreduce_grad model stream s)))
     = unpack_store (p0 :: rest) (itemsize wire) attr_grad 0
         (mul_recip_raw wire (size (PureNccl.base (PureNccl.self s)))
            (fold_left (sum_raw ty) (peers (PureNccl.env s))
               (packed h (p0 :: rest) (itemsize wire) attr_grad)))
         h.
Proof.
  intros Hsum Hmul [[] Hret] Hsize h Hex Hg0 wire Hdt Hty Hfull.
  destruct (PureNccl._init_comms s) as [r s1] eqn:Hinit.
  cbn in Hret. subst r.
  destruct (pure_init_comms_ok _ Hinit)
    as (_ & Hheap & Hpeers & Hbase & Hdtype).
  rewrite <- Hbase in Hsize. rewrite <- Hdtype in Hdt.
  destruct (pure_allreduce_grad_result Hsum Hmul model stream s (s1 := s1)
              (p0 := p0) (rest := rest) (g0 := g0) (ty := ty))
    as [Hrun Hres]; try assumption.
  - now rewrite Hheap.
  - now rewrite Hheap.
  - destruct Hdt as [-> | ->]; [exact I|reflexivity].
  - now rewrite Hheap.
  - split; [exists tt; now rewrite Hrun|].
    rewrite Hres, Hheap, Hpeers, Hbase. reflexivity.
Qed.

Lemma X18_witness :
  returns (PureNccl.allreduce_grad (E:=byte_externals) demo_model None
             (pure_new None))
  /\ heap (PureNccl.env
             (final (PureNccl.allreduce_grad (E:=byte_externals) demo_model
                       None (pure_new None))))
     = unpack_store [0; 1] 4 attr_grad 0
         [x01; x02; x03; x04; x05; x06; x07; x08; x0a; x0b; x0c; x0d]
         demo_store.
Proof.
  destruct (X18_pure_nccl_allreduce_grad_result (E:=byte_externals)
              demo_model None (pure_new None)
              (p0 := 0) (rest := [1]) (g0 := grad_a) (ty := NCCL_FLOAT32))
    as [Hret Hheap].
  - apply byte_externals_sum_length.
  - apply byte_externals_mul_length.
  - exists tt. reflexivity.
  - vm_compute. discriminate.
  - vm_compute. reflexivity.
  - reflexivity.
  - left. reflexivity.
  - reflexivity.
  - exact demo_full_views.
  - split; [exact Hret|]. rewrite Hheap. reflexivity.
Defined.

(** X19. On gradients reduced as float32 the two communicators agree: when
    the first gradient in name order is float32 and the wire dtype is not
    overridden, or overridden to float32, [PureNcclCommunicator.allreduce_grad]
    and [SingleNodeCommunicator.allreduce_grad] leave the same gradients,
    from the same parameters, the same contributions of the other ranks
    and the same group size, whatever their buffers held before. *)
Theorem X19_variants_agree_on_float32 {E : Externals}
    (model : Model) (stream : option Stream)
    (sp : PureNccl.State) (ss : SingleNode.State) p0 rest g0 :
  (forall t x y, length (sum_raw t x y) = length x) ->
  (forall d n x, length (mul_recip_raw d n x) = length x) ->
  returns (PureNccl._init_comms sp) ->
  returns (SingleNode._init_comms ss) ->
  heap (PureNccl.env sp) = heap (SingleNode.env ss) ->
  peers (PureNccl.env sp) = peers (SingleNode.env ss) ->
  size (PureNccl.base (PureNccl.self sp))
  = size (SingleNode.base (SingleNode.self ss)) ->
  size (SingleNode.base (SingleNode.self ss)) <> 0 ->
  let h := heap (SingleNode.env ss) in
  extracted h model = p0 :: rest ->
  grad (h p0) = Some g0 ->
  arr_dtype g0 = float32 ->
  PureNccl.allreduce_grad_dtype (PureNccl.self sp) = None
  \/ PureNccl.allreduce_grad_dtype (PureNccl.self sp) = Some float32 ->
  full_views h 4 attr_grad (p0 :: rest) ->
  returns (PureNccl.allreduce_grad model stream sp)
  /\ returns (SingleNode.allreduce_grad model ss)
  /\ heap (PureNccl.env (final (PureNccl.allreduce_grad model stream sp)))
     = heap (SingleNode.env (final (SingleNode.allreduce_grad model ss))).
Proof.
  intros Hsum Hmul [[] Hretp] [[] Hrets] Hheap Hpeers Hsizes Hsize h Hex Hg0
    Hf32 Hdt Hfull.
  destruct (PureNccl._init_comms sp) as [rp sp1] eqn:Hinitp.
  cbn in Hretp. subst rp.
  destruct (SingleNode._init_comms ss) as [rs ss1] eqn:Hinits.
  cbn in Hrets. subst rs.
  destruct (pure_init_comms_ok _ Hinitp)
    as (_ & Hheapp & Hpeersp & Hbasep & Hdtype).
  destruct (single_init_comms_ok _ Hinits)
    as (_ & Hheaps & Hpeerss & Hbases & _).
  assert (Hhp : heap (PureNccl.env sp1) = h) by (unfold h; congruence).
  assert (Hhs : heap (SingleNode.env ss1) = h) by (unfold h; congruence).
  destruct (single_allreduce_grad_result Hsum Hmul model ss Hinits)
    as [Hruns Hress].
  { now rewrite Hbases. }
  { rewrite Hhs, Hex. exact Hfull. }
  destruct (pure_allreduce_grad_result Hsum Hmul model stream sp (s1 := sp1)
              (p0 := p0) (rest := rest) (g0 := g0) (ty := NCCL_FLOAT32))
    as [Hrunp Hresp]; try assumption.
  - now rewrite Hhp.
  - now rewrite Hhp.
  - rewrite Hdtype, Hf32. destruct Hdt as [-> | ->]; [exact I|reflexivity].
  - now rewrite Hf32.
  - rewrite Hbasep. congruence.
  - rewrite Hhp, Hf32. exact Hfull.
  - split; [exists tt; now rewrite Hrunp|].
    split; [exists tt; now rewrite Hruns|].
    rewrite Hresp, Hress, Hhp, Hhs, Hex, Hf32, Hpeersp, Hpeerss, Hpeers,
      Hbasep, Hbases, Hsizes.
    reflexivity.
Qed.

Lemma X19_witness :
  heap (PureNccl.env
          (final (PureNccl.allreduce_grad (E:=byte_externals) demo_model None
                    (pure_new (Some float32)))))
  = heap (SingleNode.env
            (final (SingleNode.allreduce_grad (E:=byte_externals) demo_model
                      single_new))).
Proof.
  destruct (X19_variants_agree_on_float32 (E:=byte_externals) demo_model None
              (pure_new (Some float32)) single_new
              (p0 := 0) (rest := [1]) (g0 := grad_a))
    as (_ & _ & Hsame).
  - apply byte_externals_sum_length.
  - apply byte_externals_mul_length.
  - exists tt. reflexivity.
  - exists tt. reflexivity.
  - reflexivity.
  - reflexivity.
  - reflexivity.
  - vm_compute. discriminate.
  - vm_compute. reflexivity.
  - reflexivity.
  - reflexivity.
  - right. reflexivity.
  - exact demo_full_views.
  - exact Hsame.
Defined.

(** ** What the constructor settled stays *)

Section Settings.

Context {E : Externals}.

Lemma pure_keeps_settings (c : PureNccl.Call) :
  keeps PureNccl.settings (PureNccl.call c).
Proof.
  assert (Hinit : keeps PureNccl.settings PureNccl._init_comms).
  { intros s. rewrite pure_init_comms_cases.
    destruct (PureNccl.nccl_comm (PureNccl.self s)); [reflexivity|].
    destruct (nccl_available (PureNccl.env s)); reflexivity. }
  destruct c as [| model | model stream]; cbn [PureNccl.call].
  - exact Hinit.
  - unfold PureNccl.broadcast_data. frame.
  - unfold PureNccl.allreduce_grad.
    apply keeps_bind; [exact Hinit|intros _].
    unfold PureNccl._assign, PureNccl._pack_params_to_buffer,
      PureNccl._unpack_params_from_buffer.
    frame.
Qed.

Lemma single_keeps_settings (c : SingleNode.Call) :
  keeps SingleNode.settings (SingleNode.call c).
Proof.
  assert (Hinit : keeps SingleNode.settings SingleNode._init_comms).
  { intros s. rewrite single_init_comms_cases.
    destruct (inter_mpi_comm (SingleNode.base (SingleNode.self s))).
    - destruct (SingleNode.intra_nccl_comm (SingleNode.self s)); reflexivity.
    - destruct (nccl_available (SingleNode.env s)); reflexivity. }
  destruct c as [| model | model]; cbn [SingleNode.call].
  - exact Hinit.
  - unfold SingleNode.broadcast_data.
    apply keeps_bind; [exact Hinit|intros _].
    unfold SingleNode.the_intra_nccl_comm. frame.
  - unfold SingleNode.allreduce_grad.
    apply keeps_bind; [exact Hinit|intros _].
    unfold SingleNode.the_intra_nccl_comm. frame.
Qed.

End Settings.

(** X20. No method changes what the constructor settled. Over any sequence
    of [_init_comms], [broadcast_data] and [allreduce_grad] calls on one
    instance, however each call ends, a [PureNcclCommunicator] keeps its
    MPI communicator, its ranks and sizes and its [allreduce_grad_dtype],
    and a [SingleNodeCommunicator] keeps its MPI communicator and its ranks
    and sizes; [inter_mpi_comm] in particular is never set. *)
Theorem X20_settings_never_change {E : Externals} :
  (forall (cs : list PureNccl.Call) (s : PureNccl.State),
     PureNccl.base (PureNccl.self (PureNccl.calls cs s))
     = PureNccl.base (PureNccl.self s)
     /\ PureNccl.allreduce_grad_dtype (PureNccl.self (PureNccl.calls cs s))
        = PureNccl.allreduce_grad_dtype (PureNccl.self s))
  /\ (forall (cs : list SingleNode.Call) (s : SingleNode.State),
        SingleNode.base (SingleNode.self (SingleNode.calls cs s))
        = SingleNode.base (SingleNode.self s)).
Proof.
  split.
  - intros cs s.
    assert (H : PureNccl.settings (PureNccl.calls cs s) = PureNccl.settings s).
    { revert s. induction cs as [|c cs IH]; intros s; cbn [PureNccl.calls].
      - reflexivity.
      - rewrite IH. apply pure_keeps_settings. }
    unfold PureNccl.settings in H. now injection H.
  - intros cs s.
    change (SingleNode.settings (SingleNode.calls cs s) = SingleNode.settings s).
    revert s. induction cs as [|c cs IH]; intros s; cbn [SingleNode.calls].
    + reflexivity.
    + rewrite IH. apply single_keeps_settings.
Qed.
